(** * Thread Navigator (content.js): a shallow embedding and its properties

    The content script runs inside a chat page.  It polls until the page
    shows user messages, adds one floating trigger, and on demand lists the
    user prompts in a modal with search, copy and jump actions.

    The embedding follows content.js function by function.  The browser is
    modelled as far as the script observes it:
    - JS strings are sequences of code units; the development covers code
      units below 256 (one [ascii] each), on which [trim], [toLowerCase] and
      [includes] are written out exactly;
    - the document is the tree of elements below [document.body]; a node
      reference is the node's identity [uid]; inline styles live in a heap
      keyed by that identity;
    - timers, event listeners and the pending clipboard promise are data in
      the page state, and the page's events drive a step function. *)

From Stdlib Require Import String Ascii List Arith Lia Bool.
From Stdlib Require Import Decimal DecimalString DecimalNat DecimalFacts.
From stdpp Require Import base gmap.
Import ListNotations.
Open Scope string_scope.
Open Scope list_scope.
Open Scope nat_scope.

(* ===================================================================== *)
(** * Part I: definitions *)
(* ===================================================================== *)

(** ** JS strings *)

Definition code (c : ascii) : nat := nat_of_ascii c.

(** WhiteSpace and LineTerminator code units below 256 (ECMAScript
    StrWhiteSpaceChar): TAB, LF, VT, FF, CR, SP, NBSP. *)
Definition isWhiteSpace (c : ascii) : bool :=
  let n := code c in
  (n =? 9) || (n =? 10) || (n =? 11) || (n =? 12) || (n =? 13)
  || (n =? 32) || (n =? 160).

Definition isEmptyString (s : string) : bool :=
  match s with EmptyString => true | String _ _ => false end.

Fixpoint trimStart (s : string) : string :=
  match s with
  | EmptyString => EmptyString
  | String c r => if isWhiteSpace c then trimStart r else s
  end.

Fixpoint trimEnd (s : string) : string :=
  match s with
  | EmptyString => EmptyString
  | String c r =>
      let r' := trimEnd r in
      if isWhiteSpace c && isEmptyString r' then EmptyString else String c r'
  end.

(** String.prototype.trim *)
Definition trim (s : string) : string := trimEnd (trimStart s).

Fixpoint allWhiteSpace (s : string) : bool :=
  match s with
  | EmptyString => true
  | String c r => isWhiteSpace c && allWhiteSpace r
  end.

(** String.prototype.toLowerCase on code units below 256: A-Z and the
    Latin-1 capitals U+00C0..U+00DE (except the multiplication sign U+00D7)
    move up by 32, everything else is kept. *)
Definition lowerChar (c : ascii) : ascii :=
  let n := code c in
  if ((65 <=? n) && (n <=? 90))
     || ((192 <=? n) && (n <=? 222) && negb (n =? 215))
  then ascii_of_nat (n + 32) else c.

Fixpoint toLowerCase (s : string) : string :=
  match s with
  | EmptyString => EmptyString
  | String c r => String (lowerChar c) (toLowerCase r)
  end.

(** ASCII upper-casing, as the DOM uses for [tagName] of HTML elements. *)
Definition asciiUpperChar (c : ascii) : ascii :=
  let n := code c in
  if (97 <=? n) && (n <=? 122) then ascii_of_nat (n - 32) else c.

Fixpoint asciiUpper (s : string) : string :=
  match s with
  | EmptyString => EmptyString
  | String c r => String (asciiUpperChar c) (asciiUpper r)
  end.

Fixpoint startsWith (s p : string) : bool :=
  match p, s with
  | EmptyString, _ => true
  | String _ _, EmptyString => false
  | String b p', String a s' => Ascii.eqb a b && startsWith s' p'
  end.

(** String.prototype.includes: [term] occurs in [s] as a contiguous run. *)
Fixpoint includes (s term : string) : bool :=
  startsWith s term ||
  match s with
  | EmptyString => false
  | String _ r => includes r term
  end.

Definition dquote : ascii := ascii_of_nat 34.
Definition quot : string := "&quot;".

(** [text.replace] of every double-quote character by [&quot;] *)
Fixpoint replaceQuotes (s : string) : string :=
  match s with
  | EmptyString => EmptyString
  | String c r =>
      if Ascii.eqb c dquote then String.append quot (replaceQuotes r)
      else String c (replaceQuotes r)
  end.

(** JS truthiness of a possibly absent string, and [a || b] on such values. *)
Definition truthy (v : option string) : bool :=
  match v with
  | Some s => negb (isEmptyString s)
  | None => false
  end.

Definition jsOr (a b : option string) : option string :=
  if truthy a then a else b.

(** Number to decimal string, as a template literal renders an index. *)
Definition numberToString (n : nat) : string :=
  NilEmpty.string_of_uint (Nat.to_uint n).

Definition digitOf (c : ascii) : option nat :=
  let n := code c in
  if (48 <=? n) && (n <=? 57) then Some (n - 48) else None.

Fixpoint parseDigits (s : string) (acc : nat) : nat :=
  match s with
  | EmptyString => acc
  | String c r =>
      match digitOf c with
      | Some d => parseDigits r (10 * acc + d)
      | None => acc
      end
  end.

(** [parseInt(s)] on the strings the script passes to it (values of
    [data-index]): the leading run of decimal digits, [None] for NaN when
    the string does not start with a digit.  Leading blanks, signs and the
    [0x] prefix are not covered. *)
Definition parseInt (s : string) : option nat :=
  match s with
  | EmptyString => None
  | String c _ =>
      match digitOf c with
      | Some _ => Some (parseDigits s 0)
      | None => None
      end
  end.

(** ** The document tree *)

#[local] Unset Elimination Schemes.
Inductive Element : Type :=
  mkElement {
    uid : nat;                             (* object identity of the node *)
    localName : string;                    (* lower-case tag name *)
    eid : string;                          (* the id, empty when unset *)
    classList : list string;
    attributes : list (string * string);
    innerText : option string;             (* None: undefined *)
    textContent : option string;           (* None: null *)
    children : list Element
  }.
#[local] Set Elimination Schemes.

Definition tagName (e : Element) : string := asciiUpper (localName e).

Fixpoint assoc (k : string) (l : list (string * string)) : option string :=
  match l with
  | [] => None
  | (k', v) :: r => if String.eqb k' k then Some v else assoc k r
  end.

Definition getAttribute (e : Element) (name : string) : option string :=
  assoc name (attributes e).

Definition classContains (e : Element) (c : string) : bool :=
  existsb (String.eqb c) (classList e).

(** The element and everything below it, in document (pre-)order. *)
Fixpoint subtree (e : Element) : list Element :=
  e :: (fix forest (l : list Element) : list Element :=
          match l with
          | [] => []
          | k :: r => subtree k ++ forest r
          end) (children e).

Definition descendants (e : Element) : list Element :=
  flat_map subtree (children e).

(** The selectors the script uses: a comma-separated list of simple
    selectors. *)
Inductive Simple : Type :=
| Tag (name : string)
| AttrEq (name value : string)
| AttrPrefix (name value : string)
| Class (name : string)
| Id (name : string).

Definition Selector : Type := list Simple.

Definition matchesSimple (e : Element) (s : Simple) : bool :=
  match s with
  | Tag n => String.eqb (localName e) n
  | AttrEq a v =>
      match getAttribute e a with
      | Some x => String.eqb x v
      | None => false
      end
  | AttrPrefix a v =>
      match getAttribute e a with
      | Some x => negb (isEmptyString v) && startsWith x v
      | None => false
      end
  | Class c => classContains e c
  | Id i => String.eqb (eid e) i
  end.

Definition matches (sel : Selector) (e : Element) : bool :=
  existsb (matchesSimple e) sel.

(** [document.querySelectorAll(sel)]: the matching elements of the whole
    document in document order. *)
Definition docQuerySelectorAll (body : Element) (sel : Selector)
  : list Element :=
  List.filter (matches sel) (subtree body).

Definition docQuerySelector (body : Element) (sel : Selector)
  : option Element :=
  List.find (matches sel) (subtree body).

(** [el.querySelectorAll(sel)] and [el.querySelector(sel)] range over the
    descendants of [el], not [el] itself. *)
Definition querySelectorAll (e : Element) (sel : Selector) : list Element :=
  List.filter (matches sel) (descendants e).

Definition querySelector (e : Element) (sel : Selector) : option Element :=
  List.find (matches sel) (descendants e).

Definition getElementById (body : Element) (i : string) : option Element :=
  List.find (fun e => String.eqb (eid e) i) (subtree body).

(** Where a node sits: the node first, then its ancestors from the parent
    up to the body, each paired with the siblings that follow it. *)
Definition Chain : Type := list (Element * list Element).

(** Search below [e], whose own chain is [up]. *)
Fixpoint locateUnder (u : nat) (up : Chain) (e : Element) : option Chain :=
  (fix go (kids : list Element) : option Chain :=
     match kids with
     | [] => None
     | k :: rest =>
         if uid k =? u then Some ((k, rest) :: up)
         else
           match locateUnder u ((k, rest) :: up) k with
           | Some l => Some l
           | None => go rest
           end
     end) (children e).

Definition locate (u : nat) (body : Element) : option Chain :=
  if uid body =? u then Some [(body, [])]
  else locateUnder u [(body, [])] body.

(** The chain [el.nextElementSibling], [.nextElementSibling], ... of the
    node [u], looked up in the document.  A node that is not in the
    document gets none here; in the DOM a detached node keeps the siblings
    it has inside its detached subtree, which is not modelled. *)
Definition followingSiblings (u : nat) (body : Element) : list Element :=
  match locate u body with
  | Some ((_, f) :: _) => f
  | _ => []
  end.

Definition nextElementSibling (u : nat) (body : Element) : option Element :=
  head (followingSiblings u body).

(** [el.closest(sel)]: the element itself or its nearest ancestor matching,
    with the siblings following the match. *)
Definition closest (sel : Selector) (u : nat) (body : Element)
  : option (Element * list Element) :=
  match locate u body with
  | Some chain => List.find (fun p => matches sel (fst p)) chain
  | None => None
  end.

Definition inDocument (u : nat) (body : Element) : bool :=
  existsb (fun e => uid e =? u) (subtree body).

(** [node.remove()], seen from the document: the node leaves the tree with
    everything below it. *)
Fixpoint removeNode (u : nat) (e : Element) : Element :=
  mkElement (uid e) (localName e) (eid e) (classList e) (attributes e)
    (innerText e) (textContent e)
    ((fix go (kids : list Element) : list Element :=
        match kids with
        | [] => []
        | k :: rest =>
            if uid k =? u then go rest else removeNode u k :: go rest
        end) (children e)).

(** [document.body.appendChild(node)] *)
Definition appendChild (body node : Element) : Element :=
  mkElement (uid body) (localName body) (eid body) (classList body)
    (attributes body) (innerText body) (textContent body)
    (children body ++ [node]).

(** ** Completions: a call returns or throws *)

Inductive Completion (A : Type) : Type :=
| Normal (a : A)
| Throw (error : string).
Arguments Normal {A} a.
Arguments Throw {A} error.

Definition bind {A B : Type} (c : Completion A) (k : A -> Completion B)
  : Completion B :=
  match c with
  | Normal a => k a
  | Throw e => Throw e
  end.

Notation "'let!' x ':=' c 'in' k" := (bind c (fun x => k))
  (at level 10, x name, c at level 100, k at level 200).

(** Reading a property of [undefined] throws. *)
Definition TypeError : string := "TypeError".

Definition deref {A : Type} (v : option A) : Completion A :=
  match v with
  | Some a => Normal a
  | None => Throw TypeError
  end.

(** [Array.prototype.map] with the index, for a callback that may throw. *)
Fixpoint mapIndexed {A B : Type} (f : A -> nat -> Completion B)
  (l : list A) (index : nat) : Completion (list B) :=
  match l with
  | [] => Normal []
  | a :: r =>
      let! b := f a index in
      let! bs := mapIndexed f r (S index) in
      Normal (b :: bs)
  end.

(** ** Configuration and platforms *)

Definition retryLimit : nat := 20.
Definition retryInterval : nat := 1000.

Inductive Platform : Type := ChatGPT | Gemini | Unknown.

Definition platformName (p : Platform) : string :=
  match p with
  | ChatGPT => "ChatGPT"
  | Gemini => "Gemini"
  | Unknown => "Unknown"
  end.

Definition Platform_eqb (p q : Platform) : bool :=
  match p, q with
  | ChatGPT, ChatGPT | Gemini, Gemini | Unknown, Unknown => true
  | _, _ => false
  end.

Definition getCurrentPlatform (host : string) : Platform :=
  if includes host "chatgpt.com" || includes host "openai.com" then ChatGPT
  else if includes host "gemini.google.com" then Gemini
  else Unknown.

Definition isSome {A : Type} (o : option A) : bool :=
  match o with Some _ => true | None => false end.

Definition checkPageReady (platform : Platform) (body : Element) : bool :=
  match platform with
  | Gemini =>
      isSome (docQuerySelector body [Tag "user-query"])
      || isSome (docQuerySelector body [AttrEq "data-testid" "user-query"])
  | ChatGPT =>
      isSome (docQuerySelector body [AttrEq "data-message-author-role" "user"])
  | Unknown => false
  end.

(** ** Message locator *)

(** [el.innerText && el.innerText.trim().length > 0] *)
Definition hasText (el : Element) : bool :=
  truthy (innerText el) &&
  match innerText el with
  | Some t => 0 <? String.length (trim t)
  | None => false
  end.

Definition findUserMessages (platform : Platform) (body : Element)
  : list Element :=
  match platform with
  | Gemini =>
      let msgs := docQuerySelectorAll body [Tag "user-query"] in
      let msgs :=
        if length msgs =? 0
        then docQuerySelectorAll body
               [AttrEq "data-testid" "user-query"; Class "user-query"]
        else msgs in
      List.filter hasText msgs
  | ChatGPT =>
      docQuerySelectorAll body [AttrEq "data-message-author-role" "user"]
  | Unknown => []
  end.

Definition attrIs (e : Element) (name value : string) : bool :=
  match getAttribute e name with
  | Some v => String.eqb v value
  | None => false
  end.

(** The test the loop of [findAIResponse] applies to a candidate. *)
Definition isAIResponse (platform : Platform) (candidate : Element) : bool :=
  match platform with
  | Gemini =>
      String.eqb (tagName candidate) "MODEL-RESPONSE"
      || classContains candidate "model-response"
      || attrIs candidate "data-testid" "model-response"
  | ChatGPT =>
      isSome (querySelector candidate
                [AttrEq "data-message-author-role" "assistant"])
      || attrIs candidate "data-message-author-role" "assistant"
  | Unknown => false
  end.

Definition maxAttempts : nat := 10.

(** The [while (candidate && attempts < 10)] loop: [candidates] is the
    candidate followed by its own next siblings. *)
Fixpoint walkSiblings (platform : Platform) (candidates : list Element)
  (attempts : nat) : option Element :=
  match candidates with
  | [] => None
  | candidate :: rest =>
      if attempts <? maxAttempts then
        if isAIResponse platform candidate then Some candidate
        else walkSiblings platform rest (S attempts)
      else None
  end.

(** The fallback after the loop. *)
Definition turnFallback (platform : Platform) (userMessage : nat)
  (body : Element) : option Element :=
  match platform with
  | ChatGPT =>
      match closest [AttrPrefix "data-testid" "conversation-turn"]
              userMessage body with
      | Some (_, next :: _) => Some next
      | _ => None
      end
  | _ => None
  end.

Definition findAIResponse (body : Element) (userMessage : option nat)
  (platform : Platform) : Completion (option Element) :=
  let! um := deref userMessage in
  match walkSiblings platform (followingSiblings um body) 0 with
  | Some candidate => Normal (Some candidate)
  | None => Normal (turnFallback platform um body)
  end.

(** [v?.trim()] *)
Definition optTrim (v : option string) : option string :=
  match v with
  | Some s => Some (trim s)
  | None => None
  end.

Definition orEmpty (v : option string) : string :=
  match v with
  | Some s => s
  | None => EmptyString
  end.

Definition extractMessageText (element : option Element) (platform : Platform)
  : Completion string :=
  match element with
  | None => Normal EmptyString
  | Some el =>
      Normal (orEmpty (jsOr (jsOr (optTrim (innerText el))
                                  (optTrim (textContent el)))
                            (Some EmptyString)))
  end.

(** ** Page state *)

Record Style : Type := mkStyle {
  backgroundColor : string;
  transition : string;
  display : string;
  cssText : string       (* as assigned by the script *)
}.

Definition emptyStyle : Style :=
  mkStyle EmptyString EmptyString EmptyString EmptyString.

(** The functions the script hands to [setTimeout], with what each closure
    captured. *)
Inductive Callback : Type :=
| CbInitExtension
| CbFocusSearch
| CbRemove (node : nat)
| CbRestoreBackground (element : nat) (originalBg originalTransition : string)
| CbRestoreTransition (element : nat) (originalTransition : string).

(** The functions the script hands to [addEventListener]. *)
Inductive Listener : Type :=
| OnTriggerClick (platform : Platform)
| OnCloseClick (modal : nat)
| OnModalClick (modal : nat)
| OnSearchInput (modal : nat)
| OnContainerClick (modal : nat) (userMessages : list nat)
    (platform : Platform).

Record State : Type := mkState {
  (* window.location.hostname *)
  hostname : string;
  (* window.location.href *)
  href : string;
  (* the document below document.body *)
  body : Element;
  (* inline style of each node *)
  styles : gmap nat Style;
  (* identity of the next created node *)
  nextUid : nat;
  (* let retryCount *)
  retryCount : nat;
  (* let lastUrl *)
  lastUrl : string;
  (* milliseconds *)
  clock : nat;
  (* pending setTimeout calls, earliest first *)
  timers : list (nat * Callback);
  (* addEventListener registrations *)
  listeners : gmap nat Listener;
  (* DOMContentLoaded listener pending *)
  loadListener : bool;
  (* scrollIntoView calls, oldest first *)
  scrolled : list nat;
  (* clipboard promises not yet settled *)
  pendingWrites : list (option string);
  (* last text written *)
  clipboard : option (option string);
  (* element holding the focus *)
  focused : option nat;
  (* console.log lines *)
  console : list string;
  (* exceptions that left a handler *)
  uncaught : list string;
  (* rejected promises nobody handles *)
  rejections : list string
}.

Definition set_hostname (v : string) (s : State) : State :=
  mkState v (href s) (body s) (styles s) (nextUid s) (retryCount s)
    (lastUrl s) (clock s) (timers s) (listeners s) (loadListener s)
    (scrolled s) (pendingWrites s) (clipboard s) (focused s) (console s)
    (uncaught s) (rejections s).

Definition set_href (v : string) (s : State) : State :=
  mkState (hostname s) v (body s) (styles s) (nextUid s) (retryCount s)
    (lastUrl s) (clock s) (timers s) (listeners s) (loadListener s)
    (scrolled s) (pendingWrites s) (clipboard s) (focused s) (console s)
    (uncaught s) (rejections s).

Definition set_body (v : Element) (s : State) : State :=
  mkState (hostname s) (href s) v (styles s) (nextUid s) (retryCount s)
    (lastUrl s) (clock s) (timers s) (listeners s) (loadListener s)
    (scrolled s) (pendingWrites s) (clipboard s) (focused s) (console s)
    (uncaught s) (rejections s).

Definition set_styles (v : gmap nat Style) (s : State) : State :=
  mkState (hostname s) (href s) (body s) v (nextUid s) (retryCount s)
    (lastUrl s) (clock s) (timers s) (listeners s) (loadListener s)
    (scrolled s) (pendingWrites s) (clipboard s) (focused s) (console s)
    (uncaught s) (rejections s).

Definition set_nextUid (v : nat) (s : State) : State :=
  mkState (hostname s) (href s) (body s) (styles s) v (retryCount s)
    (lastUrl s) (clock s) (timers s) (listeners s) (loadListener s)
    (scrolled s) (pendingWrites s) (clipboard s) (focused s) (console s)
    (uncaught s) (rejections s).

Definition set_retryCount (v : nat) (s : State) : State :=
  mkState (hostname s) (href s) (body s) (styles s) (nextUid s) v (lastUrl
    s) (clock s) (timers s) (listeners s) (loadListener s) (scrolled s)
    (pendingWrites s) (clipboard s) (focused s) (console s) (uncaught s)
    (rejections s).

Definition set_lastUrl (v : string) (s : State) : State :=
  mkState (hostname s) (href s) (body s) (styles s) (nextUid s)
    (retryCount s) v (clock s) (timers s) (listeners s) (loadListener s)
    (scrolled s) (pendingWrites s) (clipboard s) (focused s) (console s)
    (uncaught s) (rejections s).

Definition set_clock (v : nat) (s : State) : State :=
  mkState (hostname s) (href s) (body s) (styles s) (nextUid s)
    (retryCount s) (lastUrl s) v (timers s) (listeners s) (loadListener s)
    (scrolled s) (pendingWrites s) (clipboard s) (focused s) (console s)
    (uncaught s) (rejections s).

Definition set_timers (v : list (nat * Callback)) (s : State) : State :=
  mkState (hostname s) (href s) (body s) (styles s) (nextUid s)
    (retryCount s) (lastUrl s) (clock s) v (listeners s) (loadListener s)
    (scrolled s) (pendingWrites s) (clipboard s) (focused s) (console s)
    (uncaught s) (rejections s).

Definition set_listeners (v : gmap nat Listener) (s : State) : State :=
  mkState (hostname s) (href s) (body s) (styles s) (nextUid s)
    (retryCount s) (lastUrl s) (clock s) (timers s) v (loadListener s)
    (scrolled s) (pendingWrites s) (clipboard s) (focused s) (console s)
    (uncaught s) (rejections s).

Definition set_loadListener (v : bool) (s : State) : State :=
  mkState (hostname s) (href s) (body s) (styles s) (nextUid s)
    (retryCount s) (lastUrl s) (clock s) (timers s) (listeners s) v
    (scrolled s) (pendingWrites s) (clipboard s) (focused s) (console s)
    (uncaught s) (rejections s).

Definition set_scrolled (v : list nat) (s : State) : State :=
  mkState (hostname s) (href s) (body s) (styles s) (nextUid s)
    (retryCount s) (lastUrl s) (clock s) (timers s) (listeners s)
    (loadListener s) v (pendingWrites s) (clipboard s) (focused s)
    (console s) (uncaught s) (rejections s).

Definition set_pendingWrites (v : list (option string)) (s : State) : State :=
  mkState (hostname s) (href s) (body s) (styles s) (nextUid s)
    (retryCount s) (lastUrl s) (clock s) (timers s) (listeners s)
    (loadListener s) (scrolled s) v (clipboard s) (focused s) (console s)
    (uncaught s) (rejections s).

Definition set_clipboard (v : option (option string)) (s : State) : State :=
  mkState (hostname s) (href s) (body s) (styles s) (nextUid s)
    (retryCount s) (lastUrl s) (clock s) (timers s) (listeners s)
    (loadListener s) (scrolled s) (pendingWrites s) v (focused s) (console
    s) (uncaught s) (rejections s).

Definition set_focused (v : option nat) (s : State) : State :=
  mkState (hostname s) (href s) (body s) (styles s) (nextUid s)
    (retryCount s) (lastUrl s) (clock s) (timers s) (listeners s)
    (loadListener s) (scrolled s) (pendingWrites s) (clipboard s) v
    (console s) (uncaught s) (rejections s).

Definition set_console (v : list string) (s : State) : State :=
  mkState (hostname s) (href s) (body s) (styles s) (nextUid s)
    (retryCount s) (lastUrl s) (clock s) (timers s) (listeners s)
    (loadListener s) (scrolled s) (pendingWrites s) (clipboard s) (focused
    s) v (uncaught s) (rejections s).

Definition set_uncaught (v : list string) (s : State) : State :=
  mkState (hostname s) (href s) (body s) (styles s) (nextUid s)
    (retryCount s) (lastUrl s) (clock s) (timers s) (listeners s)
    (loadListener s) (scrolled s) (pendingWrites s) (clipboard s) (focused
    s) (console s) v (rejections s).

Definition set_rejections (v : list string) (s : State) : State :=
  mkState (hostname s) (href s) (body s) (styles s) (nextUid s)
    (retryCount s) (lastUrl s) (clock s) (timers s) (listeners s)
    (loadListener s) (scrolled s) (pendingWrites s) (clipboard s) (focused
    s) (console s) (uncaught s) v.

Definition styleOf (s : State) (u : nat) : Style :=
  match styles s !! u with
  | Some st => st
  | None => emptyStyle
  end.

Definition setBackgroundColor (u : nat) (v : string) (s : State) : State :=
  let st := styleOf s u in
  set_styles
    (<[u := mkStyle v (transition st) (display st) (cssText st)]> (styles s)) s.

Definition setTransition (u : nat) (v : string) (s : State) : State :=
  let st := styleOf s u in
  set_styles
    (<[u := mkStyle (backgroundColor st) v (display st) (cssText st)]>
       (styles s)) s.

Definition setDisplay (u : nat) (v : string) (s : State) : State :=
  let st := styleOf s u in
  set_styles
    (<[u := mkStyle (backgroundColor st) (transition st) v (cssText st)]>
       (styles s)) s.

Definition setCssText (u : nat) (v : string) (s : State) : State :=
  let st := styleOf s u in
  set_styles
    (<[u := mkStyle (backgroundColor st) (transition st) (display st) v]>
       (styles s)) s.

(** A call of a function that changes the page returns or throws; either
    way the changes made so far stay. *)
Inductive Outcome : Type :=
| Returned (s : State)
| Threw (error : string) (s : State).

Definition andThen (o : Outcome) (k : State -> Outcome) : Outcome :=
  match o with
  | Returned s => k s
  | Threw e s => Threw e s
  end.

Definition stateOf (o : Outcome) : State :=
  match o with
  | Returned s => s
  | Threw _ s => s
  end.

(** An exception that leaves a listener is reported to the page and goes
    no further. *)
Definition report (o : Outcome) : State :=
  match o with
  | Returned s => s
  | Threw e s => set_uncaught (uncaught s ++ [e]) s
  end.

(** ** Timers *)

Fixpoint insertTimer (t : nat * Callback) (q : list (nat * Callback))
  : list (nat * Callback) :=
  match q with
  | [] => [t]
  | x :: r => if fst t <? fst x then t :: q else x :: insertTimer t r
  end.

Definition setTimeout (cb : Callback) (delay : nat) (s : State) : State :=
  set_timers (insertTimer (clock s + delay, cb) (timers s)) s.

(** ** Building nodes *)

Definition node (u : nat) (tag id : string) (classes : list string)
  (attrs : list (string * string)) (text : string) (kids : list Element)
  : Element :=
  mkElement u tag id classes attrs (Some text) (Some text) kids.

Definition findNode (u : nat) (body : Element) : option Element :=
  List.find (fun e => uid e =? u) (subtree body).

(** ** Utilities *)

Definition scrollToElement (element : option nat) (s : State) : Outcome :=
  match element with
  | Some u => Returned (set_scrolled (scrolled s ++ [u]) s)
  | None => Threw TypeError s
  end.

Definition highlightColor (platform : Platform) : string :=
  match platform with
  | Gemini => "rgba(26, 115, 232, 0.2)"
  | _ => "rgba(16, 163, 127, 0.2)"
  end.

Definition highlightTransition : string := "background-color 0.5s ease".

Definition highlightElement (element : nat) (platform : Platform) (s : State)
  : State :=
  let originalBg := backgroundColor (styleOf s element) in
  let originalTransition := transition (styleOf s element) in
  let s := setTransition element highlightTransition s in
  let s := setBackgroundColor element (highlightColor platform) s in
  setTimeout (CbRestoreBackground element originalBg originalTransition)
    1500 s.

Definition notificationCss : string :=
"
        position: fixed; top: 24px; left: 50%; transform: translateX(-50%);
        background: #2d3748; color: #fff; padding: 10px 20px;
        border-radius: 8px; font-family: sans-serif; font-size: 14px;
        z-index: 1000002; box-shadow: 0 4px 12px rgba(0,0,0,0.15);
        pointer-events: none;
    ".

(** [type] is accepted and not used. *)
Definition showNotification (message type : string) (s : State) : State :=
  let div := nextUid s in
  let s := set_nextUid (S div) s in
  let s := setCssText div notificationCss s in
  let s :=
    set_body
      (appendChild (body s)
         (node div "div" EmptyString [] [] message [])) s in
  setTimeout (CbRemove div) 2500 s.

(** ** The trigger and the poller *)

Definition triggerId : string := "thread-navigator-btn".
Definition modalId : string := "thread-prompts-modal".

Definition createFloatingButton (platform : Platform) (s : State) : State :=
  let btn := nextUid s in
  let s := set_nextUid (S btn) s in
  let s := set_listeners (<[btn := OnTriggerClick platform]> (listeners s)) s in
  set_body
    (appendChild (body s)
       (mkElement btn "div" triggerId
          [toLowerCase (platformName platform)]
          [("title",
            String.append "Show "
              (String.append (platformName platform) " Thread"))]
          (Some EmptyString) (Some EmptyString) [])) s.

Definition initExtension (s : State) : State :=
  let platform := getCurrentPlatform (hostname s) in
  match platform with
  | Unknown => s
  | _ =>
      if isSome (getElementById (body s) triggerId) then s
      else if checkPageReady platform (body s) then
        let s :=
          set_console
            (console s ++
               [String.append "Thread Navigator: Initializing for "
                  (String.append (platformName platform) "...")]) s in
        createFloatingButton platform s
      else if retryCount s <? retryLimit then
        setTimeout CbInitExtension retryInterval
          (set_retryCount (S (retryCount s)) s)
      else s
  end.

(** ** The prompt list *)

(** What [generatePromptsListHTML] writes into the holes of one item of its
    template: [data-index], [data-full-text] (between double quotes), the
    number and the text. *)
Record ItemMarkup : Type := mkItem {
  dataIndex : string;
  dataFullText : string;
  promptNumber : string;
  promptText : string
}.

Inductive ListMarkup : Type :=
| NoPrompts
| Items (items : list ItemMarkup).

Definition promptItemMarkup (platform : Platform) (msg : Element)
  (index : nat) : Completion ItemMarkup :=
  let! text := extractMessageText (Some msg) platform in
  let safeText := replaceQuotes text in
  Normal (mkItem (numberToString index) (toLowerCase safeText)
            (numberToString (index + 1)) text).

Definition generatePromptsListHTML (userMessages : list Element)
  (platform : Platform) : Completion ListMarkup :=
  if length userMessages =? 0 then Normal NoPrompts
  else
    let! items := mapIndexed (promptItemMarkup platform) userMessages 0 in
    Normal (Items items).

(** What the HTML parser makes of a double-quoted attribute value when
    [modal.innerHTML] is assigned: the value runs to the first double-quote
    character, and the character reference [&quot;] stands for one
    double-quote character.  Other character references, and the parser's
    treatment of NUL and CR, are not modelled; the statements below that
    read a parsed value are about texts without them. *)
Fixpoint untilQuote (s : string) : string :=
  match s with
  | EmptyString => EmptyString
  | String c r =>
      if Ascii.eqb c dquote then EmptyString else String c (untilQuote r)
  end.

Fixpoint decodeQuot (s : string) : string :=
  match s with
  | EmptyString => EmptyString
  | String c r =>
      if Ascii.eqb c "&"%char then
        match r with
        | String "q"%char (String "u"%char (String "o"%char
            (String "t"%char (String ";"%char r')))) =>
            String dquote (decodeQuot r')
        | _ => String c (decodeQuot r)
        end
      else String c (decodeQuot r)
  end.

Definition parsedAttribute (source : string) : string :=
  decodeQuot (untilQuote source).

(** One parsed item; its nodes take six consecutive identities.  This is
    the parse of an item whose prompt text is plain ([plainText] below: no
    [<], [&], NUL or CR); the template writes the text unescaped, so markup
    in a prompt would be parsed into nodes, which is not modelled.  The
    pictographs on the two buttons are left out. *)
Definition itemElement (base : nat) (m : ItemMarkup) : Element :=
  node base "div" EmptyString ["prompt-item"]
    [("data-index", parsedAttribute (dataIndex m));
     ("data-full-text", parsedAttribute (dataFullText m))]
    EmptyString
    [ node (base + 1) "div" EmptyString ["prompt-number"] []
        (promptNumber m) [];
      node (base + 2) "div" EmptyString ["prompt-text"] []
        (promptText m) [];
      node (base + 3) "div" EmptyString ["prompt-actions"] [] EmptyString
        [ node (base + 4) "button" EmptyString ["action-btn"; "copy-btn"]
            [("title", "Copy Response")] EmptyString [];
          node (base + 5) "button" EmptyString ["action-btn"; "goto-btn"]
            [("title", "Jump to Message")] EmptyString [] ] ].

Fixpoint parseItems (base : nat) (items : list ItemMarkup) : list Element :=
  match items with
  | [] => []
  | m :: r => itemElement base m :: parseItems (base + 6) r
  end.

Definition parseList (base : nat) (markup : ListMarkup) : list Element :=
  match markup with
  | NoPrompts =>
      [ node base "div" EmptyString ["no-prompts"] []
          "No prompts found. Try scrolling up to load history." [] ]
  | Items items => parseItems base items
  end.

Definition listSize (markup : ListMarkup) : nat :=
  match markup with
  | NoPrompts => 1
  | Items items => 6 * length items
  end.

(** The modal after [modal.innerHTML = modalHTML]. *)
Definition modalElement (modal : nat) (platform : Platform)
  (markup : ListMarkup) : Element :=
  node modal "div" modalId [] [] EmptyString
    [ node (modal + 1) "div" EmptyString ["modal-card"] [] EmptyString
        [ node (modal + 2) "div" EmptyString ["prompts-header"] [] EmptyString
            [ node (modal + 3) "div" EmptyString ["header-top"] [] EmptyString
                [ node (modal + 4) "h3" EmptyString [] []
                    (String.append (platformName platform)
                       " Thread Navigator") [];
                  node (modal + 5) "button" "close-prompts-list" []
                    [("title", "Close")] EmptyString [] ];
              node (modal + 6) "div" EmptyString ["search-container"] []
                EmptyString
                [ node (modal + 7) "input" "thread-navigator-search" []
                    [("type", "text");
                     ("placeholder", "Search prompts...");
                     ("autocomplete", "off")] EmptyString [] ] ];
          node (modal + 8) "div" EmptyString ["prompts-content"] []
            EmptyString
            [ node (modal + 9) "div" "prompts-container" [] [] EmptyString
                (parseList (modal + 10) markup) ] ] ].

Definition addEventListener (u : nat) (l : Listener) (s : State) : State :=
  set_listeners (<[u := l]> (listeners s)) s.

Definition setupEventListeners (modal : Element) (userMessages : list nat)
  (platform : Platform) (s : State) : Outcome :=
  match querySelector modal [Id "close-prompts-list"] with
  | None => Threw TypeError s
  | Some closeBtn =>
      let s := addEventListener (uid closeBtn) (OnCloseClick (uid modal)) s in
      let s := addEventListener (uid modal) (OnModalClick (uid modal)) s in
      match querySelector modal [Id "thread-navigator-search"] with
      | None => Threw TypeError s
      | Some search =>
          let s :=
            addEventListener (uid search) (OnSearchInput (uid modal)) s in
          match querySelector modal [Id "prompts-container"] with
          | None => Threw TypeError s
          | Some container =>
              Returned
                (addEventListener (uid container)
                   (OnContainerClick (uid modal) userMessages platform) s)
          end
      end
  end.

Definition showPromptsList (platform : Platform) (s : State) : Outcome :=
  let s :=
    match getElementById (body s) modalId with
    | Some existing => set_body (removeNode (uid existing) (body s)) s
    | None => s
    end in
  let userMessages := findUserMessages platform (body s) in
  let modal := nextUid s in
  match generatePromptsListHTML userMessages platform with
  | Throw e => Threw e (set_nextUid (S modal) s)
  | Normal markup =>
      let el := modalElement modal platform markup in
      let s := set_nextUid (modal + 10 + listSize markup) s in
      let s := set_body (appendChild (body s) el) s in
      let s := setTimeout CbFocusSearch 100 s in
      setupEventListeners el (List.map uid userMessages) platform s
  end.

(** ** Actions *)

(** [copyAIResponse] is an async function: what it throws rejects its
    promise, and the part after [await] runs when the clipboard promise
    settles ([clipboardSettles] below). *)
Definition copyAIResponse (userMessage : option nat) (platform : Platform)
  (s : State) : State :=
  match findAIResponse (body s) userMessage platform with
  | Throw e => set_rejections (rejections s ++ [e]) s
  | Normal None => showNotification "AI response not found" "error" s
  | Normal (Some aiResponse) =>
      let text := jsOr (innerText aiResponse) (textContent aiResponse) in
      set_pendingWrites (pendingWrites s ++ [text]) s
  end.

(** The [try] block after [await], and its [catch]. *)
Definition clipboardSettles (ok : bool) (s : State) : State :=
  match pendingWrites s with
  | [] => s
  | text :: rest =>
      let s := set_pendingWrites rest s in
      if ok then
        showNotification "Response copied!" "success"
          (set_clipboard (Some text) s)
      else showNotification "Failed to copy" "error" s
  end.

Definition goToAIResponse (userMessage : option nat) (platform : Platform)
  (s : State) : Outcome :=
  match findAIResponse (body s) userMessage platform with
  | Throw e => Threw e s
  | Normal aiResponse =>
      let target :=
        match aiResponse with
        | Some r => Some (uid r)
        | None => userMessage
        end in
      andThen (scrollToElement target s)
        (fun s =>
           match target with
           | Some t => Returned (highlightElement t platform s)
           | None => Threw TypeError s
           end)
  end.

(** ** Listeners *)

Definition removeFromPage (u : nat) (s : State) : State :=
  set_body (removeNode u (body s)) s.

Fixpoint applySearch (term : string) (items : list Element) (s : State)
  : Outcome :=
  match items with
  | [] => Returned s
  | item :: rest =>
      match getAttribute item "data-full-text" with
      | None => Threw TypeError s
      | Some text =>
          applySearch term rest
            (setDisplay (uid item)
               (if includes text term then "grid" else "none") s)
      end
  end.

Definition onSearchInput (modal : nat) (value : string) (s : State)
  : Outcome :=
  let term := toLowerCase value in
  match findNode modal (body s) with
  | Some m => applySearch term (querySelectorAll m [Class "prompt-item"]) s
  | None => Returned s
  end.

Definition onContainerClick (modal : nat) (userMessages : list nat)
  (platform : Platform) (target : nat) (s : State) : Outcome :=
  match closest [Class "prompt-item"] target (body s) with
  | None => Returned s
  | Some (item, _) =>
      let index :=
        match getAttribute item "data-index" with
        | Some v => parseInt v
        | None => None
        end in
      let msg :=
        match index with
        | Some i => nth_error userMessages i
        | None => None
        end in
      if isSome (closest [Class "copy-btn"] target (body s)) then
        Returned (copyAIResponse msg platform s)
      else if isSome (closest [Class "goto-btn"] target (body s)) then
        andThen (goToAIResponse msg platform s)
          (fun s => Returned (removeFromPage modal s))
      else
        andThen (scrollToElement msg s)
          (fun s => Returned (removeFromPage modal s))
  end.

(** Running a click listener; the flag tells whether it called
    [stopPropagation]. *)
Definition runClick (l : Listener) (target : nat) (s : State)
  : Outcome * bool :=
  match l with
  | OnTriggerClick platform => (showPromptsList platform s, true)
  | OnCloseClick modal => (Returned (removeFromPage modal s), false)
  | OnModalClick modal =>
      (Returned (if target =? modal then removeFromPage modal s else s),
       false)
  | OnSearchInput _ => (Returned s, false)
  | OnContainerClick modal userMessages platform =>
      (onContainerClick modal userMessages platform target s, false)
  end.

(** A click bubbles from the target to the body along the path fixed when
    it is dispatched. *)
Fixpoint dispatchClick (path : list nat) (target : nat) (s : State) : State :=
  match path with
  | [] => s
  | n :: rest =>
      match listeners s !! n with
      | Some l =>
          let (o, stop) := runClick l target s in
          if stop then report o else dispatchClick rest target (report o)
      | None => dispatchClick rest target s
      end
  end.

Definition click (target : nat) (s : State) : State :=
  match locate target (body s) with
  | Some chain =>
      dispatchClick (List.map (fun p => uid (fst p)) chain) target s
  | None => s
  end.

Definition input (target : nat) (value : string) (s : State) : State :=
  if inDocument target (body s) then
    match listeners s !! target with
    | Some (OnSearchInput modal) => report (onSearchInput modal value s)
    | _ => s
    end
  else s.

(** ** Timers firing *)

Definition runCallback (cb : Callback) (s : State) : State :=
  match cb with
  | CbInitExtension => initExtension s
  | CbFocusSearch =>
      match getElementById (body s) "thread-navigator-search" with
      | Some i => set_focused (Some (uid i)) s
      | None => s
      end
  | CbRemove u => removeFromPage u s
  | CbRestoreBackground u originalBg originalTransition =>
      setTimeout (CbRestoreTransition u originalTransition) 500
        (setBackgroundColor u originalBg s)
  | CbRestoreTransition u originalTransition =>
      setTransition u originalTransition s
  end.

Definition fireTimer (s : State) : State :=
  match timers s with
  | [] => s
  | (due, cb) :: rest =>
      runCallback cb (set_clock (Nat.max (clock s) due) (set_timers rest s))
  end.

(** ** Bootstrap and the navigation watcher *)

Definition onMutation (s : State) : State :=
  if String.eqb (href s) (lastUrl s) then s
  else
    setTimeout CbInitExtension 1000
      (set_retryCount 0 (set_lastUrl (href s) s)).

(** The top level of the script, run once in a page at [host], [url] whose
    document is [b]; [loading] is [document.readyState === 'loading']. *)
Definition bootstrap (loading : bool) (host url : string) (b : Element)
  (fresh : nat) : State :=
  let s :=
    mkState host url b ∅ fresh 0 EmptyString 0 [] ∅ false [] [] None None
      [] [] [] in
  let s := if loading then set_loadListener true s else initExtension s in
  set_lastUrl (href s) s.

(** ** The page's events *)

Inductive Event : Type :=
| DOMContentLoaded
| TimerFires
| Mutation
| HostChange (host url : string) (newBody : Element)
| Click (target : nat)
| Input (target : nat) (value : string)
| ClipboardSettles (ok : bool).

Definition step (e : Event) (s : State) : State :=
  match e with
  | DOMContentLoaded =>
      if loadListener s then initExtension (set_loadListener false s) else s
  | TimerFires => fireTimer s
  | Mutation => onMutation s
  | HostChange host url newBody =>
      set_body newBody (set_href url (set_hostname host s))
  | Click target => click target s
  | Input target value => input target value s
  | ClipboardSettles ok => clipboardSettles ok s
  end.

Fixpoint run (events : list Event) (s : State) : State :=
  match events with
  | [] => s
  | e :: rest => run rest (step e s)
  end.

(** ** Observations used to state the properties *)

(** Number of elements of the document carrying the id [i]. *)
Definition countId (i : string) (b : Element) : nat :=
  length (List.filter (fun e => String.eqb (eid e) i) (subtree b)).

Definition triggerCount (s : State) : nat := countId triggerId (body s).

(** The state in which an event makes the poller run [initExtension], when
    it does: the pending DOMContentLoaded listener, or a timer holding
    [initExtension]. *)
Definition attemptOf (e : Event) (s : State) : option State :=
  match e with
  | DOMContentLoaded =>
      if loadListener s then Some (set_loadListener false s) else None
  | TimerFires =>
      match timers s with
      | (due, CbInitExtension) :: rest =>
          Some (set_clock (Nat.max (clock s) due) (set_timers rest s))
      | _ => None
      end
  | _ => None
  end.

(** [initExtension] reaches [checkPageReady] and gets a falsy answer. *)
Definition readinessFails (t : State) : bool :=
  let platform := getCurrentPlatform (hostname t) in
  negb (Platform_eqb platform Unknown)
  && negb (isSome (getElementById (body t) triggerId))
  && negb (checkPageReady platform (body t)).

Definition failedCheck (e : Event) (s : State) : bool :=
  match attemptOf e s with
  | Some t => readinessFails t
  | None => false
  end.

(** The watcher runs and finds the address changed. *)
Definition addressChangeObserved (e : Event) (s : State) : bool :=
  match e with
  | Mutation => negb (String.eqb (href s) (lastUrl s))
  | _ => false
  end.

(** Failed readiness checks since the last observed address change, along
    a run; [k] counts those before the run. *)
Fixpoint failedChecksSince (k : nat) (events : list Event) (s : State) : nat :=
  match events with
  | [] => k
  | e :: rest =>
      failedChecksSince
        (if addressChangeObserved e s then 0
         else if failedCheck e s then S k else k)
        rest (step e s)
  end.




(** Texts whose parsed attribute value the model covers: no ampersand, no
    NUL, no CR. *)
Fixpoint attrSafe (s : string) : bool :=
  match s with
  | EmptyString => true
  | String c r =>
      negb (Ascii.eqb c "&"%char) && negb (code c =? 0)
      && negb (code c =? 13) && attrSafe r
  end.

(** Whether a timer callback writes the inline style of [u]. *)
Definition touchesStyle (u : nat) (cb : Callback) : bool :=
  match cb with
  | CbRestoreBackground v _ _ => v =? u
  | CbRestoreTransition v _ => v =? u
  | _ => false
  end.

(** The pending timers that write the inline style of [u], in firing
    order. *)
Definition pendingTouching (u : nat) (q : list (nat * Callback))
  : list (nat * Callback) :=
  List.filter (fun t => touchesStyle u (snd t)) q.

Definition isClick (e : Event) : bool :=
  match e with
  | Click _ => true
  | _ => false
  end.

(** Where an element stands after [highlightElement] was called on it at
    time [start], having found the background [bg] and the transition
    [tr]: highlighted with the first revert pending at [start + 1500];
    background restored with the second revert pending, not before
    [start + 2000]; or both restored and no revert pending. *)
Definition highlightPhase (element : nat) (platform : Platform)
  (bg tr : string) (start : nat) (x : State) : Prop :=
  (backgroundColor (styleOf x element) = highlightColor platform
   /\ transition (styleOf x element) = highlightTransition
   /\ pendingTouching element (timers x)
      = [(start + 1500, CbRestoreBackground element bg tr)])
  \/ (backgroundColor (styleOf x element) = bg
      /\ transition (styleOf x element) = highlightTransition
      /\ exists due,
           start + 2000 <= due
           /\ pendingTouching element (timers x)
              = [(due, CbRestoreTransition element tr)])
  \/ (backgroundColor (styleOf x element) = bg
      /\ transition (styleOf x element) = tr
      /\ pendingTouching element (timers x) = []).

(** A change of the page that leaves alone the background, the transition
    and the pending reverts of [u]. *)
Definition calm (u : nat) (s s' : State) : Prop :=
  pendingTouching u (timers s') = pendingTouching u (timers s)
  /\ backgroundColor (styleOf s' u) = backgroundColor (styleOf s u)
  /\ transition (styleOf s' u) = transition (styleOf s u).

(** A change of the page that leaves the retry counter alone and adds no
    trigger. *)
Definition quiet (s s' : State) : Prop :=
  retryCount s' = retryCount s /\ triggerCount s' <= triggerCount s.

(** ** Sample pages *)

Definition sampleNode (u : nat) (tag : string)
  (attrs : list (string * string)) (text : string) (kids : list Element)
  : Element :=
  mkElement u tag EmptyString [] attrs (Some text) (Some text) kids.

(** A ChatGPT thread: a prompt with its answer in the next turn, then a
    prompt whose rendered text is three blanks and that has no answer. *)
Definition chatgptPage : Element :=
  sampleNode 0 "body" [] EmptyString
    [ sampleNode 1 "main" [] EmptyString
        [ sampleNode 2 "article" [("data-testid", "conversation-turn-1")]
            "Hello World"
            [ sampleNode 3 "div" [("data-message-author-role", "user")]
                "Hello World" [] ];
          sampleNode 4 "article" [("data-testid", "conversation-turn-2")]
            "Hi there"
            [ sampleNode 5 "div" [("data-message-author-role", "assistant")]
                "Hi there" [] ];
          sampleNode 6 "article" [("data-testid", "conversation-turn-3")]
            "   "
            [ sampleNode 7 "div" [("data-message-author-role", "user")]
                "   " [] ] ] ].

(** A Gemini thread: two prompts, each followed by its answer. *)
Definition geminiPage : Element :=
  sampleNode 0 "body" [] EmptyString
    [ sampleNode 1 "user-query" [] "Hello World" [];
      sampleNode 2 "model-response" [] "Hi" [];
      sampleNode 3 "user-query" [] "Foo Bar" [];
      sampleNode 4 "model-response" [] "Baz" [] ].

Definition chatgptStart : State :=
  bootstrap false "chatgpt.com" "https://chatgpt.com/c/1" chatgptPage 100.

Definition geminiStart : State :=
  bootstrap false "gemini.google.com" "https://gemini.google.com/app/1"
    geminiPage 100.

(** A page that has not rendered any message yet. *)
Definition emptyPage : Element := sampleNode 0 "body" [] EmptyString [].

Definition waitingStart : State :=
  bootstrap false "chatgpt.com" "https://chatgpt.com/" emptyPage 100.





(** The ChatGPT thread after the trigger (node 100) was clicked: the modal
    is node 101, its search field node 108; the first prompt's item is
    node 111 with its copy and jump buttons 115 and 116, the second
    prompt's item is node 117 with the buttons 121 and 122. *)
Definition chatgptListed : State := step (Click 100) chatgptStart.


(** The Gemini thread with its list open (modal 101, search field 108,
    items 111 and 117), and after [wor] was typed into the search field. *)
Definition geminiListed : State := step (Click 100) geminiStart.

Definition geminiSearched : State := step (Input 108 "wor") geminiListed.

(** ** Observations for the further properties *)

(** [marker] occurs in [host] as a contiguous run. *)
Definition occursIn (marker host : string) : Prop :=
  exists a b, host = String.append a (String.append marker b).

Definition startsBlank (s : string) : bool :=
  match s with
  | EmptyString => false
  | String c _ => isWhiteSpace c
  end.

Fixpoint endsBlank (s : string) : bool :=
  match s with
  | EmptyString => false
  | String c r => if isEmptyString r then isWhiteSpace c else endsBlank r
  end.

(** A text that is absent or has nothing but white space. *)
Definition blankOrAbsent (v : option string) : bool :=
  match v with
  | Some t => allWhiteSpace t
  | None => true
  end.



(** Every node of the document has an identity below [n]. *)
Definition uidsBelow (n : nat) (b : Element) : bool :=
  forallb (fun e => uid e <? n) (subtree b).

(** A Gemini thread whose prompts are marked by the class only. *)
Definition classOnlyPage : Element :=
  sampleNode 0 "body" [] EmptyString
    [ mkElement 1 "div" EmptyString ["user-query"] [] (Some "Hello")
        (Some "Hello") [];
      sampleNode 2 "model-response" [] "Hi" [] ].


(** The host page navigates from the first thread to the second without
    a reload. *)
Definition navigationEvents : list Event :=
  [ HostChange "chatgpt.com" "https://chatgpt.com/c/2" chatgptPage;
    Mutation; Mutation; Mutation ].




(** ** Prompts that are plain text

    [generatePromptsListHTML] writes the text of a prompt into its
    template unescaped and [showPromptsList] assigns the result to
    [innerHTML], so a [<] in a prompt may open markup and the parser
    rewrites [&], NUL and CR.  [itemElement] is the parse of an item whose
    text has none of these; the statements about a rendered list are
    about pages whose prompts are plain in this sense. *)
Fixpoint noMarkup (s : string) : bool :=
  match s with
  | EmptyString => true
  | String c r => negb (Ascii.eqb c "<"%char) && noMarkup r
  end.

Definition plainText (s : string) : bool := attrSafe s && noMarkup s.

(** Every prompt [showPromptsList] would list for [platform] is plain. *)
Definition plainPrompts (platform : Platform) (b : Element) : bool :=
  forallb
    (fun el =>
       match extractMessageText (Some el) platform with
       | Normal text => plainText text
       | Throw _ => false
       end)
    (findUserMessages platform b).

(** Whenever something is clicked, the prompts of the page are plain. *)
Definition plainAtClick (e : Event) (s : State) : bool :=
  match e with
  | Click _ => plainPrompts ChatGPT (body s) && plainPrompts Gemini (body s)
  | _ => true
  end.

Fixpoint promptsStayPlain (events : list Event) (s : State) : bool :=
  match events with
  | [] => true
  | e :: rest => plainAtClick e s && promptsStayPlain rest (step e s)
  end.

Definition modalCount (s : State) : nat := countId modalId (body s).





(** Jumping to the response of the first prompt twice within 1500 ms:
    the list is opened and the jump button of its first row clicked, the
    focus timer of that list fires at 100 ms, and the same is done again
    in the list opened anew (whose first row has the jump button 138);
    then the five timers left fire. *)
Definition doubleJumpEvents : list Event :=
  [ Click 100; Click 116; TimerFires; Click 100; Click 138;
    TimerFires; TimerFires; TimerFires; TimerFires; TimerFires ].


(** The search of [locateUnder] among a list of siblings whose parent has
    the chain [up]. *)
Fixpoint locateKids (u : nat) (up : Chain) (kids : list Element)
  : option Chain :=
  match kids with
  | [] => None
  | k :: rest =>
      if uid k =? u then Some ((k, rest) :: up)
      else
        match locateUnder u ((k, rest) :: up) k with
        | Some l => Some l
        | None => locateKids u up rest
        end
  end.

(** The chain of the node reached from [e] by the child positions
    [path]; [up] is the chain of [e]. *)
Fixpoint chainFrom (path : list nat) (up : Chain) (e : Element)
  : option Chain :=
  match path with
  | [] => Some up
  | i :: rest =>
      match nth_error (children e) i with
      | Some k => chainFrom rest ((k, skipn (S i) (children e)) :: up) k
      | None => None
      end
  end.

(** A page whose nodes have distinct identities, all older than the next
    one to be given out, and where no listener is registered on the body
    or on an identity not yet given out. *)
Definition settled (s : State) : Prop :=
  List.NoDup (List.map uid (subtree (body s)))
  /\ uidsBelow (nextUid s) (body s) = true
  /\ (forall k, nextUid s <= k -> listeners s !! k = None)
  /\ listeners s !! uid (body s) = None.

(** The page right after [showPromptsList] on a page without a modal,
    given the markup of the list. *)
Definition listOpened (platform : Platform) (markup : ListMarkup)
  (s : State) : State :=
  let modal := nextUid s in
  let userMessages := List.map uid (findUserMessages platform (body s)) in
  addEventListener (modal + 9)
    (OnContainerClick modal userMessages platform)
    (addEventListener (modal + 7) (OnSearchInput modal)
       (addEventListener modal (OnModalClick modal)
          (addEventListener (modal + 5) (OnCloseClick modal)
             (setTimeout CbFocusSearch 100
                (set_body
                   (appendChild (body s)
                      (modalElement modal platform markup))
                   (set_nextUid (modal + 10 + listSize markup) s)))))).

(* ===================================================================== *)
(** * Part II: properties *)
(* ===================================================================== *)

(** Reading a field after the setters. *)
Ltac fields :=
  cbn [hostname href body styles nextUid retryCount lastUrl clock timers
       listeners loadListener scrolled pendingWrites clipboard focused
       console uncaught rejections
       set_hostname set_href set_body set_styles set_nextUid
       set_retryCount set_lastUrl set_clock set_timers set_listeners
       set_loadListener set_scrolled set_pendingWrites set_clipboard
       set_focused
       set_console set_uncaught set_rejections].

(** ** Strings *)

Section Strings.

Lemma trimStart_blank (s : string) :
  trimStart s = EmptyString <-> allWhiteSpace s = true.
Proof.
  induction s as [|c r IH]; simpl.
  - tauto.
  - destruct (isWhiteSpace c); simpl.
    + exact IH.
    + split; discriminate.
Qed.

Lemma trimEnd_blank (s : string) :
  trimEnd s = EmptyString <-> allWhiteSpace s = true.
Proof.
  induction s as [|c r IH]; simpl.
  - tauto.
  - destruct (isWhiteSpace c); simpl.
    + destruct (trimEnd r) eqn:E; simpl.
      * split; intros _; [apply IH|]; reflexivity.
      * split; [discriminate|]. intros H. apply IH in H. discriminate.
    + split; discriminate.
Qed.

Lemma allWhiteSpace_trimStart (s : string) :
  allWhiteSpace (trimStart s) = allWhiteSpace s.
Proof.
  induction s as [|c r IH]; simpl; [reflexivity|].
  destruct (isWhiteSpace c) eqn:E; simpl; [exact IH|].
  rewrite E. reflexivity.
Qed.

(** [trim] leaves nothing exactly of the strings made of white space. *)
Lemma trim_blank (s : string) :
  trim s = EmptyString <-> allWhiteSpace s = true.
Proof.
  unfold trim. rewrite trimEnd_blank, allWhiteSpace_trimStart. tauto.
Qed.

Lemma length_zero (s : string) : String.length s = 0 <-> s = EmptyString.
Proof. destruct s; simpl; split; congruence. Qed.

Lemma startsWith_spec (s p : string) :
  startsWith s p = true <-> exists b, s = String.append p b.
Proof.
  revert s. induction p as [|c p IH]; intros s; simpl.
  - split; [intros _; exists s; reflexivity|].
    intros _; destruct s; reflexivity.
  - destruct s as [|a s]; simpl.
    + split; [discriminate | intros [b H]; discriminate].
    + rewrite andb_true_iff, IH, Ascii.eqb_eq. split.
      * intros [-> [b ->]]. exists b. reflexivity.
      * intros [b H]. injection H as -> ->. split; [reflexivity | eauto].
Qed.

(** [includes] is containment as a contiguous run. *)
Lemma includes_spec (s term : string) :
  includes s term = true <->
  exists a b, s = String.append a (String.append term b).
Proof.
  induction s as [|c r IH].
  - cbn [includes]. rewrite orb_false_r, startsWith_spec. split.
    + intros [b H]. exists EmptyString, b. exact H.
    + intros [a [b H]]. destruct a; simpl in H.
      * exists b. exact H.
      * discriminate.
  - cbn [includes]. rewrite orb_true_iff, startsWith_spec, IH. split.
    + intros [[b H] | [a [b H]]].
      * exists EmptyString, b. exact H.
      * exists (String c a), b. simpl. rewrite H. reflexivity.
    + intros [a [b H]]. destruct a as [|x a]; simpl in H.
      * left. exists b. exact H.
      * right. injection H as _ H. exists a, b. exact H.
Qed.







End Strings.

(** ** The document tree *)

Section Tree.

(** Induction on an element with the property known for its children. *)
Lemma Element_children_ind (P : Element -> Prop) :
  (forall e, Forall P (children e) -> P e) -> forall e, P e.
Proof.
  intros step. fix IH 1. intros e. apply step.
  destruct e as [u tag i cl ats it tc kids]. simpl.
  induction kids as [|k kids IHk]; constructor.
  - apply IH.
  - exact IHk.
Qed.

Lemma subtree_unfold (e : Element) :
  subtree e = e :: flat_map subtree (children e).
Proof.
  destruct e as [u tag i cl ats it tc kids]. reflexivity.
Qed.

Lemma descendants_subtree (e : Element) :
  subtree e = e :: descendants e.
Proof. apply subtree_unfold. Qed.

Lemma subtree_appendChild (b n : Element) :
  subtree (appendChild b n) = appendChild b n :: descendants b ++ subtree n.
Proof.
  rewrite subtree_unfold. unfold descendants. simpl.
  rewrite flat_map_app. simpl. rewrite app_nil_r. reflexivity.
Qed.

Lemma nth_error_firstn_lt {A : Type} (l : list A) (n i : nat) :
  i < n -> nth_error (firstn n l) i = nth_error l i.
Proof.
  revert n i. induction l as [|x l IH]; intros [|n] [|i] H; simpl;
    try reflexivity; try lia.
  apply IH. lia.
Qed.

Lemma In_firstn_nth {A : Type} (l : list A) (n : nat) (x : A) :
  In x (firstn n l) <-> exists i, i < n /\ nth_error l i = Some x.
Proof.
  revert n. induction l as [|y l IH]; intros [|n]; simpl.
  - split; [tauto | intros [i [H _]]; lia].
  - split; [tauto | intros [[|i] [_ H]]; discriminate].
  - split; [tauto | intros [i [H _]]; lia].
  - rewrite IH. split.
    + intros [-> | [i [H1 H2]]].
      * exists 0. split; [lia | reflexivity].
      * exists (S i). split; [lia | exact H2].
    + intros [[|i] [H1 H2]]; simpl in H2.
      * left. congruence.
      * right. exists i. split; [lia | exact H2].
Qed.

(** [find] returns the first element that passes the test. *)
Lemma find_first {A : Type} (f : A -> bool) (l : list A) (i : nat) (x : A) :
  nth_error l i = Some x -> f x = true ->
  (forall j y, j < i -> nth_error l j = Some y -> f y = false) ->
  List.find f l = Some x.
Proof.
  revert i. induction l as [|y l IH]; intros [|i] Hx Hf Hbefore;
    simpl in *; try discriminate.
  - injection Hx as ->. rewrite Hf. reflexivity.
  - rewrite (Hbefore 0 y); [|lia|reflexivity].
    apply (IH i Hx Hf). intros j z Hj Hz. apply (Hbefore (S j) z); [lia|].
    exact Hz.
Qed.

End Tree.

(** ** Message locator *)

Section Locator.

Variable platform : Platform.

(** The loop looks at the candidates that the remaining attempts
    allow, and stops at the first response among them. *)
Lemma walkSiblings_find (candidates : list Element) (attempts : nat) :
  walkSiblings platform candidates attempts
  = List.find (isAIResponse platform)
      (firstn (maxAttempts - attempts) candidates).
Proof.
  revert attempts. induction candidates as [|c rest IH]; intros a.
  - simpl. destruct (maxAttempts - a); reflexivity.
  - cbn [walkSiblings]. destruct (a <? maxAttempts) eqn:E.
    + apply Nat.ltb_lt in E.
      replace (maxAttempts - a) with (S (maxAttempts - S a)) by lia.
      cbn [firstn List.find]. rewrite IH. reflexivity.
    + apply Nat.ltb_ge in E.
      replace (maxAttempts - a) with 0 by lia. reflexivity.
Qed.

End Locator.

(** C3.  [findAIResponse] on a user message returns the earliest of the
    first ten following siblings that passes the platform's response test;
    when none of them passes it returns what the fallback gives, which for
    ChatGPT is the sibling after the nearest conversation-turn container
    (the message itself counts as its own container) and nothing for the
    other platforms; it returns none exactly when the walk and the
    fallback both fail. *)
Theorem findAIResponse_earliest_sibling_or_fallback
  (body : Element) (userMessage : nat) (platform : Platform) :
  let siblings := followingSiblings userMessage body in
  let noneWithinTenHops :=
    forall i candidate,
      i < 10 -> nth_error siblings i = Some candidate ->
      isAIResponse platform candidate = false in
  exists result,
    findAIResponse body (Some userMessage) platform = Normal result
    /\ (forall i candidate,
          i < 10 -> nth_error siblings i = Some candidate ->
          isAIResponse platform candidate = true ->
          (forall j earlier,
              j < i -> nth_error siblings j = Some earlier ->
              isAIResponse platform earlier = false) ->
          result = Some candidate)
    /\ (noneWithinTenHops ->
        result = turnFallback platform userMessage body)
    /\ (forall next,
          turnFallback platform userMessage body = Some next <->
          platform = ChatGPT /\
          exists turn rest,
            closest [AttrPrefix "data-testid" "conversation-turn"]
              userMessage body = Some (turn, next :: rest))
    /\ (result = None <->
        noneWithinTenHops /\ turnFallback platform userMessage body = None).
Proof.
  intros siblings noneWithinTenHops.
  unfold findAIResponse. cbn [deref bind].
  fold siblings. rewrite walkSiblings_find.
  change (maxAttempts - 0) with 10.
  assert (Hnone :
    List.find (isAIResponse platform) (firstn 10 siblings) = None
    <-> noneWithinTenHops).
  { split.
    - intros H i c Hi Hc.
      apply (find_none _ _ H). apply In_firstn_nth. eauto.
    - intros H. destruct (List.find _ _) as [c|] eqn:E; [|reflexivity].
      apply find_some in E. destruct E as [Hin Hc].
      apply In_firstn_nth in Hin. destruct Hin as [i [Hi Hn]].
      rewrite (H i c Hi Hn) in Hc. discriminate. }
  assert (Hfallback : forall next,
    turnFallback platform userMessage body = Some next <->
    platform = ChatGPT /\
    exists turn rest,
      closest [AttrPrefix "data-testid" "conversation-turn"]
        userMessage body = Some (turn, next :: rest)).
  { intros next. unfold turnFallback. destruct platform.
    - destruct (closest _ _ _) as [[turn [|n rest]]|]; split.
      + discriminate.
      + intros [_ [t [r H]]]. discriminate.
      + intros H. injection H as ->. split; [reflexivity|]. eauto.
      + intros [_ [t [r H]]]. congruence.
      + discriminate.
      + intros [_ [t [r H]]]. discriminate.
    - split; [discriminate | intros [H _]; discriminate].
    - split; [discriminate | intros [H _]; discriminate]. }
  destruct (List.find (isAIResponse platform) (firstn 10 siblings))
    as [found|] eqn:E.
  - exists (Some found). split; [reflexivity|]. split; [|split; [|split]].
    + intros i c Hi Hc Hok Hbefore.
      rewrite (find_first (isAIResponse platform) (firstn 10 siblings) i c)
        in E.
      * exact (eq_sym E).
      * rewrite nth_error_firstn_lt; assumption.
      * exact Hok.
      * intros j y Hj Hy. rewrite nth_error_firstn_lt in Hy by lia.
        apply (Hbefore j y Hj Hy).
    + intros H. apply Hnone in H. discriminate.
    + exact Hfallback.
    + split; [discriminate|]. intros [H _]. apply Hnone in H. discriminate.
  - exists (turnFallback platform userMessage body).
    split; [reflexivity|]. split; [|split; [|split]].
    + intros i c Hi Hc Hok _.
      rewrite (proj1 Hnone eq_refl i c Hi Hc) in Hok. discriminate.
    + reflexivity.
    + exact Hfallback.
    + split.
      * intros H. split; [apply Hnone; reflexivity | exact H].
      * intros [_ H]. exact H.
Qed.

(** C9.  [extractMessageText] returns a string for every argument and
    never throws: the empty string for a missing element and for an
    element with neither [innerText] nor [textContent], and otherwise the
    first non-empty one of the two trimmed texts, or the empty string. *)
Theorem extractMessageText_total
  (element : option Element) (platform : Platform) :
  exists text,
    extractMessageText element platform = Normal text
    /\ (element = None -> text = EmptyString)
    /\ (forall el,
          element = Some el -> innerText el = None ->
          textContent el = None -> text = EmptyString)
    /\ (forall el,
          element = Some el ->
          text = if truthy (optTrim (innerText el))
                 then orEmpty (optTrim (innerText el))
                 else if truthy (optTrim (textContent el))
                      then orEmpty (optTrim (textContent el))
                      else EmptyString).
Proof.
  destruct element as [el|]; cbn [extractMessageText].
  - eexists. split; [reflexivity|]. split; [discriminate|]. split.
    + intros e H Hi Ht. injection H as <-. rewrite Hi, Ht. reflexivity.
    + intros e H. injection H as <-. unfold jsOr.
      destruct (truthy (optTrim (innerText el))) eqn:E1.
      * rewrite E1. reflexivity.
      * destruct (truthy (optTrim (textContent el))) eqn:E2.
        -- reflexivity.
        -- reflexivity.
  - exists EmptyString. split; [reflexivity|]. split; [reflexivity|].
    split; intros e H; discriminate.
Qed.

Section UserMessages.

(** The filter of the Gemini branch keeps exactly the nodes whose
    rendered text has a character that is not white space. *)
Lemma hasText_spec (el : Element) :
  hasText el = true <->
  exists t, innerText el = Some t /\ allWhiteSpace t = false.
Proof.
  unfold hasText. destruct (innerText el) as [t|]; simpl.
  - assert (H : (0 <? String.length (trim t)) = negb (allWhiteSpace t)).
    { destruct (allWhiteSpace t) eqn:E.
      - apply trim_blank in E. rewrite E. reflexivity.
      - destruct (trim t) eqn:T; [|reflexivity].
        apply trim_blank in T. congruence. }
    rewrite H. split.
    + intros Ht. apply andb_true_iff in Ht. destruct Ht as [_ Ht].
      exists t. split; [reflexivity|].
      destruct (allWhiteSpace t); [discriminate | reflexivity].
    + intros [t' [Ht' Hw]]. injection Ht' as <-. rewrite Hw.
      destruct t; [discriminate | reflexivity].
  - split; [discriminate | intros [t [H _]]; discriminate].
Qed.

Lemma filter_filter {A : Type} (f g : A -> bool) (l : list A) :
  List.filter g (List.filter f l)
  = List.filter (fun x => f x && g x) l.
Proof.
  induction l as [|x l IH]; simpl; [reflexivity|].
  destruct (f x); simpl; [destruct (g x)|]; rewrite IH; reflexivity.
Qed.

(** On every platform the result lists nodes of the document in
    document order: it is the document-order list of all elements with
    some of them left out. *)
Lemma findUserMessages_document_order (platform : Platform)
  (body : Element) :
  exists keep,
    findUserMessages platform body = List.filter keep (subtree body).
Proof.
  destruct platform; simpl.
  - eexists. reflexivity.
  - unfold docQuerySelectorAll.
    destruct (length _ =? 0); rewrite filter_filter; eexists; reflexivity.
  - exists (fun _ => false). induction (subtree body); simpl; auto.
Qed.

(** The Gemini branch leaves out every node whose rendered text is
    missing, empty or white space only. *)
Lemma findUserMessages_gemini_has_text (body el : Element) :
  In el (findUserMessages Gemini body) ->
  exists t, innerText el = Some t /\ allWhiteSpace t = false.
Proof.
  simpl. intros H. apply filter_In in H. apply hasText_spec, H.
Qed.

End UserMessages.

(** C1.  On the ChatGPT branch [findUserMessages] returns every node
    with the user role, also one whose rendered text is white space only:
    on the sample thread the result is the nodes 3 and 7 in document
    order, and node 7 renders as three blanks, which the filter of the
    Gemini branch would leave out. *)
Theorem findUserMessages_chatgpt_keeps_blank_node :
  List.map uid (findUserMessages ChatGPT chatgptPage) = [3; 7]
  /\ exists el,
       In el (findUserMessages ChatGPT chatgptPage)
       /\ uid el = 7
       /\ innerText el = Some "   "
       /\ allWhiteSpace "   " = true
       /\ hasText el = false.
Proof.
  split; [reflexivity|].
  exists (sampleNode 7 "div" [("data-message-author-role", "user")] "   " []).
  repeat split; try reflexivity.
  right. left. reflexivity.
Qed.

(** ** The search key *)

Section SearchKey.


End SearchKey.




(** ** Counting and finding nodes *)

Section Counting.

Variable i : string.

Lemma list_sum_cons (x : nat) (l : list nat) :
  list_sum (x :: l) = x + list_sum l.
Proof. reflexivity. Qed.

Lemma list_sum_nil : list_sum [] = 0.
Proof. reflexivity. Qed.

Lemma countId_unfold (e : Element) :
  countId i e
  = (if String.eqb (eid e) i then 1 else 0)
    + list_sum (List.map (countId i) (children e)).
Proof.
  unfold countId at 1. rewrite subtree_unfold. cbn [List.filter].
  assert (H : forall kids,
    length (List.filter (fun x => String.eqb (eid x) i)
              (flat_map subtree kids))
    = list_sum (List.map (countId i) kids)).
  { induction kids as [|k kids IH]; [reflexivity|].
    cbn [flat_map List.map]. rewrite list_sum_cons.
    rewrite List.filter_app, List.length_app, IH. reflexivity. }
  destruct (String.eqb (eid e) i); cbn [length]; rewrite H; reflexivity.
Qed.

Lemma countId_appendChild (b n : Element) :
  countId i (appendChild b n) = countId i b + countId i n.
Proof.
  rewrite (countId_unfold (appendChild b n)), (countId_unfold b).
  unfold appendChild at 1 2. cbn [eid children].
  rewrite List.map_app, list_sum_app. cbn [List.map].
  rewrite list_sum_cons, list_sum_nil. lia.
Qed.

Lemma children_removeNode (u : nat) (e : Element) :
  children (removeNode u e)
  = flat_map (fun k => if uid k =? u then [] else [removeNode u k])
      (children e).
Proof.
  destruct e as [v tag j cl ats it tc kids]. cbn [removeNode children].
  induction kids as [|k kids IH]; [reflexivity|].
  cbn [flat_map]. destruct (uid k =? u).
  - exact IH.
  - cbn [app]. f_equal. exact IH.
Qed.

Lemma eid_removeNode (u : nat) (e : Element) :
  eid (removeNode u e) = eid e.
Proof. destruct e; reflexivity. Qed.

Lemma uid_removeNode (u : nat) (e : Element) :
  uid (removeNode u e) = uid e.
Proof. destruct e; reflexivity. Qed.

(** Taking a node out never adds an element with the id. *)
Lemma countId_removeNode (u : nat) (e : Element) :
  countId i (removeNode u e) <= countId i e.
Proof.
  induction e as [e IH] using Element_children_ind.
  rewrite (countId_unfold (removeNode u e)), (countId_unfold e).
  rewrite eid_removeNode, children_removeNode.
  apply Nat.add_le_mono_l.
  induction IH as [|k kids Hk _ IHkids]; [apply le_n|].
  cbn [flat_map List.map]. rewrite list_sum_cons.
  rewrite List.map_app, list_sum_app.
  destruct (uid k =? u); cbn [List.map];
    rewrite ?list_sum_cons, ?list_sum_nil; lia.
Qed.

Lemma getElementById_None (b : Element) :
  getElementById b i = None <-> countId i b = 0.
Proof.
  unfold getElementById, countId.
  induction (subtree b) as [|x l IH]; cbn [List.find List.filter].
  - tauto.
  - destruct (String.eqb (eid x) i); cbn [length].
    + split; [discriminate | lia].
    + exact IH.
Qed.

End Counting.

Section Membership.

Variable u : nat.

Lemma inDocument_unfold (e : Element) :
  inDocument u e = (uid e =? u) || existsb (inDocument u) (children e).
Proof.
  unfold inDocument at 1. rewrite subtree_unfold. cbn [existsb]. f_equal.
  induction (children e) as [|k kids IH]; [reflexivity|].
  cbn [flat_map existsb]. rewrite existsb_app, IH. reflexivity.
Qed.

Lemma inDocument_appendChild (b n : Element) :
  inDocument u (appendChild b n) = inDocument u b || inDocument u n.
Proof.
  rewrite (inDocument_unfold (appendChild b n)), (inDocument_unfold b).
  unfold appendChild at 1 2. cbn [uid children].
  rewrite existsb_app. cbn [existsb]. rewrite orb_false_r, orb_assoc.
  reflexivity.
Qed.

(** Once removed, a node is nowhere below the body. *)
Lemma inDocument_removeNode (e : Element) :
  inDocument u (removeNode u e) = (uid e =? u).
Proof.
  induction e as [e IH] using Element_children_ind.
  rewrite inDocument_unfold, uid_removeNode, children_removeNode.
  destruct (uid e =? u) eqn:E; [reflexivity|]. cbn [orb].
  induction IH as [|k kids Hk _ IHkids]; [reflexivity|].
  cbn [flat_map]. rewrite existsb_app, IHkids, orb_false_r.
  destruct (uid k =? u) eqn:Ek; [reflexivity|].
  cbn [existsb]. rewrite Hk. reflexivity.
Qed.

End Membership.

(** ** What the user interface leaves alone *)

Section Quiet.

Lemma quiet_refl (s : State) : quiet s s.
Proof. split; [reflexivity | apply le_n]. Qed.

Lemma quiet_trans (s t r : State) : quiet s t -> quiet t r -> quiet s r.
Proof. unfold quiet. intros [H1 H2] [H3 H4]. split; [congruence | lia]. Qed.

Lemma quiet_same (s s' : State) :
  retryCount s' = retryCount s -> body s' = body s -> quiet s s'.
Proof.
  unfold quiet, triggerCount. intros H1 H2. rewrite H2.
  split; [exact H1 | apply le_n].
Qed.

Lemma countId_node (i : string) (u : nat) (tag id : string)
  (cl : list string) (ats : list (string * string)) (text : string)
  (kids : list Element) :
  countId i (node u tag id cl ats text kids)
  = (if String.eqb id i then 1 else 0)
    + list_sum (List.map (countId i) kids).
Proof. apply countId_unfold. Qed.

Lemma countId_parseItems (base : nat) (items : list ItemMarkup) :
  list_sum (List.map (countId triggerId) (parseItems base items)) = 0.
Proof.
  revert base. induction items as [|m items IH]; intros base;
    [reflexivity|].
  cbn [parseItems List.map]. rewrite list_sum_cons, IH.
  unfold itemElement. rewrite !countId_node. reflexivity.
Qed.

Lemma countId_modalElement (modal : nat) (platform : Platform)
  (markup : ListMarkup) :
  countId triggerId (modalElement modal platform markup) = 0.
Proof.
  unfold modalElement.
  repeat (rewrite countId_node; cbn [List.map];
          rewrite ?list_sum_cons, ?list_sum_nil).
  destruct markup as [|items].
  - cbn [parseList List.map]. rewrite list_sum_cons, countId_node.
    reflexivity.
  - cbn [parseList]. rewrite countId_parseItems. reflexivity.
Qed.

Lemma quiet_removeFromPage (u : nat) (s : State) :
  quiet s (removeFromPage u s).
Proof.
  split; [reflexivity|]. apply countId_removeNode.
Qed.

Lemma quiet_setTimeout (cb : Callback) (delay : nat) (s : State) :
  quiet s (setTimeout cb delay s).
Proof. apply quiet_same; reflexivity. Qed.

Lemma quiet_showNotification (message type : string) (s : State) :
  quiet s (showNotification message type s).
Proof.
  split; [reflexivity|].
  unfold showNotification, triggerCount, setTimeout, setCssText. fields.
  rewrite countId_appendChild, countId_node. cbn. lia.
Qed.

Lemma quiet_highlightElement (u : nat) (platform : Platform) (s : State) :
  quiet s (highlightElement u platform s).
Proof. apply quiet_same; reflexivity. Qed.

Lemma quiet_copyAIResponse (msg : option nat) (platform : Platform)
  (s : State) :
  quiet s (copyAIResponse msg platform s).
Proof.
  unfold copyAIResponse.
  destruct (findAIResponse _ _ _) as [[r|]|e].
  - apply quiet_same; reflexivity.
  - apply quiet_showNotification.
  - apply quiet_same; reflexivity.
Qed.

Lemma quiet_clipboardSettles (ok : bool) (s : State) :
  quiet s (clipboardSettles ok s).
Proof.
  unfold clipboardSettles. destruct (pendingWrites s) as [|text rest].
  - apply quiet_refl.
  - destruct ok.
    + eapply quiet_trans; [|apply quiet_showNotification].
      apply quiet_same; reflexivity.
    + eapply quiet_trans; [|apply quiet_showNotification].
      apply quiet_same; reflexivity.
Qed.

Lemma quiet_scrollToElement (msg : option nat) (s : State) :
  quiet s (stateOf (scrollToElement msg s)).
Proof. destruct msg; apply quiet_same; reflexivity. Qed.

Lemma quiet_goToAIResponse (msg : option nat) (platform : Platform)
  (s : State) :
  quiet s (stateOf (goToAIResponse msg platform s)).
Proof.
  unfold goToAIResponse.
  destruct (findAIResponse _ _ _) as [r|e]; [|apply quiet_refl].
  destruct r as [r|]; cbn; [apply quiet_same; reflexivity|].
  destruct msg; cbn; apply quiet_same; reflexivity.
Qed.

Lemma quiet_andThen_remove (o : Outcome) (modal : nat) (s : State) :
  quiet s (stateOf o) ->
  quiet s (stateOf (andThen o
                      (fun s => Returned (removeFromPage modal s)))).
Proof.
  destruct o as [s'|e s']; cbn; intros H; [|exact H].
  eapply quiet_trans; [exact H | apply quiet_removeFromPage].
Qed.

Lemma quiet_onContainerClick (modal : nat) (userMessages : list nat)
  (platform : Platform) (target : nat) (s : State) :
  quiet s (stateOf (onContainerClick modal userMessages platform target s)).
Proof.
  unfold onContainerClick.
  destruct (closest [Class "prompt-item"] target (body s)) as [[item rest]|];
    [|apply quiet_refl].
  destruct (isSome (closest [Class "copy-btn"] target (body s))).
  - apply quiet_copyAIResponse.
  - destruct (isSome (closest [Class "goto-btn"] target (body s))).
    + apply quiet_andThen_remove, quiet_goToAIResponse.
    + apply quiet_andThen_remove, quiet_scrollToElement.
Qed.

Lemma quiet_applySearch (term : string) (items : list Element) (s : State) :
  quiet s (stateOf (applySearch term items s)).
Proof.
  revert s. induction items as [|item items IH]; intros s; cbn.
  - apply quiet_refl.
  - destruct (getAttribute item "data-full-text"); [|apply quiet_refl].
    eapply quiet_trans; [|apply IH]. apply quiet_same; reflexivity.
Qed.

Lemma quiet_onSearchInput (modal : nat) (value : string) (s : State) :
  quiet s (stateOf (onSearchInput modal value s)).
Proof.
  unfold onSearchInput. destruct (findNode modal (body s)).
  - apply quiet_applySearch.
  - apply quiet_refl.
Qed.

Lemma quiet_setupEventListeners (modal : Element)
  (userMessages : list nat) (platform : Platform) (s : State) :
  quiet s (stateOf (setupEventListeners modal userMessages platform s)).
Proof.
  unfold setupEventListeners.
  destruct (querySelector modal [Id "close-prompts-list"]);
    [|apply quiet_refl].
  destruct (querySelector modal [Id "thread-navigator-search"]);
    [|apply quiet_same; reflexivity].
  destruct (querySelector modal [Id "prompts-container"]);
    apply quiet_same; reflexivity.
Qed.

Lemma quiet_showPromptsList (platform : Platform) (s : State) :
  quiet s (stateOf (showPromptsList platform s)).
Proof.
  unfold showPromptsList.
  set (s1 := match getElementById (body s) modalId with
             | Some existing =>
                 set_body (removeNode (uid existing) (body s)) s
             | None => s
             end).
  assert (H1 : quiet s s1).
  { subst s1. destruct (getElementById (body s) modalId).
    - apply (quiet_removeFromPage (uid e) s).
    - apply quiet_refl. }
  destruct (generatePromptsListHTML _ _) as [markup|e].
  - eapply quiet_trans; [|apply quiet_setupEventListeners].
    eapply quiet_trans; [exact H1|].
    split; [reflexivity|]. unfold triggerCount, setTimeout. fields.
    rewrite countId_appendChild, countId_modalElement. lia.
  - cbn. eapply quiet_trans; [exact H1|]. apply quiet_same; reflexivity.
Qed.

Lemma quiet_report (s : State) (o : Outcome) :
  quiet s (stateOf o) -> quiet s (report o).
Proof.
  destruct o as [s'|e s']; cbn; intros H; [exact H|].
  eapply quiet_trans; [exact H | apply quiet_same; reflexivity].
Qed.

Lemma quiet_runClick (l : Listener) (target : nat) (s : State) :
  quiet s (stateOf (fst (runClick l target s))).
Proof.
  destruct l; cbn.
  - apply quiet_showPromptsList.
  - apply quiet_removeFromPage.
  - destruct (target =? modal);
      [apply quiet_removeFromPage | apply quiet_refl].
  - apply quiet_refl.
  - apply quiet_onContainerClick.
Qed.

Lemma quiet_dispatchClick (path : list nat) (target : nat) (s : State) :
  quiet s (dispatchClick path target s).
Proof.
  revert s. induction path as [|n rest IH]; intros s; cbn.
  - apply quiet_refl.
  - destruct (listeners s !! n) as [l|]; [|apply IH].
    pose proof (quiet_runClick l target s) as H.
    destruct (runClick l target s) as [o stop]. cbn in H.
    apply quiet_report in H. destruct stop; [exact H|].
    eapply quiet_trans; [exact H | apply IH].
Qed.

Lemma quiet_click (target : nat) (s : State) : quiet s (click target s).
Proof.
  unfold click. destruct (locate target (body s)).
  - apply quiet_dispatchClick.
  - apply quiet_refl.
Qed.

Lemma quiet_input (target : nat) (value : string) (s : State) :
  quiet s (input target value s).
Proof.
  unfold input. destruct (inDocument target (body s)); [|apply quiet_refl].
  destruct (listeners s !! target) as [[]|]; try apply quiet_refl.
  apply quiet_report, quiet_onSearchInput.
Qed.

End Quiet.

(** ** The poller *)

Section Poller.



Lemma getCurrentPlatform_known (s : State) :
  getCurrentPlatform (hostname s) <> Unknown ->
  initExtension s
  = if isSome (getElementById (body s) triggerId) then s
    else if checkPageReady (getCurrentPlatform (hostname s)) (body s) then
      createFloatingButton (getCurrentPlatform (hostname s))
        (set_console
           (console s ++
              [String.append "Thread Navigator: Initializing for "
                 (String.append
                    (platformName (getCurrentPlatform (hostname s)))
                    "...")]) s)
    else if retryCount s <? retryLimit then
      setTimeout CbInitExtension retryInterval
        (set_retryCount (S (retryCount s)) s)
    else s.
Proof.
  unfold initExtension.
  destruct (getCurrentPlatform (hostname s)); congruence.
Qed.

(** A failed readiness check schedules the next attempt while the
    counter is below the limit, and does nothing once it is reached. *)
Lemma initExtension_failed (s : State) :
  readinessFails s = true ->
  initExtension s
  = if retryCount s <? retryLimit then
      setTimeout CbInitExtension retryInterval
        (set_retryCount (S (retryCount s)) s)
    else s.
Proof.
  unfold readinessFails. rewrite !andb_true_iff, !negb_true_iff.
  intros [[Hp Hb] Hr]. rewrite getCurrentPlatform_known.
  - rewrite Hb, Hr. reflexivity.
  - intros E. rewrite E in Hp. discriminate.
Qed.

(** Any other attempt leaves the counter alone. *)
Lemma initExtension_not_failed (s : State) :
  readinessFails s = false -> retryCount (initExtension s) = retryCount s.
Proof.
  unfold readinessFails, initExtension.
  destruct (getCurrentPlatform (hostname s)); cbn [Platform_eqb negb andb];
    try reflexivity.
  - destruct (isSome (getElementById (body s) triggerId));
      [reflexivity|].
    destruct (checkPageReady ChatGPT (body s)); [reflexivity|discriminate].
  - destruct (isSome (getElementById (body s) triggerId));
      [reflexivity|].
    destruct (checkPageReady Gemini (body s)); [reflexivity|discriminate].
Qed.

Lemma retryCount_initExtension (s : State) :
  retryCount (initExtension s)
  = if readinessFails s then
      if retryCount s <? retryLimit then S (retryCount s) else retryCount s
    else retryCount s.
Proof.
  destruct (readinessFails s) eqn:E.
  - rewrite (initExtension_failed s E).
    destruct (retryCount s <? retryLimit); reflexivity.
  - apply initExtension_not_failed, E.
Qed.



Lemma quiet_runCallback (cb : Callback) (s : State) :
  cb <> CbInitExtension -> quiet s (runCallback cb s).
Proof.
  destruct cb; cbn; intros H.
  - congruence.
  - destruct (getElementById (body s) "thread-navigator-search");
      [apply quiet_same; reflexivity | apply quiet_refl].
  - apply quiet_removeFromPage.
  - apply quiet_same; reflexivity.
  - apply quiet_same; reflexivity.
Qed.

(** Every step other than an attempt of the poller, a change by the
    host page or the watcher seeing a new address is quiet. *)
Lemma quiet_step (e : Event) (s : State) :
  attemptOf e s = None ->
  match e with
  | HostChange _ _ _ => False
  | Mutation => False
  | _ => True
  end ->
  quiet s (step e s).
Proof.
  destruct e; cbn [step attemptOf]; intros Ha Hk; try contradiction.
  - destruct (loadListener s); [discriminate | apply quiet_refl].
  - unfold fireTimer. destruct (timers s) as [|[due cb] rest];
      [apply quiet_refl|].
    eapply quiet_trans; [|apply quiet_runCallback].
    + apply quiet_same; reflexivity.
    + destruct cb; congruence.
  - apply quiet_click.
  - apply quiet_input.
  - apply quiet_clipboardSettles.
Qed.

Lemma step_attempt (e : Event) (s t : State) :
  attemptOf e s = Some t ->
  step e s = initExtension t /\ quiet s t.
Proof.
  destruct e; cbn [step attemptOf]; try discriminate.
  - destruct (loadListener s); [|discriminate]. intros H.
    injection H as <-. split; [reflexivity | apply quiet_same; reflexivity].
  - unfold fireTimer. destruct (timers s) as [|[due cb] rest];
      [discriminate|].
    destruct cb; try discriminate. intros H. injection H as <-.
    split; [reflexivity | apply quiet_same; reflexivity].
Qed.

Lemma retryCount_step (e : Event) (s : State) :
  retryCount (step e s)
  = if addressChangeObserved e s then 0
    else if failedCheck e s then
           if retryCount s <? retryLimit then S (retryCount s)
           else retryCount s
         else retryCount s.
Proof.
  unfold failedCheck. destruct (attemptOf e s) as [t|] eqn:Ea.
  - destruct (step_attempt e s t Ea) as [-> [Hr _]].
    rewrite retryCount_initExtension, Hr.
    destruct e; try discriminate; reflexivity.
  - destruct e; try (apply (quiet_step _ s Ea I)).
    + cbn. unfold onMutation.
      destruct (String.eqb (href s) (lastUrl s)); reflexivity.
    + reflexivity.
Qed.




Lemma retryCount_run (events : list Event) (s : State) (k : nat) :
  retryCount s = Nat.min k retryLimit ->
  retryCount (run events s)
  = Nat.min (failedChecksSince k events s) retryLimit.
Proof.
  revert s k. induction events as [|e events IH]; intros s k H; cbn.
  - exact H.
  - apply IH. rewrite retryCount_step, H.
    destruct (addressChangeObserved e s); [reflexivity|].
    destruct (failedCheck e s); [|reflexivity].
    destruct (Nat.min k retryLimit <? retryLimit) eqn:E.
    + apply Nat.ltb_lt in E. lia.
    + apply Nat.ltb_ge in E. lia.
Qed.

End Poller.

(** C2.  Along any run of the page, with [k] the number of failed
    readiness checks since the watcher last saw the address change (or
    since the script started): the counter equals [k] capped at
    [retryLimit = 20]; a failed check schedules one more attempt, after
    [retryInterval], exactly while [k] is below 20, so after 20 failed
    checks nothing more is scheduled; and the counter goes down only in a
    step where the watcher observes a changed address, which sets it
    to 0. *)
Theorem poller_stops_after_retryLimit
  (s0 : State) (k0 : nat) (events : list Event) :
  retryCount s0 = Nat.min k0 retryLimit ->
  let s := run events s0 in
  let k := failedChecksSince k0 events s0 in
  retryLimit = 20
  /\ retryCount s = Nat.min k retryLimit
  /\ (forall e t,
        attemptOf e s = Some t -> readinessFails t = true ->
        step e s
        = if k <? retryLimit then
            setTimeout CbInitExtension retryInterval
              (set_retryCount (S (retryCount t)) t)
          else t)
  /\ (forall e,
        retryCount (step e s) < retryCount s ->
        addressChangeObserved e s = true)
  /\ (forall e,
        addressChangeObserved e s = true -> retryCount (step e s) = 0).
Proof.
  intros H0 s k.
  assert (Hk : retryCount s = Nat.min k retryLimit)
    by (apply retryCount_run, H0).
  split; [reflexivity|]. split; [exact Hk|]. split; [|split].
  - intros e t Ha Hf. destruct (step_attempt e s t Ha) as [-> [Hr _]].
    rewrite (initExtension_failed t Hf), Hr, Hk.
    destruct (k <? retryLimit) eqn:E.
    + apply Nat.ltb_lt in E.
      replace (Nat.min k retryLimit <? retryLimit) with true;
        [reflexivity|]. symmetry. apply Nat.ltb_lt. lia.
    + apply Nat.ltb_ge in E.
      replace (Nat.min k retryLimit <? retryLimit) with false;
        [reflexivity|]. symmetry. apply Nat.ltb_ge. lia.
  - intros e. rewrite retryCount_step.
    destruct (addressChangeObserved e s); [reflexivity|].
    destruct (failedCheck e s); [|lia].
    destruct (retryCount s <? retryLimit); lia.
  - intros e He. rewrite retryCount_step, He. reflexivity.
Qed.

Lemma poller_stops_after_retryLimit_witness :
  retryLimit = 20
  /\ retryCount (run (repeat TimerFires 25) waitingStart)
     = Nat.min (failedChecksSince 1 (repeat TimerFires 25) waitingStart)
         retryLimit
  /\ (forall e t,
        attemptOf e (run (repeat TimerFires 25) waitingStart) = Some t ->
        readinessFails t = true ->
        step e (run (repeat TimerFires 25) waitingStart)
        = if failedChecksSince 1 (repeat TimerFires 25) waitingStart
             <? retryLimit
          then
            setTimeout CbInitExtension retryInterval
              (set_retryCount (S (retryCount t)) t)
          else t)
  /\ (forall e,
        retryCount (step e (run (repeat TimerFires 25) waitingStart))
        < retryCount (run (repeat TimerFires 25) waitingStart) ->
        addressChangeObserved e (run (repeat TimerFires 25) waitingStart)
        = true)
  /\ (forall e,
        addressChangeObserved e (run (repeat TimerFires 25) waitingStart)
        = true ->
        retryCount (step e (run (repeat TimerFires 25) waitingStart)) = 0).
Proof.
  exact (poller_stops_after_retryLimit waitingStart 1
           (repeat TimerFires 25) eq_refl).
Defined.

(** A run without clicks (ready-checks, timers, the watcher, the host
    page, input) opens no list, so its prompts are never rendered. *)
Lemma promptsStayPlain_no_click (events : list Event) (s : State) :
  forallb (fun e => negb (isClick e)) events = true ->
  promptsStayPlain events s = true.
Proof.
  revert s. induction events as [|e events IH]; intros s H; [reflexivity|].
  cbn [forallb] in H. apply andb_true_iff in H. destruct H as [He H].
  cbn [promptsStayPlain]. rewrite (IH (step e s) H), andb_true_r.
  destruct e; try reflexivity. discriminate.
Qed.


(** ** Inline styles and the highlight *)

Section Styles.

Lemma styleOf_insert (u w : nat) (st : Style) (s : State) :
  styleOf (set_styles (<[u := st]> (styles s)) s) w
  = if decide (u = w) then st else styleOf s w.
Proof.
  unfold styleOf. fields. rewrite lookup_insert.
  destruct (decide (u = w)); reflexivity.
Qed.

Lemma styleOf_same_styles (s s' : State) (u : nat) :
  styles s' = styles s -> styleOf s' u = styleOf s u.
Proof. unfold styleOf. intros ->. reflexivity. Qed.

Lemma styleOf_setTimeout (cb : Callback) (delay : nat) (s : State)
  (u : nat) :
  styleOf (setTimeout cb delay s) u = styleOf s u.
Proof. reflexivity. Qed.

Lemma Style_eta (st : Style) :
  mkStyle (backgroundColor st) (transition st) (display st) (cssText st)
  = st.
Proof. destruct st; reflexivity. Qed.

Lemma styles_initExtension (s : State) :
  styles (initExtension s) = styles s.
Proof.
  unfold initExtension.
  destruct (getCurrentPlatform (hostname s)); try reflexivity;
    destruct (isSome (getElementById (body s) triggerId)); try reflexivity;
    destruct (checkPageReady _ (body s)); try reflexivity;
    destruct (retryCount s <? retryLimit); reflexivity.
Qed.

(** A timer that is not one of the two restoring callbacks of an
    element leaves that element's inline style alone. *)
Lemma styleOf_runCallback_other (u : nat) (cb : Callback) (s : State) :
  touchesStyle u cb = false ->
  styleOf (runCallback cb s) u = styleOf s u.
Proof.
  destruct cb; cbn [touchesStyle runCallback]; intros H.
  - apply styleOf_same_styles, styles_initExtension.
  - destruct (getElementById (body s) "thread-navigator-search");
      reflexivity.
  - reflexivity.
  - apply Nat.eqb_neq in H. rewrite styleOf_setTimeout.
    unfold setBackgroundColor. rewrite styleOf_insert.
    destruct (decide (element = u)); congruence.
  - apply Nat.eqb_neq in H. unfold setTransition.
    rewrite styleOf_insert. destruct (decide (element = u)); congruence.
Qed.

Lemma highlightElement_style (u : nat) (platform : Platform) (s : State) :
  styleOf (highlightElement u platform s) u
  = mkStyle (highlightColor platform) highlightTransition
      (display (styleOf s u)) (cssText (styleOf s u)).
Proof.
  unfold highlightElement. rewrite styleOf_setTimeout.
  unfold setBackgroundColor. rewrite styleOf_insert.
  destruct (decide (u = u)); [|congruence].
  unfold setTransition. rewrite !styleOf_insert.
  destruct (decide (u = u)); [|congruence]. reflexivity.
Qed.

End Styles.

(** ** The reverts among other timers *)

Section Reverts.

Variable u : nat.

Lemma pendingTouching_insert_other (t : nat * Callback)
  (q : list (nat * Callback)) :
  touchesStyle u (snd t) = false ->
  pendingTouching u (insertTimer t q) = pendingTouching u q.
Proof.
  intros Ht. unfold pendingTouching.
  induction q as [|x q IH]; cbn [insertTimer List.filter].
  - rewrite Ht. reflexivity.
  - destruct (fst t <? fst x); cbn [List.filter].
    + rewrite Ht. reflexivity.
    + rewrite IH. reflexivity.
Qed.

Lemma pendingTouching_insert_only (t : nat * Callback)
  (q : list (nat * Callback)) :
  touchesStyle u (snd t) = true ->
  pendingTouching u q = [] ->
  pendingTouching u (insertTimer t q) = [t].
Proof.
  intros Ht. unfold pendingTouching.
  induction q as [|x q IH]; cbn [insertTimer List.filter].
  - rewrite Ht. reflexivity.
  - destruct (touchesStyle u (snd x)) eqn:Ex; [discriminate|].
    intros Hq. destruct (fst t <? fst x); cbn [List.filter].
    + rewrite Ht, Ex, Hq. reflexivity.
    + rewrite Ex. apply IH, Hq.
Qed.

Lemma calm_refl (s : State) : calm u s s.
Proof. repeat split. Qed.

Lemma calm_trans (s t r : State) : calm u s t -> calm u t r -> calm u s r.
Proof.
  unfold calm. intros [H1 [H2 H3]] [H4 [H5 H6]].
  repeat split; congruence.
Qed.

(** Nothing changes for [u] when the styles and the timers are the
    same. *)
Lemma calm_same (s s' : State) :
  styles s' = styles s -> timers s' = timers s -> calm u s s'.
Proof.
  intros Hs Ht. unfold calm. rewrite Ht, (styleOf_same_styles s s' u Hs).
  repeat split.
Qed.

Lemma calm_setTimeout (cb : Callback) (delay : nat) (s : State) :
  touchesStyle u cb = false -> calm u s (setTimeout cb delay s).
Proof.
  intros H. unfold calm. rewrite styleOf_setTimeout.
  unfold setTimeout. fields.
  rewrite pendingTouching_insert_other by exact H. repeat split.
Qed.

Lemma calm_initExtension (s : State) : calm u s (initExtension s).
Proof.
  unfold initExtension.
  destruct (getCurrentPlatform (hostname s)); try apply calm_refl;
    destruct (isSome (getElementById (body s) triggerId));
    try apply calm_refl;
    destruct (checkPageReady _ (body s));
    try (apply calm_same; reflexivity);
    destruct (retryCount s <? retryLimit); try apply calm_refl;
    (eapply calm_trans; [|apply calm_setTimeout; reflexivity]);
    apply calm_same; reflexivity.
Qed.

Lemma calm_setCssText (w : nat) (v : string) (s : State) :
  calm u s (setCssText w v s).
Proof.
  unfold calm, setCssText. rewrite styleOf_insert.
  split; [reflexivity|].
  destruct (decide (w = u)) as [->|]; split; reflexivity.
Qed.

Lemma calm_setDisplay (w : nat) (v : string) (s : State) :
  calm u s (setDisplay w v s).
Proof.
  unfold calm, setDisplay. rewrite styleOf_insert.
  split; [reflexivity|].
  destruct (decide (w = u)) as [->|]; split; reflexivity.
Qed.

Lemma calm_showNotification (message type : string) (s : State) :
  calm u s (showNotification message type s).
Proof.
  unfold showNotification.
  eapply calm_trans; [|apply calm_setTimeout; reflexivity].
  eapply calm_trans; [|apply calm_same; reflexivity].
  eapply calm_trans; [|apply calm_setCssText].
  apply calm_same; reflexivity.
Qed.

Lemma calm_clipboardSettles (ok : bool) (s : State) :
  calm u s (clipboardSettles ok s).
Proof.
  unfold clipboardSettles. destruct (pendingWrites s) as [|text rest];
    [apply calm_refl|].
  destruct ok; (eapply calm_trans; [|apply calm_showNotification]);
    apply calm_same; reflexivity.
Qed.

Lemma calm_applySearch (term : string) (items : list Element) (s : State) :
  calm u s (stateOf (applySearch term items s)).
Proof.
  revert s. induction items as [|item items IH]; intros s;
    cbn [applySearch stateOf]; [apply calm_refl|].
  destruct (getAttribute item "data-full-text"); [|apply calm_refl].
  eapply calm_trans; [apply calm_setDisplay | apply IH].
Qed.

Lemma calm_report (s : State) (o : Outcome) :
  calm u s (stateOf o) -> calm u s (report o).
Proof.
  destruct o as [s'|e s']; cbn [stateOf report]; intros H; [exact H|].
  eapply calm_trans; [exact H | apply calm_same; reflexivity].
Qed.

Lemma calm_input (target : nat) (value : string) (s : State) :
  calm u s (input target value s).
Proof.
  unfold input. destruct (inDocument target (body s)); [|apply calm_refl].
  destruct (listeners s !! target) as [[]|]; try apply calm_refl.
  apply calm_report. unfold onSearchInput.
  destruct (findNode modal (body s));
    [apply calm_applySearch | apply calm_refl].
Qed.

Lemma calm_onMutation (s : State) : calm u s (onMutation s).
Proof.
  unfold onMutation. destruct (String.eqb (href s) (lastUrl s));
    [apply calm_refl|].
  eapply calm_trans; [|apply calm_setTimeout; reflexivity].
  apply calm_same; reflexivity.
Qed.

(** A timer callback that is not a revert of [u] is calm for [u]. *)
Lemma calm_runCallback (cb : Callback) (s : State) :
  touchesStyle u cb = false -> calm u s (runCallback cb s).
Proof.
  destruct cb; cbn [touchesStyle runCallback]; intros H.
  - apply calm_initExtension.
  - destruct (getElementById (body s) "thread-navigator-search");
      [apply calm_same; reflexivity | apply calm_refl].
  - apply calm_same; reflexivity.
  - eapply calm_trans; [|apply calm_setTimeout; exact H].
    apply Nat.eqb_neq in H. unfold calm, setBackgroundColor.
    rewrite styleOf_insert. split; [reflexivity|].
    destruct (decide (element = u)); [congruence|]. split; reflexivity.
  - apply Nat.eqb_neq in H. unfold calm, setTransition.
    rewrite styleOf_insert. split; [reflexivity|].
    destruct (decide (element = u)); [congruence|]. split; reflexivity.
Qed.

Variable platform : Platform.
Variables bg tr : string.
Variable start : nat.

Lemma highlightPhase_calm (x y : State) :
  calm u x y ->
  highlightPhase u platform bg tr start x ->
  highlightPhase u platform bg tr start y.
Proof.
  unfold calm, highlightPhase. intros [-> [-> ->]] H. exact H.
Qed.

(** A timer firing moves the element from one phase to the next, or
    leaves it where it is. *)
Lemma highlightPhase_fireTimer (x : State) :
  highlightPhase u platform bg tr start x ->
  highlightPhase u platform bg tr start (fireTimer x).
Proof.
  intros H. unfold fireTimer.
  destruct (timers x) as [|[due cb] rest] eqn:Eq; [exact H|].
  set (x' := set_clock (Nat.max (clock x) due) (set_timers rest x)).
  assert (Hbg : backgroundColor (styleOf x' u)
                = backgroundColor (styleOf x u)) by reflexivity.
  assert (Htr : transition (styleOf x' u) = transition (styleOf x u))
    by reflexivity.
  assert (Hq : pendingTouching u (timers x)
               = (if touchesStyle u cb then [(due, cb)] else [])
                 ++ pendingTouching u rest).
  { rewrite Eq. unfold pendingTouching. cbn [List.filter snd].
    destruct (touchesStyle u cb); reflexivity. }
  destruct (touchesStyle u cb) eqn:Et.
  - cbn [app] in Hq. unfold highlightPhase in H. rewrite Hq in H.
    destruct H as [[H1 [H2 H3]] | [[H1 [H2 [d [Hd H3]]]] | [_ [_ H3]]]];
      [| |discriminate].
    + injection H3 as -> -> Hrest. right. left.
      cbn [runCallback]. rewrite styleOf_setTimeout.
      unfold setBackgroundColor at 1 2. rewrite !styleOf_insert.
      destruct (decide (u = u)); [|congruence].
      cbn [backgroundColor transition].
      split; [reflexivity|]. split; [rewrite Htr; exact H2|].
      exists (clock x' + 500). split.
      * subst x'. fields. lia.
      * unfold setTimeout. fields.
        apply pendingTouching_insert_only; [cbn; apply Nat.eqb_refl|].
        exact Hrest.
    + injection H3 as -> -> Hrest. right. right.
      cbn [runCallback]. unfold setTransition at 1 2. fields.
      rewrite !styleOf_insert.
      destruct (decide (u = u)); [|congruence].
      cbn [backgroundColor transition].
      split; [rewrite Hbg; exact H1|]. split; [reflexivity|]. exact Hrest.
  - apply (highlightPhase_calm x); [|exact H].
    eapply calm_trans; [|apply calm_runCallback; exact Et].
    unfold calm. rewrite Hbg, Htr, Hq. repeat split.
Qed.

(** Every event other than a click keeps the element in its phase or
    moves it on. *)
Lemma highlightPhase_step (e : Event) (x : State) :
  isClick e = false ->
  highlightPhase u platform bg tr start x ->
  highlightPhase u platform bg tr start (step e x).
Proof.
  destruct e; cbn [isClick step]; intros He H; try discriminate.
  - destruct (loadListener x); [|exact H].
    apply (highlightPhase_calm x); [|exact H].
    eapply calm_trans; [|apply calm_initExtension].
    apply calm_same; reflexivity.
  - apply highlightPhase_fireTimer, H.
  - apply (highlightPhase_calm x); [apply calm_onMutation | exact H].
  - apply (highlightPhase_calm x); [apply calm_same; reflexivity | exact H].
  - apply (highlightPhase_calm x); [apply calm_input | exact H].
  - apply (highlightPhase_calm x); [apply calm_clipboardSettles | exact H].
Qed.

Lemma highlightPhase_run (events : list Event) (x : State) :
  forallb (fun e => negb (isClick e)) events = true ->
  highlightPhase u platform bg tr start x ->
  highlightPhase u platform bg tr start (run events x).
Proof.
  revert x. induction events as [|e events IH]; intros x He H;
    cbn [run]; [exact H|].
  cbn [forallb] in He. apply andb_true_iff in He. destruct He as [He1 He2].
  apply IH; [exact He2|]. apply highlightPhase_step; [|exact H].
  apply negb_true_iff, He1.
Qed.

End Reverts.

(** The two-phase revert of a highlight that no other highlight of the
    same element overlaps.  [highlightElement] overwrites the element's
    background colour with the platform's highlight colour and its
    transition with the fade,
    and schedules, 1500 ms ahead, a callback that puts the original
    background colour back and itself schedules, 500 ms after it runs, a
    callback that puts the original transition back.  No other timer of
    the script writes the element's style.  Whatever else is pending and
    whatever events other than clicks follow, the element is highlighted
    with the first revert pending, or has its background back with the
    second revert pending, or has both back as found with no revert
    pending.  On a page with no other timer pending, the first revert
    fires at 1500 ms and the second at 2000 ms after the call, and the
    element's inline style is then as it was found, with every other
    element's style untouched throughout. *)
Theorem highlightElement_two_phase_revert
  (element : nat) (platform : Platform) (s : State) :
  let originalBg := backgroundColor (styleOf s element) in
  let originalTransition := transition (styleOf s element) in
  let restoreBg := CbRestoreBackground element originalBg originalTransition in
  let restoreTransition := CbRestoreTransition element originalTransition in
  let s1 := highlightElement element platform s in
  styleOf s1 element
  = mkStyle (highlightColor platform) highlightTransition
      (display (styleOf s element)) (cssText (styleOf s element))
  /\ highlightColor platform
     = (if Platform_eqb platform Gemini then "rgba(26, 115, 232, 0.2)"
        else "rgba(16, 163, 127, 0.2)")
  /\ timers s1 = insertTimer (clock s + 1500, restoreBg) (timers s)
  /\ (forall t,
        styleOf (runCallback restoreBg t) element
        = mkStyle originalBg (transition (styleOf t element))
            (display (styleOf t element)) (cssText (styleOf t element))
        /\ timers (runCallback restoreBg t)
           = insertTimer (clock t + 500, restoreTransition) (timers t))
  /\ (forall t,
        styleOf (runCallback restoreTransition t) element
        = mkStyle (backgroundColor (styleOf t element)) originalTransition
            (display (styleOf t element)) (cssText (styleOf t element)))
  /\ (forall cb t,
        touchesStyle element cb = false ->
        styleOf (runCallback cb t) element = styleOf t element)
  /\ (forall events,
        forallb (fun e => negb (isClick e)) events = true ->
        pendingTouching element (timers s) = [] ->
        highlightPhase element platform originalBg originalTransition
          (clock s) (run events s1))
  /\ (timers s = [] ->
      let s2 := step TimerFires s1 in
      let s3 := step TimerFires s2 in
      clock s2 = clock s + 1500
      /\ backgroundColor (styleOf s2 element) = originalBg
      /\ transition (styleOf s2 element) = highlightTransition
      /\ clock s3 = clock s + 2000
      /\ styleOf s3 element = styleOf s element
      /\ timers s3 = []
      /\ (forall other,
            other <> element ->
            styleOf s1 other = styleOf s other
            /\ styleOf s2 other = styleOf s other
            /\ styleOf s3 other = styleOf s other)).
Proof.
  intros originalBg originalTransition restoreBg restoreTransition s1.
  assert (Hs1 : styleOf s1 element
                = mkStyle (highlightColor platform) highlightTransition
                    (display (styleOf s element))
                    (cssText (styleOf s element))).
  { apply highlightElement_style. }
  assert (Hbg : forall t,
    styleOf (runCallback restoreBg t) element
    = mkStyle originalBg (transition (styleOf t element))
        (display (styleOf t element)) (cssText (styleOf t element))
    /\ timers (runCallback restoreBg t)
       = insertTimer (clock t + 500, restoreTransition) (timers t)).
  { intros t. split; [|reflexivity].
    cbn [runCallback restoreBg]. rewrite styleOf_setTimeout.
    unfold setBackgroundColor. rewrite styleOf_insert.
    destruct (decide (element = element)); [reflexivity|congruence]. }
  assert (Htr : forall t,
    styleOf (runCallback restoreTransition t) element
    = mkStyle (backgroundColor (styleOf t element)) originalTransition
        (display (styleOf t element)) (cssText (styleOf t element))).
  { intros t. cbn [runCallback restoreTransition].
    unfold setTransition. rewrite styleOf_insert.
    destruct (decide (element = element)); [reflexivity|congruence]. }
  assert (Hother1 : forall other,
    other <> element -> styleOf s1 other = styleOf s other).
  { intros other Hne. subst s1. unfold highlightElement.
    rewrite styleOf_setTimeout. unfold setBackgroundColor.
    rewrite styleOf_insert. destruct (decide (element = other));
      [congruence|].
    unfold setTransition. rewrite styleOf_insert.
    destruct (decide (element = other)); [congruence|reflexivity]. }
  split; [exact Hs1|]. split; [destruct platform; reflexivity|].
  split; [reflexivity|]. split; [exact Hbg|]. split; [exact Htr|].
  split; [intros cb t; apply styleOf_runCallback_other|].
  split.
  { intros events He Hp. apply highlightPhase_run; [exact He|].
    left. rewrite Hs1. cbn [backgroundColor transition].
    split; [reflexivity|]. split; [reflexivity|].
    subst s1. unfold highlightElement, setTimeout. fields.
    apply pendingTouching_insert_only; [cbn; apply Nat.eqb_refl|].
    exact Hp. }
  intros Hq s2 s3.
  assert (Hq1 : timers s1 = [(clock s + 1500, restoreBg)]).
  { subst s1. unfold highlightElement, setTimeout. fields.
    unfold setBackgroundColor, setTransition. fields. rewrite Hq.
    reflexivity. }
  set (t1 := set_clock (Nat.max (clock s1) (clock s + 1500))
               (set_timers [] s1)).
  assert (Es2 : s2 = runCallback restoreBg t1).
  { subst s2. cbn [step]. unfold fireTimer. rewrite Hq1. reflexivity. }
  assert (Ct1 : clock t1 = clock s + 1500).
  { subst t1. fields. change (clock s1) with (clock s).
    apply Nat.max_r. lia. }
  assert (Hq2 : timers s2 = [(clock s + 2000, restoreTransition)]).
  { rewrite Es2, (proj2 (Hbg t1)), Ct1.
    replace (clock s + 1500 + 500) with (clock s + 2000) by lia.
    reflexivity. }
  assert (Cs2 : clock s2 = clock s + 1500).
  { rewrite Es2. exact Ct1. }
  set (t2 := set_clock (Nat.max (clock s2) (clock s + 2000))
               (set_timers [] s2)).
  assert (Es3 : s3 = runCallback restoreTransition t2).
  { subst s3. cbn [step]. unfold fireTimer. rewrite Hq2. reflexivity. }
  assert (St1 : forall u, styleOf t1 u = styleOf s1 u) by reflexivity.
  assert (St2 : forall u, styleOf t2 u = styleOf s2 u) by reflexivity.
  assert (Hs2 : styleOf s2 element
                = mkStyle originalBg highlightTransition
                    (display (styleOf s element))
                    (cssText (styleOf s element))).
  { rewrite Es2, (proj1 (Hbg t1)), St1, Hs1. reflexivity. }
  split; [exact Cs2|]. split; [rewrite Hs2; reflexivity|].
  split; [rewrite Hs2; reflexivity|].
  split; [rewrite Es3; subst t2; fields; rewrite Cs2; apply Nat.max_r; lia|].
  split.
  { rewrite Es3, Htr, St2, Hs2. cbn [backgroundColor display cssText].
    apply Style_eta. }
  split; [rewrite Es3; reflexivity|].
  intros other Hne.
  assert (Ht : forall cb, cb = restoreBg \/ cb = restoreTransition ->
                 forall t, styleOf (runCallback cb t) other = styleOf t other).
  { intros cb Hcb t. apply styleOf_runCallback_other.
    destruct Hcb as [-> | ->]; cbn; apply Nat.eqb_neq; congruence. }
  split; [apply Hother1, Hne|].
  assert (H2 : styleOf s2 other = styleOf s other).
  { rewrite Es2, (Ht restoreBg (or_introl eq_refl)), St1.
    apply Hother1, Hne. }
  split; [exact H2|].
  rewrite Es3, (Ht restoreTransition (or_intror eq_refl)), St2. exact H2.
Qed.

Lemma highlightElement_two_phase_revert_witness :
  highlightPhase 4 ChatGPT
    (backgroundColor (styleOf chatgptListed 4))
    (transition (styleOf chatgptListed 4)) (clock chatgptListed)
    (run [TimerFires; Mutation; TimerFires; Input 108 "hi"; TimerFires]
       (highlightElement 4 ChatGPT chatgptListed))
  /\ clock (step TimerFires (highlightElement 4 ChatGPT chatgptStart))
  = clock chatgptStart + 1500
  /\ backgroundColor
       (styleOf (step TimerFires (highlightElement 4 ChatGPT chatgptStart)) 4)
     = backgroundColor (styleOf chatgptStart 4)
  /\ transition
       (styleOf (step TimerFires (highlightElement 4 ChatGPT chatgptStart)) 4)
     = highlightTransition
  /\ clock
       (step TimerFires
          (step TimerFires (highlightElement 4 ChatGPT chatgptStart)))
     = clock chatgptStart + 2000
  /\ styleOf
       (step TimerFires
          (step TimerFires (highlightElement 4 ChatGPT chatgptStart))) 4
     = styleOf chatgptStart 4
  /\ timers
       (step TimerFires
          (step TimerFires (highlightElement 4 ChatGPT chatgptStart)))
     = []
  /\ (forall other,
        other <> 4 ->
        styleOf (highlightElement 4 ChatGPT chatgptStart) other
        = styleOf chatgptStart other
        /\ styleOf (step TimerFires (highlightElement 4 ChatGPT chatgptStart))
             other
           = styleOf chatgptStart other
        /\ styleOf
             (step TimerFires
                (step TimerFires (highlightElement 4 ChatGPT chatgptStart)))
             other
           = styleOf chatgptStart other).
Proof.
  split.
  - pose proof (highlightElement_two_phase_revert 4 ChatGPT chatgptListed)
      as H.
    cbv zeta in H.
    exact (proj1 (proj2 (proj2 (proj2 (proj2 (proj2 (proj2 H))))))
             [TimerFires; Mutation; TimerFires; Input 108 "hi"; TimerFires]
             eq_refl eq_refl).
  - pose proof (highlightElement_two_phase_revert 4 ChatGPT chatgptStart)
      as H.
    cbv zeta in H.
    exact (proj2 (proj2 (proj2 (proj2 (proj2 (proj2 (proj2 H)))))) eq_refl).
Defined.

(** ** The search field *)

Section Search.

Variable term : string.

Lemma display_setDisplay (u w : nat) (v : string) (s : State) :
  display (styleOf (setDisplay u v s) w)
  = if decide (u = w) then v else display (styleOf s w).
Proof.
  unfold setDisplay. rewrite styleOf_insert.
  destruct (decide (u = w)); reflexivity.
Qed.

(** The loop over the items sets the display of each item from its own
    key and of nothing else. *)
Lemma applySearch_displays (items : list Element) (s : State) :
  List.NoDup (List.map uid items) ->
  (forall item,
      In item items ->
      isSome (getAttribute item "data-full-text") = true) ->
  exists s',
    applySearch term items s = Returned s'
    /\ (forall item key,
          In item items ->
          getAttribute item "data-full-text" = Some key ->
          display (styleOf s' (uid item))
          = if includes key term then "grid" else "none")
    /\ (forall u,
          ~ In u (List.map uid items) ->
          display (styleOf s' u) = display (styleOf s u)).
Proof.
  revert s. induction items as [|x items IH]; intros s Hnd Hkeys.
  - exists s. split; [reflexivity|]. split; [intros ? ? []|reflexivity].
  - cbn [List.map] in Hnd. apply List.NoDup_cons_iff in Hnd.
    destruct Hnd as [Hx Hnd].
    cbn [applySearch].
    pose proof (Hkeys x (or_introl eq_refl)) as Hk.
    destruct (getAttribute x "data-full-text") as [kx|] eqn:Ex;
      [|discriminate].
    destruct (IH (setDisplay (uid x)
                  (if includes kx term then "grid" else "none") s) Hnd)
    as [s' [Hs' [Hin Hout]]].
    { intros item Hi. apply Hkeys. right. exact Hi. }
    exists s'. split; [exact Hs'|]. split.
    + intros item key [<- | Hi] Hkey.
      * rewrite Hout by exact Hx. rewrite display_setDisplay.
        destruct (decide (uid x = uid x)); [|congruence].
        rewrite Ex in Hkey. injection Hkey as ->. reflexivity.
      * apply Hin; assumption.
    + intros u Hu. cbn [List.map In] in Hu.
      rewrite Hout by tauto. rewrite display_setDisplay.
      destruct (decide (uid x = u)); tauto.
Qed.

End Search.

(** C6.  Each input event on the search field lower-cases the typed term
    and sets every item of the list to [grid] when its search key contains
    the term as a contiguous run and to [none] otherwise.  On the sample
    list with the keys [hello world] and [foo bar], typing [wor] leaves
    exactly the first item shown. *)
Theorem search_shows_items_containing_term
  (s : State) (field modal : nat) (value : string) (m : Element) :
  inDocument field (body s) = true ->
  listeners s !! field = Some (OnSearchInput modal) ->
  findNode modal (body s) = Some m ->
  List.NoDup (List.map uid (querySelectorAll m [Class "prompt-item"])) ->
  (forall item,
      In item (querySelectorAll m [Class "prompt-item"]) ->
      isSome (getAttribute item "data-full-text") = true) ->
  (forall item key,
      In item (querySelectorAll m [Class "prompt-item"]) ->
      getAttribute item "data-full-text" = Some key ->
      display (styleOf (step (Input field value) s) (uid item))
      = (if includes key (toLowerCase value) then "grid" else "none")
      /\ (display (styleOf (step (Input field value) s) (uid item)) = "grid"
          <-> exists a b,
                key = String.append a
                        (String.append (toLowerCase value) b)))
  /\ uncaught (step (Input field value) s) = uncaught s
  /\ List.map (fun item => getAttribute item "data-full-text")
       (docQuerySelectorAll (body geminiListed) [Class "prompt-item"])
     = [Some "hello world"; Some "foo bar"]
  /\ List.map
       (fun item => display (styleOf geminiSearched (uid item)))
       (docQuerySelectorAll (body geminiListed) [Class "prompt-item"])
     = ["grid"; "none"].
Proof.
  intros Hdoc Hl Hm Hnd Hkeys.
  destruct (applySearch_displays (toLowerCase value)
              (querySelectorAll m [Class "prompt-item"]) s Hnd Hkeys)
    as [s' [Hs' [Hin _]]].
  assert (Hstep : step (Input field value) s = s').
  { cbn [step]. unfold input. rewrite Hdoc, Hl.
    unfold onSearchInput. rewrite Hm, Hs'. reflexivity. }
  rewrite Hstep. split; [|split; [|split]].
  - intros item key Hi Hk. rewrite (Hin item key Hi Hk). split; [reflexivity|].
    rewrite <- includes_spec.
    destruct (includes key (toLowerCase value)); split; congruence.
  - clear Hin Hstep. revert s s' Hs' Hdoc Hl Hm.
    induction (querySelectorAll m [Class "prompt-item"]) as [|x items IH];
      intros s s' Hs' Hdoc Hl Hm.
    + injection Hs' as <-. reflexivity.
    + cbn [applySearch] in Hs'.
      pose proof (Hkeys x (or_introl eq_refl)) as Hk.
      destruct (getAttribute x "data-full-text") as [kx|]; [|discriminate].
      apply List.NoDup_cons_iff in Hnd. destruct Hnd as [_ Hnd].
      change (uncaught s)
        with (uncaught
                (setDisplay (uid x)
                   (if includes kx (toLowerCase value) then "grid" else "none")
                   s)).
      eapply (IH Hnd); [| | exact Hdoc | exact Hl | exact Hm].
      * intros item Hi. apply Hkeys. right. exact Hi.
      * exact Hs'.
  - vm_compute. reflexivity.
  - vm_compute. reflexivity.
Qed.

Lemma search_shows_items_containing_term_witness :
  (forall item key,
      In item
        (querySelectorAll
           (modalElement 101 Gemini
              (Items
                 [mkItem "0" "hello world" "1" "Hello World";
                  mkItem "1" "foo bar" "2" "Foo Bar"]))
           [Class "prompt-item"]) ->
      getAttribute item "data-full-text" = Some key ->
      display (styleOf (step (Input 108 "WOR") geminiListed) (uid item))
      = (if includes key (toLowerCase "WOR") then "grid" else "none")
      /\ (display (styleOf (step (Input 108 "WOR") geminiListed) (uid item))
          = "grid"
          <-> exists a b,
                key = String.append a
                        (String.append (toLowerCase "WOR") b)))
  /\ uncaught (step (Input 108 "WOR") geminiListed) = uncaught geminiListed.
Proof.
  refine (let H := search_shows_items_containing_term geminiListed 108 101
                     "WOR"
                     (modalElement 101 Gemini
                        (Items
                           [mkItem "0" "hello world" "1" "Hello World";
                            mkItem "1" "foo bar" "2" "Foo Bar"]))
                     _ _ _ _ _ in
          conj (proj1 H) (proj1 (proj2 H))).
  - vm_compute. reflexivity.
  - vm_compute. reflexivity.
  - vm_compute. reflexivity.
  - vm_compute. repeat constructor; cbn; intuition discriminate.
  - intros item Hi. vm_compute in Hi.
    destruct Hi as [<- | [<- | []]]; reflexivity.
Defined.

(** ** Item actions *)

Section Actions.

Lemma findAIResponse_returns (b : Element) (msg : nat)
  (platform : Platform) :
  exists response, findAIResponse b (Some msg) platform = Normal response.
Proof.
  unfold findAIResponse. cbn [deref bind].
  destruct (walkSiblings platform (followingSiblings msg b) 0);
    eexists; reflexivity.
Qed.

(** What a notification does to the page: one more [div] at the end of
    the body carrying the message, to be removed 2500 ms later; nothing
    is thrown, nothing leaves the document, and the [type] argument
    makes no difference. *)
Lemma showNotification_effect (message type : string) (s : State) :
  let s' := showNotification message type s in
  children (body s')
  = children (body s)
    ++ [node (nextUid s) "div" EmptyString [] [] message []]
  /\ timers s' = insertTimer (clock s + 2500, CbRemove (nextUid s)) (timers s)
  /\ cssText (styleOf s' (nextUid s)) = notificationCss
  /\ uncaught s' = uncaught s
  /\ rejections s' = rejections s
  /\ clipboard s' = clipboard s
  /\ (forall u, inDocument u (body s) = true ->
                inDocument u (body s') = true)
  /\ (forall type', showNotification message type' s = s').
Proof.
  cbv zeta. unfold showNotification, setTimeout, setCssText. fields.
  split; [reflexivity|]. split; [reflexivity|]. split.
  { unfold styleOf at 1. fields. rewrite lookup_insert_eq. reflexivity. }
  split; [reflexivity|]. split; [reflexivity|]. split; [reflexivity|].
  split; [|reflexivity].
  intros u Hu. rewrite inDocument_appendChild, Hu. reflexivity.
Qed.

(** The jump button of an item leads to [goToAIResponse] on the item's
    message followed by closing the modal; the copy button leads to
    [copyAIResponse] and nothing else. *)
Lemma onContainerClick_item (s : State) (modal : nat)
  (userMessages : list nat) (platform : Platform) (target : nat)
  (item : Element) (rest : list Element) (v : string) (index msg : nat) :
  closest [Class "prompt-item"] target (body s) = Some (item, rest) ->
  getAttribute item "data-index" = Some v ->
  parseInt v = Some index ->
  nth_error userMessages index = Some msg ->
  onContainerClick modal userMessages platform target s
  = if isSome (closest [Class "copy-btn"] target (body s)) then
      Returned (copyAIResponse (Some msg) platform s)
    else if isSome (closest [Class "goto-btn"] target (body s)) then
      andThen (goToAIResponse (Some msg) platform s)
        (fun s => Returned (removeFromPage modal s))
    else
      andThen (scrollToElement (Some msg) s)
        (fun s => Returned (removeFromPage modal s)).
Proof.
  intros Hc Ha Hp Hn. unfold onContainerClick.
  rewrite Hc, Ha, Hp, Hn. reflexivity.
Qed.


End Actions.

(** C5.  A click on the copy button of an item returns without throwing
    and leaves the modal in the document.  When [findAIResponse] finds
    nothing, the handler's whole effect is the notification
    [AI response not found], added to the body and removed 2500 ms later.
    When a response is found its text is handed to the clipboard, and if
    that write fails the failure is caught: the continuation shows the
    notification [Failed to copy] and neither an exception nor a rejected
    promise is left behind.  The timer of a notification takes it out of
    the document again. *)
Theorem copy_failures_are_notified
  (s : State) (modal : nat) (userMessages : list nat) (platform : Platform)
  (target : nat) (item : Element) (rest : list Element) (v : string)
  (index msg : nat) :
  closest [Class "prompt-item"] target (body s) = Some (item, rest) ->
  getAttribute item "data-index" = Some v ->
  parseInt v = Some index ->
  nth_error userMessages index = Some msg ->
  isSome (closest [Class "copy-btn"] target (body s)) = true ->
  inDocument modal (body s) = true ->
  exists s1,
    onContainerClick modal userMessages platform target s = Returned s1
    /\ uncaught s1 = uncaught s
    /\ rejections s1 = rejections s
    /\ inDocument modal (body s1) = true
    /\ (findAIResponse (body s) (Some msg) platform = Normal None ->
        s1 = showNotification "AI response not found" "error" s
        /\ children (body s1)
           = children (body s)
             ++ [node (nextUid s) "div" EmptyString [] []
                   "AI response not found" []]
        /\ timers s1
           = insertTimer (clock s + 2500, CbRemove (nextUid s)) (timers s)
        /\ pendingWrites s1 = pendingWrites s)
    /\ (forall aiResponse,
          findAIResponse (body s) (Some msg) platform
          = Normal (Some aiResponse) ->
          s1 = set_pendingWrites
                 (pendingWrites s
                    ++ [jsOr (innerText aiResponse) (textContent aiResponse)])
                 s)
    /\ (forall t text pending,
          pendingWrites t = text :: pending ->
          let t' := clipboardSettles false t in
          t' = showNotification "Failed to copy" "error"
                 (set_pendingWrites pending t)
          /\ children (body t')
             = children (body t)
               ++ [node (nextUid t) "div" EmptyString [] []
                     "Failed to copy" []]
          /\ timers t'
             = insertTimer (clock t + 2500, CbRemove (nextUid t)) (timers t)
          /\ uncaught t' = uncaught t
          /\ rejections t' = rejections t
          /\ clipboard t' = clipboard t
          /\ (forall u, inDocument u (body t) = true ->
                        inDocument u (body t') = true))
    /\ (forall t div,
          uid (body t) <> div ->
          inDocument div (body (runCallback (CbRemove div) t)) = false).
Proof.
  intros Hc Ha Hp Hn Hcopy Hmodal.
  rewrite (onContainerClick_item s modal userMessages platform target
             item rest v index msg Hc Ha Hp Hn), Hcopy.
  eexists. split; [reflexivity|].
  destruct (findAIResponse_returns (body s) msg platform) as [r Hr].
  unfold copyAIResponse. rewrite Hr.
  assert (Hfail : forall t text pending,
    pendingWrites t = text :: pending ->
    let t' := clipboardSettles false t in
    t' = showNotification "Failed to copy" "error"
           (set_pendingWrites pending t)
    /\ children (body t')
       = children (body t)
         ++ [node (nextUid t) "div" EmptyString [] [] "Failed to copy" []]
    /\ timers t'
       = insertTimer (clock t + 2500, CbRemove (nextUid t)) (timers t)
    /\ uncaught t' = uncaught t
    /\ rejections t' = rejections t
    /\ clipboard t' = clipboard t
    /\ (forall u, inDocument u (body t) = true ->
                  inDocument u (body t') = true)).
  { intros t text pending Ht. cbv zeta. unfold clipboardSettles.
    rewrite Ht.
    destruct (showNotification_effect "Failed to copy" "error"
                (set_pendingWrites pending t))
      as [H1 [H2 [_ [H4 [H5 [H6 [H7 _]]]]]]].
    repeat split; assumption. }
  assert (Hgone : forall t div,
    uid (body t) <> div ->
    inDocument div (body (runCallback (CbRemove div) t)) = false).
  { intros t div Hne. cbn [runCallback]. unfold removeFromPage. fields.
    rewrite inDocument_removeNode. apply Nat.eqb_neq, Hne. }
  destruct r as [ai|].
  - split; [reflexivity|]. split; [reflexivity|]. split; [exact Hmodal|].
    split; [discriminate|]. split; [|split; [exact Hfail | exact Hgone]].
    intros ai' H. injection H as <-. reflexivity.
  - destruct (showNotification_effect "AI response not found" "error" s)
      as [H1 [H2 [_ [H4 [H5 [_ [H7 _]]]]]]].
    split; [exact H4|]. split; [exact H5|]. split; [apply H7, Hmodal|].
    split; [|split; [discriminate | split; [exact Hfail | exact Hgone]]].
    intros _. repeat split; assumption.
Qed.


(** ** From a list item back to its message *)

Section Index.

Lemma parseDigits_of_uint (d : Decimal.uint) (acc : nat) :
  parseDigits (NilEmpty.string_of_uint d) acc = Nat.of_uint_acc d acc.
Proof.
  revert acc.
  induction d as [|d IH|d IH|d IH|d IH|d IH|d IH|d IH|d IH|d IH|d IH];
    intros acc; cbn [NilEmpty.string_of_uint parseDigits Nat.of_uint_acc];
    try reflexivity;
    change (digitOf _) with (Some 0) || change (digitOf _) with (Some 1)
    || change (digitOf _) with (Some 2) || change (digitOf _) with (Some 3)
    || change (digitOf _) with (Some 4) || change (digitOf _) with (Some 5)
    || change (digitOf _) with (Some 6) || change (digitOf _) with (Some 7)
    || change (digitOf _) with (Some 8) || change (digitOf _) with (Some 9);
    cbn iota; rewrite IH, Nat.tail_mul_spec; f_equal; lia.
Qed.

Lemma to_little_uint_not_nil (n : nat) :
  Nat.to_little_uint n Decimal.zero <> Decimal.Nil.
Proof.
  destruct n as [|n]; [discriminate|].
  cbn [Nat.to_little_uint]. rewrite Unsigned.to_little_uint_succ.
  destruct (Nat.to_little_uint n Decimal.zero); discriminate.
Qed.

(** Reading back the index that the template wrote gives the index. *)
Lemma parseInt_numberToString (n : nat) :
  parseInt (numberToString n) = Some n.
Proof.
  unfold numberToString.
  assert (H : parseDigits (NilEmpty.string_of_uint (Nat.to_uint n)) 0 = n).
  { rewrite parseDigits_of_uint. apply Unsigned.of_to. }
  destruct (Nat.to_uint n) as [|d|d|d|d|d|d|d|d|d|d] eqn:E;
    try (cbn [NilEmpty.string_of_uint parseInt] in *;
         match goal with
         | |- context [digitOf ?c] =>
             let v := eval vm_compute in (digitOf c) in
             change (digitOf c) with v
         end; cbn iota; rewrite H; reflexivity).
  exfalso. unfold Nat.to_uint in E. apply DecimalFacts.rev_nil_inv in E.
  exact (to_little_uint_not_nil n E).
Qed.

Lemma parsedAttribute_digits (d : Decimal.uint) :
  parsedAttribute (NilEmpty.string_of_uint d) = NilEmpty.string_of_uint d.
Proof.
  unfold parsedAttribute.
  induction d; cbn [NilEmpty.string_of_uint untilQuote]; try reflexivity;
    match goal with
    | |- context [Ascii.eqb ?c dquote] =>
        change (Ascii.eqb c dquote) with false
    end; cbn iota; cbn [decodeQuot];
    match goal with
    | |- context [Ascii.eqb ?c "&"%char] =>
        change (Ascii.eqb c "&"%char) with false
    end; cbn iota; rewrite IHd; reflexivity.
Qed.

(** The [data-index] of the item rendered for the message at [index]
    reads back as [index], so the list handler picks that message. *)
Lemma data_index_resolves (platform : Platform) (msg : Element)
  (index base : nat) (m : ItemMarkup) :
  promptItemMarkup platform msg index = Normal m ->
  exists v,
    getAttribute (itemElement base m) "data-index" = Some v
    /\ parseInt v = Some index.
Proof.
  unfold promptItemMarkup.
  destruct (extractMessageText (Some msg) platform) as [text|e];
    cbn [bind]; [|discriminate].
  intros H. injection H as <-.
  exists (numberToString index). split; [|apply parseInt_numberToString].
  unfold itemElement, node, getAttribute. cbn [attributes assoc dataIndex].
  change (String.eqb "data-index" "data-index") with true. cbn iota.
  unfold numberToString. rewrite parsedAttribute_digits. reflexivity.
Qed.

End Index.

(** ** Start-up *)

Section Bootstrap.

(** The counter after the top level of the script has run: one failed
    check when the document was already loaded and not ready, none
    otherwise. *)
Lemma retryCount_bootstrap (loading : bool) (host url : string)
  (b : Element) (fresh : nat) :
  let s := bootstrap loading host url b fresh in
  let before :=
    mkState host url b ∅ fresh 0 EmptyString 0 [] ∅ false [] [] None None
      [] [] [] in
  retryCount s
  = Nat.min (if loading then 0 else if readinessFails before then 1 else 0)
      retryLimit.
Proof.
  cbv zeta. unfold bootstrap. destruct loading; [reflexivity|].
  fields. rewrite retryCount_initExtension. fields.
  destruct (readinessFails _); reflexivity.
Qed.

End Bootstrap.

(** ** Highlights that overlap *)

(** A second highlight of an element whose first revert is still pending
    finds the highlight in place and takes it for the original: once all
    four timers have fired the element carries the highlight colour and
    the fade. *)
Example highlight_during_highlight_stays :
  let s :=
    run [TimerFires; TimerFires; TimerFires; TimerFires]
      (highlightElement 4 ChatGPT (highlightElement 4 ChatGPT chatgptStart)) in
  timers s = []
  /\ backgroundColor (styleOf s 4) = highlightColor ChatGPT
  /\ transition (styleOf s 4) = highlightTransition
  /\ backgroundColor (styleOf chatgptStart 4) = EmptyString.
Proof. vm_compute. repeat split; reflexivity. Qed.

(** C7.  The revert does not always leave the element as found.  On the
    sample ChatGPT thread the response (node 4) starts without inline
    background or transition.  Jumping to it twice within 1500 ms, through
    the list's own jump button, starts the second highlight while the
    first is in place: the second call records the highlight colour and
    the fade as the original, and when every timer has fired (the last at
    2100 ms) the element keeps the highlight colour and the fade for
    good. *)
Theorem highlightElement_overlap_keeps_highlight :
  let s := run doubleJumpEvents chatgptStart in
  backgroundColor (styleOf chatgptStart 4) = EmptyString
  /\ transition (styleOf chatgptStart 4) = EmptyString
  /\ scrolled s = [4; 4]
  /\ timers s = []
  /\ clock s = 2100
  /\ uncaught s = []
  /\ backgroundColor (styleOf s 4) = highlightColor ChatGPT
  /\ transition (styleOf s 4) = highlightTransition.
Proof. vm_compute. repeat split; reflexivity. Qed.

(** ** The properties on the sample pages *)

(** On a page that never shows a message the script makes 21 attempts:
    the one at start-up and 20 retries.  After 20 failed checks the last
    retry is still pending; the 21st check schedules nothing. *)
Example poller_gives_up_on_waiting_page :
  retryCount waitingStart = 1
  /\ failedChecksSince 1 (repeat TimerFires 19) waitingStart = 20
  /\ List.map snd (timers (run (repeat TimerFires 19) waitingStart))
     = [CbInitExtension]
  /\ failedChecksSince 1 (repeat TimerFires 20) waitingStart = 21
  /\ retryCount (run (repeat TimerFires 20) waitingStart) = 20
  /\ timers (run (repeat TimerFires 20) waitingStart) = [].
Proof. vm_compute. repeat split; reflexivity. Qed.


Lemma copy_failures_are_notified_witness :
  exists s1,
    onContainerClick 101 [3; 7] ChatGPT 121 chatgptListed = Returned s1
    /\ uncaught s1 = uncaught chatgptListed
    /\ inDocument 101 (body s1) = true
    /\ s1 = showNotification "AI response not found" "error" chatgptListed
    /\ clipboardSettles false (step (Click 115) chatgptListed)
       = showNotification "Failed to copy" "error"
           (set_pendingWrites [] (step (Click 115) chatgptListed)).
Proof.
  destruct (copy_failures_are_notified chatgptListed 101 [3; 7] ChatGPT 121
              (itemElement 117 (mkItem "1" EmptyString "2" EmptyString)) []
              "1" 1 7)
    as [s1 [H1 [H2 [_ [H4 [H5 [_ [H7 _]]]]]]]].
  - vm_compute. reflexivity.
  - vm_compute. reflexivity.
  - vm_compute. reflexivity.
  - reflexivity.
  - vm_compute. reflexivity.
  - vm_compute. reflexivity.
  - exists s1. split; [exact H1|]. split; [exact H2|]. split; [exact H4|].
    split.
    + apply H5. vm_compute. reflexivity.
    + apply (H7 (step (Click 115) chatgptListed) (Some "Hi there") []).
      vm_compute. reflexivity.
Defined.


(* ===================================================================== *)
(** * Part III: further properties of the script *)
(* ===================================================================== *)

(** ** Platform resolution *)

(** X1.  The platform is decided by substrings of the host name, wherever
    they occur: ChatGPT when [chatgpt.com] or [openai.com] occurs, Gemini
    when [gemini.google.com] occurs and neither of the former does, and
    Unknown exactly when none of the three occurs. *)
Theorem getCurrentPlatform_by_substring (host : string) :
  (getCurrentPlatform host = ChatGPT <->
   occursIn "chatgpt.com" host \/ occursIn "openai.com" host)
  /\ (getCurrentPlatform host = Gemini <->
      occursIn "gemini.google.com" host
      /\ ~ occursIn "chatgpt.com" host /\ ~ occursIn "openai.com" host)
  /\ (getCurrentPlatform host = Unknown <->
      ~ occursIn "chatgpt.com" host /\ ~ occursIn "openai.com" host
      /\ ~ occursIn "gemini.google.com" host).
Proof.
  unfold getCurrentPlatform, occursIn.
  rewrite <- !includes_spec.
  destruct (includes host "chatgpt.com"), (includes host "openai.com"),
    (includes host "gemini.google.com"); cbn [orb];
    repeat split; intros; try discriminate; try tauto;
    try (intuition discriminate).
Qed.

(** ** Message texts *)

Section Trim.

Lemma startsBlank_trimStart (s : string) : startsBlank (trimStart s) = false.
Proof.
  induction s as [|c r IH]; [reflexivity|].
  cbn [trimStart]. destruct (isWhiteSpace c) eqn:E; [exact IH|].
  cbn [startsBlank]. exact E.
Qed.

Lemma startsBlank_trimEnd (s : string) :
  startsBlank s = false -> startsBlank (trimEnd s) = false.
Proof.
  destruct s as [|c r]; [reflexivity|].
  cbn [startsBlank trimEnd]. intros H. rewrite H.
  cbn [andb startsBlank]. exact H.
Qed.

Lemma endsBlank_trimEnd (s : string) : endsBlank (trimEnd s) = false.
Proof.
  induction s as [|c r IH]; [reflexivity|].
  cbn [trimEnd]. destruct (isWhiteSpace c) eqn:E; cbn [andb].
  - destruct (trimEnd r) eqn:T; cbn [isEmptyString]; [reflexivity|].
    cbn [endsBlank isEmptyString]. exact IH.
  - cbn [endsBlank]. destruct (trimEnd r) eqn:T; cbn [isEmptyString].
    + exact E.
    + exact IH.
Qed.

(** [trim] leaves no white space at either end. *)
Lemma trim_ends (s : string) :
  startsBlank (trim s) = false /\ endsBlank (trim s) = false.
Proof.
  unfold trim. split.
  - apply startsBlank_trimEnd, startsBlank_trimStart.
  - apply endsBlank_trimEnd.
Qed.

Lemma truthy_optTrim (v : option string) :
  truthy (optTrim v) = negb (blankOrAbsent v).
Proof.
  destruct v as [t|]; [|reflexivity]. cbn [optTrim truthy blankOrAbsent].
  destruct (allWhiteSpace t) eqn:E.
  - apply trim_blank in E. rewrite E. reflexivity.
  - destruct (trim t) eqn:T; [|reflexivity].
    apply trim_blank in T. congruence.
Qed.

(** A message whose rendered text is not blank is shown by that text,
    trimmed. *)
Lemma extractMessageText_nonblank (el : Element) (platform : Platform)
  (t : string) :
  innerText el = Some t -> allWhiteSpace t = false ->
  extractMessageText (Some el) platform = Normal (trim t)
  /\ trim t <> EmptyString.
Proof.
  intros Hi Hw.
  assert (Hne : trim t <> EmptyString).
  { intros H. apply trim_blank in H. congruence. }
  split; [|exact Hne].
  cbn [extractMessageText]. rewrite Hi. cbn [optTrim]. unfold jsOr.
  cbn [truthy]. destruct (trim t); [congruence|]. reflexivity.
Qed.

End Trim.

(** X2.  The text [extractMessageText] returns has no white space at
    either end.  It is the trimmed [innerText] when that is not blank,
    else the trimmed [textContent] when that is not blank, and it is empty
    exactly when each of the two is absent or blank. *)
Theorem extractMessageText_trimmed (el : Element) (platform : Platform) :
  exists text,
    extractMessageText (Some el) platform = Normal text
    /\ startsBlank text = false
    /\ endsBlank text = false
    /\ (forall t,
          innerText el = Some t -> allWhiteSpace t = false -> text = trim t)
    /\ (forall t,
          blankOrAbsent (innerText el) = true ->
          textContent el = Some t -> allWhiteSpace t = false ->
          text = trim t)
    /\ (text = EmptyString <->
        blankOrAbsent (innerText el) = true
        /\ blankOrAbsent (textContent el) = true).
Proof.
  cbn [extractMessageText]. eexists. split; [reflexivity|].
  unfold jsOr. rewrite !truthy_optTrim.
  destruct (blankOrAbsent (innerText el)) eqn:Ei; cbn [negb].
  - rewrite truthy_optTrim.
    destruct (blankOrAbsent (textContent el)) eqn:Et; cbn [negb].
    + cbn [truthy isEmptyString negb orEmpty].
      repeat split; try reflexivity; try tauto.
      * intros t Hi Hw. rewrite Hi in Ei. cbn in Ei. congruence.
      * intros t _ Ht Hw. rewrite Ht in Et. cbn in Et. congruence.
    + destruct (textContent el) as [t|] eqn:Ht; [|discriminate].
      cbn [blankOrAbsent] in Et. cbn [optTrim truthy orEmpty].
      assert (Hne : trim t <> EmptyString).
      { intros H. apply trim_blank in H. congruence. }
      destruct (trim t) eqn:T; [congruence|]. cbn [isEmptyString negb orEmpty].
      rewrite <- T. destruct (trim_ends t) as [H1 H2].
      split; [exact H1|]. split; [exact H2|]. split.
      * intros t' Hi Hw. rewrite Hi in Ei. cbn in Ei. congruence.
      * split; [intros t' _ H _; congruence|].
        split; [intros H; congruence | intros [_ H]; discriminate].
  - destruct (innerText el) as [t|] eqn:Hi; [|discriminate].
    cbn [blankOrAbsent] in Ei. cbn [optTrim truthy orEmpty].
    assert (Hne : trim t <> EmptyString).
    { intros H. apply trim_blank in H. congruence. }
    destruct (trim t) eqn:T; [congruence|]. cbn [isEmptyString negb orEmpty].
    rewrite <- T. destruct (trim_ends t) as [H1 H2].
    split; [exact H1|]. split; [exact H2|]. split.
    + intros t' H _. congruence.
    + split; [intros t' H; discriminate|].
      split; [intros H; congruence | intros [H _]; discriminate].
Qed.

(** ** Readiness and the list of messages *)

Section Readiness.

Lemma isSome_find {A : Type} (f : A -> bool) (l : list A) :
  isSome (List.find f l) = true <-> List.filter f l <> [].
Proof.
  induction l as [|x l IH]; cbn [List.find List.filter].
  - split; [discriminate | congruence].
  - destruct (f x); [|exact IH]. split; [discriminate | reflexivity].
Qed.

Lemma find_In_isSome {A : Type} (f : A -> bool) (l : list A) (x : A) :
  In x l -> f x = true -> isSome (List.find f l) = true.
Proof.
  intros Hin Hf. destruct (List.find f l) eqn:E; [reflexivity|].
  rewrite (find_none f l E x Hin) in Hf. discriminate.
Qed.

Lemma findUserMessages_in_document (platform : Platform) (b el : Element) :
  In el (findUserMessages platform b) -> In el (subtree b).
Proof.
  destruct (findUserMessages_document_order platform b) as [keep ->].
  intros H. apply filter_In in H. apply H.
Qed.

End Readiness.

(** X3.  On ChatGPT the page counts as ready exactly when
    [findUserMessages] finds something.  On Gemini a listed message that
    carries the tag or the [data-testid] makes the page ready, and a ready
    page has such a node; messages marked by the class [user-query] alone
    are listed but do not make the page ready, as on the sample page. *)
Theorem checkPageReady_and_findUserMessages (b : Element) :
  (checkPageReady ChatGPT b = true <-> findUserMessages ChatGPT b <> [])
  /\ (forall el,
        In el (findUserMessages Gemini b) ->
        matches [Tag "user-query"; AttrEq "data-testid" "user-query"] el
        = true ->
        checkPageReady Gemini b = true)
  /\ (checkPageReady Gemini b = true ->
      exists el,
        In el (subtree b)
        /\ matches [Tag "user-query"; AttrEq "data-testid" "user-query"] el
           = true)
  /\ (List.map uid (findUserMessages Gemini classOnlyPage) = [1]
      /\ checkPageReady Gemini classOnlyPage = false).
Proof.
  split; [|split; [|split]].
  - cbn [checkPageReady findUserMessages].
    unfold docQuerySelector, docQuerySelectorAll. apply isSome_find.
  - intros el Hin Hm. apply findUserMessages_in_document in Hin.
    cbn [checkPageReady]. unfold docQuerySelector.
    cbn [matches existsb] in Hm. rewrite orb_false_r in Hm.
    apply orb_true_iff in Hm. apply orb_true_iff.
    destruct Hm as [Hm | Hm]; [left | right];
      apply (find_In_isSome _ _ el Hin); cbn [matches existsb];
      rewrite Hm; reflexivity.
  - cbn [checkPageReady]. unfold docQuerySelector. intros H.
    apply orb_true_iff in H.
    destruct H as [H | H];
      destruct (List.find _ (subtree b)) as [el|] eqn:E; try discriminate;
      apply find_some in E; destruct E as [Hin Hm];
      cbn [matches existsb] in Hm; rewrite orb_false_r in Hm;
      exists el; (split; [exact Hin|]); cbn [matches existsb];
      rewrite Hm; [reflexivity | apply orb_true_r].
  - split; reflexivity.
Qed.

(** ** The markup of the list *)

Section Markup.

Lemma promptItemMarkup_returns (platform : Platform) (msg : Element)
  (index : nat) :
  promptItemMarkup platform msg index
  = Normal
      (mkItem (numberToString index)
         (toLowerCase
            (replaceQuotes
               (orEmpty
                  (jsOr (jsOr (optTrim (innerText msg))
                              (optTrim (textContent msg)))
                        (Some EmptyString)))))
         (numberToString (index + 1))
         (orEmpty
            (jsOr (jsOr (optTrim (innerText msg))
                        (optTrim (textContent msg)))
                  (Some EmptyString)))).
Proof. reflexivity. Qed.

(** Mapping with the index keeps the length and the positions, and the
    callback sees position [k + i] at offset [k]. *)
Lemma mapIndexed_spec {A B : Type} (f : A -> nat -> Completion B)
  (l : list A) (k : nat) :
  (forall a i, exists b, f a i = Normal b) ->
  exists bs,
    mapIndexed f l k = Normal bs
    /\ length bs = length l
    /\ (forall i a,
          nth_error l i = Some a ->
          exists b, nth_error bs i = Some b /\ f a (k + i) = Normal b).
Proof.
  intros Hf. revert k. induction l as [|x l IH]; intros k.
  - exists []. split; [reflexivity|]. split; [reflexivity|].
    intros [|i] a H; discriminate.
  - cbn [mapIndexed]. destruct (Hf x k) as [b Hb]. rewrite Hb. cbn [bind].
    destruct (IH (S k)) as [bs [H1 [H2 H3]]]. rewrite H1. cbn [bind].
    exists (b :: bs). split; [reflexivity|].
    split; [cbn [length]; congruence|].
    intros [|i] a Ha; cbn [nth_error] in *.
    + injection Ha as <-. exists b. rewrite Nat.add_0_r. split; auto.
    + destruct (H3 i a Ha) as [b' [Hb1 Hb2]]. exists b'.
      replace (k + S i) with (S k + i) by lia. split; assumption.
Qed.

End Markup.

(** X4.  [generatePromptsListHTML] never throws.  For no messages it
    gives the empty-state markup; otherwise one item per message, in the
    order of the messages: the item at position [i] carries the index
    [i], the number [i + 1], the extracted text of the message at [i] and
    that text's search key, and its parsed [data-index] reads back as
    [i]. *)
Theorem generatePromptsListHTML_rows
  (userMessages : list Element) (platform : Platform) :
  exists markup,
    generatePromptsListHTML userMessages platform = Normal markup
    /\ (userMessages = [] -> markup = NoPrompts)
    /\ (userMessages <> [] ->
        exists items,
          markup = Items items
          /\ length items = length userMessages
          /\ forall i msg,
               nth_error userMessages i = Some msg ->
               exists m,
                 nth_error items i = Some m
                 /\ extractMessageText (Some msg) platform
                    = Normal (promptText m)
                 /\ dataIndex m = numberToString i
                 /\ promptNumber m = numberToString (i + 1)
                 /\ dataFullText m
                    = toLowerCase (replaceQuotes (promptText m))
                 /\ forall base,
                      exists v,
                        getAttribute (itemElement base m) "data-index"
                        = Some v
                        /\ parseInt v = Some i).
Proof.
  unfold generatePromptsListHTML.
  destruct userMessages as [|x l].
  - exists NoPrompts. split; [reflexivity|]. split; [reflexivity|].
    intros H. congruence.
  - cbn [length Nat.eqb].
    destruct (mapIndexed_spec (promptItemMarkup platform) (x :: l) 0)
      as [items [H1 [H2 H3]]].
    { intros a i. eexists. apply promptItemMarkup_returns. }
    rewrite H1. cbn [bind]. exists (Items items).
    split; [reflexivity|]. split; [discriminate|].
    intros _. exists items. split; [reflexivity|]. split; [exact H2|].
    intros i msg Hi. destruct (H3 i msg Hi) as [m [Hm1 Hm2]].
    exists m. split; [exact Hm1|]. cbn [Nat.add] in Hm2.
    pose proof Hm2 as Hm3. rewrite promptItemMarkup_returns in Hm3.
    injection Hm3 as <-.
    cbn [promptText dataIndex promptNumber dataFullText].
    split; [reflexivity|]. split; [reflexivity|]. split; [reflexivity|].
    split; [reflexivity|].
    intros base. apply (data_index_resolves platform msg i base _ Hm2).
Qed.

(** X5.  On Gemini no row of the list is blank: every message that
    [findUserMessages] returns has a non-empty extracted text, so every
    item of the markup has a non-empty display text, and there is one item
    per message. *)
Theorem gemini_rows_have_text (b : Element) :
  (forall el,
      In el (findUserMessages Gemini b) ->
      exists text,
        extractMessageText (Some el) Gemini = Normal text
        /\ text <> EmptyString)
  /\ exists markup,
       generatePromptsListHTML (findUserMessages Gemini b) Gemini
       = Normal markup
       /\ forall items,
            markup = Items items ->
            length items = length (findUserMessages Gemini b)
            /\ forall m, In m items -> promptText m <> EmptyString.
Proof.
  assert (Htext : forall el,
    In el (findUserMessages Gemini b) ->
    exists text,
      extractMessageText (Some el) Gemini = Normal text
      /\ text <> EmptyString).
  { intros el Hin.
    destruct (findUserMessages_gemini_has_text b el Hin) as [t [Ht Hw]].
    destruct (extractMessageText_nonblank el Gemini t Ht Hw) as [H1 H2].
    exists (trim t). split; assumption. }
  split; [exact Htext|].
  destruct (findUserMessages Gemini b) as [|x l] eqn:E.
  - exists NoPrompts. split; [reflexivity|]. intros items H. discriminate.
  - unfold generatePromptsListHTML. cbn [length Nat.eqb].
    destruct (mapIndexed_spec (promptItemMarkup Gemini) (x :: l) 0)
      as [items [H1 [H2 H3]]].
    { intros a i. eexists. apply promptItemMarkup_returns. }
    rewrite H1. cbn [bind]. exists (Items items). split; [reflexivity|].
    intros items' H. injection H as <-. split; [exact H2|].
    intros m Hm. apply In_nth_error in Hm. destruct Hm as [i Hi].
    assert (Hlt : i < length (x :: l)).
    { rewrite <- H2. apply nth_error_Some. congruence. }
    destruct (nth_error (x :: l) i) as [el|] eqn:Hel;
      [|apply nth_error_None in Hel; lia].
    destruct (H3 i el Hel) as [m' [Hm1 Hm2]].
    rewrite Hi in Hm1. injection Hm1 as <-.
    destruct (Htext el (nth_error_In _ _ Hel)) as [text [Ht Hne]].
    unfold promptItemMarkup in Hm2. rewrite Ht in Hm2. cbn [bind] in Hm2.
    injection Hm2 as <-. exact Hne.
Qed.

(** ** The navigation watcher *)

(** X6.  The watcher acts once per address change: when the address
    differs from the one it remembers it takes over the new address,
    sets the counter to 0 and schedules one attempt 1000 ms ahead; after
    that, and whenever the address is the remembered one, it changes
    nothing, however many mutations the page reports. *)
Theorem watcher_acts_once_per_address_change (s : State) :
  (href s = lastUrl s -> onMutation s = s)
  /\ (href s <> lastUrl s ->
      onMutation s
      = setTimeout CbInitExtension 1000
          (set_retryCount 0 (set_lastUrl (href s) s)))
  /\ lastUrl (onMutation s) = href s
  /\ href (onMutation s) = href s
  /\ body (onMutation s) = body s
  /\ (forall n, run (repeat Mutation (S n)) s = onMutation s).
Proof.
  assert (H1 : href s = lastUrl s -> onMutation s = s).
  { intros H. unfold onMutation. rewrite H, String.eqb_refl. reflexivity. }
  assert (H2 : href s <> lastUrl s ->
               onMutation s
               = setTimeout CbInitExtension 1000
                   (set_retryCount 0 (set_lastUrl (href s) s))).
  { intros H. unfold onMutation. apply String.eqb_neq in H. rewrite H.
    reflexivity. }
  assert (H3 : lastUrl (onMutation s) = href s).
  { unfold onMutation. destruct (String.eqb (href s) (lastUrl s)) eqn:E.
    - apply String.eqb_eq in E. congruence.
    - reflexivity. }
  assert (H4 : href (onMutation s) = href s).
  { unfold onMutation. destruct (String.eqb (href s) (lastUrl s));
      reflexivity. }
  assert (H5 : forall t, href t = lastUrl t ->
               forall n, run (repeat Mutation n) t = t).
  { intros t Ht n. induction n as [|n IH]; [reflexivity|].
    cbn [repeat run step]. unfold onMutation at 1.
    rewrite Ht, String.eqb_refl. exact IH. }
  split; [exact H1|]. split; [exact H2|]. split; [exact H3|].
  split; [exact H4|]. split.
  - unfold onMutation. destruct (String.eqb (href s) (lastUrl s));
      reflexivity.
  - intros n. cbn [repeat run step]. apply H5. congruence.
Qed.

(** ** Unsupported pages *)

Section Unsupported.








End Unsupported.



(** ** More on the search field and the item actions *)

Section SearchMore.

Lemma startsWith_empty (s : string) : startsWith s EmptyString = true.
Proof. destruct s; reflexivity. Qed.

Lemma includes_empty (s : string) : includes s EmptyString = true.
Proof. destruct s; cbn [includes]; rewrite startsWith_empty; reflexivity. Qed.

Lemma body_applySearch (term : string) (items : list Element) (s : State) :
  body (stateOf (applySearch term items s)) = body s
  /\ timers (stateOf (applySearch term items s)) = timers s
  /\ listeners (stateOf (applySearch term items s)) = listeners s.
Proof.
  revert s. induction items as [|item items IH]; intros s;
    cbn [applySearch stateOf]; [repeat split|].
  destruct (getAttribute item "data-full-text"); [|repeat split].
  destruct (IH (setDisplay (uid item)
                  (if includes s0 term then "grid" else "none") s))
    as [H1 [H2 H3]].
  rewrite H1, H2, H3. repeat split.
Qed.

Lemma body_report (o : Outcome) :
  body (report o) = body (stateOf o)
  /\ timers (report o) = timers (stateOf o)
  /\ listeners (report o) = listeners (stateOf o).
Proof. destruct o; repeat split. Qed.

(** Typing into the search field changes nothing but inline styles (and
    the error log): the rows stay in the document. *)
Lemma body_input (target : nat) (value : string) (s : State) :
  body (input target value s) = body s
  /\ timers (input target value s) = timers s
  /\ listeners (input target value s) = listeners s.
Proof.
  unfold input. destruct (inDocument target (body s)); [|repeat split].
  destruct (listeners s !! target) as [[]|]; try solve [repeat split].
  unfold onSearchInput. destruct (findNode modal (body s)).
  - destruct (body_report
                (applySearch (toLowerCase value)
                   (querySelectorAll e [Class "prompt-item"]) s))
      as [H1 [H2 H3]].
    destruct (body_applySearch (toLowerCase value)
                (querySelectorAll e [Class "prompt-item"]) s)
      as [H4 [H5 H6]].
    rewrite H1, H2, H3, H4, H5, H6. repeat split.
  - repeat split.
Qed.

End SearchMore.

(** X8.  Searching hides rows and never removes them: an input event
    leaves the document, the timers and the listeners as they are, and
    with the field emptied every item of the list is shown again,
    whatever was typed and hidden before. *)
Theorem empty_search_shows_every_item
  (s : State) (field modal : nat) (m : Element) :
  inDocument field (body s) = true ->
  listeners s !! field = Some (OnSearchInput modal) ->
  findNode modal (body s) = Some m ->
  List.NoDup (List.map uid (querySelectorAll m [Class "prompt-item"])) ->
  (forall item,
      In item (querySelectorAll m [Class "prompt-item"]) ->
      isSome (getAttribute item "data-full-text") = true) ->
  (forall value,
      body (step (Input field value) s) = body s
      /\ timers (step (Input field value) s) = timers s
      /\ listeners (step (Input field value) s) = listeners s)
  /\ (forall typed item,
        In item (querySelectorAll m [Class "prompt-item"]) ->
        display
          (styleOf
             (step (Input field EmptyString) (step (Input field typed) s))
             (uid item))
        = "grid").
Proof.
  intros Hdoc Hl Hm Hnd Hkeys. split.
  - intros value. cbn [step]. apply body_input.
  - intros typed item Hi.
    destruct (body_input field typed s) as [Hb [_ Hls]].
    set (s1 := step (Input field typed) s).
    change (input field typed s) with s1 in Hb, Hls.
    destruct (applySearch_displays (toLowerCase EmptyString)
                (querySelectorAll m [Class "prompt-item"]) s1 Hnd Hkeys)
      as [s' [Hs' [Hin _]]].
    assert (Hstep : step (Input field EmptyString) s1 = s').
    { cbn [step]. unfold input. rewrite Hb, Hdoc, Hls, Hl.
      unfold onSearchInput. rewrite Hb, Hm, Hs'. reflexivity. }
    rewrite Hstep.
    pose proof (Hkeys item Hi) as Hk.
    destruct (getAttribute item "data-full-text") as [key|] eqn:Ek;
      [|discriminate].
    rewrite (Hin item key Hi Ek).
    change (toLowerCase EmptyString) with EmptyString.
    rewrite includes_empty. reflexivity.
Qed.

Lemma empty_search_shows_every_item_witness :
  (forall value,
      body (step (Input 108 value) geminiListed) = body geminiListed
      /\ timers (step (Input 108 value) geminiListed) = timers geminiListed
      /\ listeners (step (Input 108 value) geminiListed)
         = listeners geminiListed)
  /\ (forall typed item,
        In item
          (querySelectorAll
             (modalElement 101 Gemini
                (Items
                   [mkItem "0" "hello world" "1" "Hello World";
                    mkItem "1" "foo bar" "2" "Foo Bar"]))
             [Class "prompt-item"]) ->
        display
          (styleOf
             (step (Input 108 EmptyString)
                (step (Input 108 typed) geminiListed))
             (uid item))
        = "grid").
Proof.
  apply (empty_search_shows_every_item geminiListed 108 101
           (modalElement 101 Gemini
              (Items
                 [mkItem "0" "hello world" "1" "Hello World";
                  mkItem "1" "foo bar" "2" "Foo Bar"]))).
  - vm_compute. reflexivity.
  - vm_compute. reflexivity.
  - vm_compute. reflexivity.
  - vm_compute. repeat constructor; cbn; intuition discriminate.
  - intros item Hi. vm_compute in Hi.
    destruct Hi as [<- | [<- | []]]; reflexivity.
Defined.

(** X9.  A click on a row outside its two buttons scrolls the row's own
    user message into view and closes the modal, and does nothing else:
    no highlight, no timer, no notification, nothing thrown. *)
Theorem row_click_scrolls_to_prompt
  (s : State) (modal : nat) (userMessages : list nat) (platform : Platform)
  (target : nat) (item : Element) (rest : list Element) (v : string)
  (index msg : nat) :
  closest [Class "prompt-item"] target (body s) = Some (item, rest) ->
  getAttribute item "data-index" = Some v ->
  parseInt v = Some index ->
  nth_error userMessages index = Some msg ->
  isSome (closest [Class "copy-btn"] target (body s)) = false ->
  isSome (closest [Class "goto-btn"] target (body s)) = false ->
  uid (body s) <> modal ->
  exists s',
    onContainerClick modal userMessages platform target s = Returned s'
    /\ scrolled s' = scrolled s ++ [msg]
    /\ body s' = removeNode modal (body s)
    /\ inDocument modal (body s') = false
    /\ styles s' = styles s
    /\ timers s' = timers s
    /\ pendingWrites s' = pendingWrites s
    /\ uncaught s' = uncaught s
    /\ rejections s' = rejections s.
Proof.
  intros Hc Ha Hp Hn Hcopy Hgoto Hroot.
  rewrite (onContainerClick_item s modal userMessages platform target
             item rest v index msg Hc Ha Hp Hn), Hcopy, Hgoto.
  cbn [scrollToElement andThen]. eexists. split; [reflexivity|].
  split; [reflexivity|]. split; [reflexivity|]. split.
  - unfold removeFromPage. fields. rewrite inDocument_removeNode.
    apply Nat.eqb_neq, Hroot.
  - repeat split.
Qed.

Lemma row_click_scrolls_to_prompt_witness :
  exists s',
    onContainerClick 101 [3; 7] ChatGPT 113 chatgptListed = Returned s'
    /\ scrolled s' = scrolled chatgptListed ++ [3]
    /\ body s' = removeNode 101 (body chatgptListed)
    /\ inDocument 101 (body s') = false
    /\ styles s' = styles chatgptListed
    /\ timers s' = timers chatgptListed
    /\ pendingWrites s' = pendingWrites chatgptListed
    /\ uncaught s' = uncaught chatgptListed
    /\ rejections s' = rejections chatgptListed.
Proof.
  apply (row_click_scrolls_to_prompt chatgptListed 101 [3; 7] ChatGPT 113
           (itemElement 111
              (mkItem "0" "hello world" "1" "Hello World"))
           [itemElement 117 (mkItem "1" EmptyString "2" EmptyString)]
           "0" 0 3).
  - vm_compute. reflexivity.
  - vm_compute. reflexivity.
  - vm_compute. reflexivity.
  - reflexivity.
  - vm_compute. reflexivity.
  - vm_compute. reflexivity.
  - vm_compute. discriminate.
Defined.

(** X10.  A click on the copy button of an item whose response is found
    hands the response's rendered text ([innerText], or [textContent]
    when that is empty or missing) to the clipboard and shows nothing
    yet; when the write succeeds the clipboard holds that text and the
    notification [Response copied!] appears, to be removed 2500 ms
    later; the modal stays open throughout. *)
Theorem copy_writes_response_text
  (s : State) (modal : nat) (userMessages : list nat) (platform : Platform)
  (target : nat) (item : Element) (rest : list Element) (v : string)
  (index msg : nat) (aiResponse : Element) :
  closest [Class "prompt-item"] target (body s) = Some (item, rest) ->
  getAttribute item "data-index" = Some v ->
  parseInt v = Some index ->
  nth_error userMessages index = Some msg ->
  isSome (closest [Class "copy-btn"] target (body s)) = true ->
  findAIResponse (body s) (Some msg) platform = Normal (Some aiResponse) ->
  pendingWrites s = [] ->
  inDocument modal (body s) = true ->
  let text := jsOr (innerText aiResponse) (textContent aiResponse) in
  let s1 := set_pendingWrites [text] s in
  let s2 := clipboardSettles true s1 in
  onContainerClick modal userMessages platform target s = Returned s1
  /\ (truthy (innerText aiResponse) = true -> text = innerText aiResponse)
  /\ (truthy (innerText aiResponse) = false ->
      text = textContent aiResponse)
  /\ body s1 = body s
  /\ clipboard s2 = Some text
  /\ pendingWrites s2 = []
  /\ children (body s2)
     = children (body s)
       ++ [node (nextUid s) "div" EmptyString [] [] "Response copied!" []]
  /\ timers s2 = insertTimer (clock s + 2500, CbRemove (nextUid s)) (timers s)
  /\ inDocument modal (body s2) = true
  /\ uncaught s2 = uncaught s
  /\ rejections s2 = rejections s.
Proof.
  intros Hc Ha Hp Hn Hcopy Hr Hw Hmodal text s1 s2.
  rewrite (onContainerClick_item s modal userMessages platform target
             item rest v index msg Hc Ha Hp Hn), Hcopy.
  unfold copyAIResponse. rewrite Hr, Hw. cbn [app].
  split; [reflexivity|].
  split; [intros H; subst text; unfold jsOr; rewrite H; reflexivity|].
  split; [intros H; subst text; unfold jsOr; rewrite H; reflexivity|].
  split; [reflexivity|].
  subst s2. unfold clipboardSettles. subst s1. fields.
  destruct (showNotification_effect "Response copied!" "success"
              (set_clipboard (Some text) (set_pendingWrites [] (set_pendingWrites [text] s))))
    as [H1 [H2 [_ [H4 [H5 [H6 [H7 _]]]]]]].
  split; [exact H6|]. split; [reflexivity|]. split; [exact H1|].
  split; [exact H2|]. split; [apply H7; exact Hmodal|].
  split; [exact H4 | exact H5].
Qed.

Lemma copy_writes_response_text_witness :
  onContainerClick 101 [3; 7] ChatGPT 115 chatgptListed
  = Returned (set_pendingWrites [Some "Hi there"] chatgptListed)
  /\ clipboard
       (clipboardSettles true
          (set_pendingWrites [Some "Hi there"] chatgptListed))
     = Some (Some "Hi there")
  /\ inDocument 101
       (body
          (clipboardSettles true
             (set_pendingWrites [Some "Hi there"] chatgptListed)))
     = true.
Proof.
  pose proof (copy_writes_response_text chatgptListed 101 [3; 7] ChatGPT 115
           (itemElement 111
              (mkItem "0" "hello world" "1" "Hello World"))
           [itemElement 117 (mkItem "1" EmptyString "2" EmptyString)]
           "0" 0 3
           (sampleNode 4 "article" [("data-testid", "conversation-turn-2")]
              "Hi there"
              [ sampleNode 5 "div"
                  [("data-message-author-role", "assistant")]
                  "Hi there" [] ])) as H.
  cbv zeta in H.
  destruct H as [H1 [_ [_ [_ [H5 [_ [_ [_ [H9 _]]]]]]]]].
  - vm_compute. reflexivity.
  - vm_compute. reflexivity.
  - vm_compute. reflexivity.
  - reflexivity.
  - vm_compute. reflexivity.
  - vm_compute. reflexivity.
  - vm_compute. reflexivity.
  - vm_compute. reflexivity.
  - split; [exact H1|]. split; [exact H5 | exact H9].
Defined.

(** ** One modal at a time *)

Section Modals.




Lemma countId_modal_modalElement (modal : nat) (platform : Platform)
  (markup : ListMarkup) :
  countId modalId (modalElement modal platform markup) = 1.
Proof.
  unfold modalElement.
  repeat (rewrite countId_node; cbn [List.map];
          rewrite ?list_sum_cons, ?list_sum_nil).
  assert (H : list_sum
                (List.map (countId modalId) (parseList (modal + 10) markup))
              = 0).
  { destruct markup as [|items]; cbn [parseList List.map].
    - rewrite list_sum_cons, countId_node. reflexivity.
    - generalize (modal + 10). induction items as [|m items IH];
        intros base; [reflexivity|].
      cbn [parseItems List.map]. rewrite list_sum_cons, IH.
      unfold itemElement. rewrite !countId_node. reflexivity. }
  rewrite H. reflexivity.
Qed.

Lemma eid_appendChild (b n : Element) : eid (appendChild b n) = eid b.
Proof. reflexivity. Qed.





















End Modals.



(** ** Nodes the script adds and takes away again *)

Section RoundTrips.

Lemma removeNode_unfold (u : nat) (e : Element) :
  removeNode u e
  = mkElement (uid e) (localName e) (eid e) (classList e) (attributes e)
      (innerText e) (textContent e)
      (flat_map (fun k => if uid k =? u then [] else [removeNode u k])
         (children e)).
Proof.
  rewrite <- children_removeNode. destruct e; reflexivity.
Qed.

Lemma Element_eta (e : Element) :
  mkElement (uid e) (localName e) (eid e) (classList e) (attributes e)
    (innerText e) (textContent e) (children e) = e.
Proof. destruct e; reflexivity. Qed.

Lemma forallb_subtree_descendants (f : Element -> bool) (e : Element) :
  forallb f (subtree e) = f e && forallb f (descendants e).
Proof. rewrite subtree_unfold. reflexivity. Qed.

(** Removing an identity that no node below the root carries changes
    nothing. *)
Lemma removeNode_absent (u : nat) (e : Element) :
  forallb (fun x => negb (uid x =? u)) (descendants e) = true ->
  removeNode u e = e.
Proof.
  induction e as [e IH] using Element_children_ind. intros H.
  rewrite removeNode_unfold. rewrite <- (Element_eta e) at 9. f_equal.
  unfold descendants in H.
  induction IH as [|k kids Hk _ IHkids]; [reflexivity|].
  cbn [flat_map] in *. rewrite forallb_app in H.
  apply andb_true_iff in H. destruct H as [H1 H2].
  rewrite forallb_subtree_descendants in H1.
  apply andb_true_iff in H1. destruct H1 as [H1 H3].
  apply negb_true_iff in H1. rewrite H1. cbn [app].
  rewrite (Hk H3), (IHkids H2). reflexivity.
Qed.

(** A node appended under a fresh identity and then removed leaves the
    document as it was. *)
Lemma removeNode_appendChild (u : nat) (b n : Element) :
  uid n = u ->
  forallb (fun x => negb (uid x =? u)) (descendants b) = true ->
  removeNode u (appendChild b n) = b.
Proof.
  intros Hn Hb. rewrite removeNode_unfold. unfold appendChild at 1 2 3 4 5 6 7 8.
  cbn [uid localName eid classList attributes innerText textContent
       children].
  rewrite flat_map_app. cbn [flat_map]. rewrite Hn, Nat.eqb_refl.
  cbn [app]. rewrite app_nil_r.
  pose proof (removeNode_absent u b Hb) as H.
  rewrite removeNode_unfold in H. exact H.
Qed.

Lemma uidsBelow_absent (n : nat) (b : Element) :
  uidsBelow n b = true ->
  forallb (fun x => negb (uid x =? n)) (descendants b) = true.
Proof.
  unfold uidsBelow. rewrite forallb_subtree_descendants.
  intros H. apply andb_true_iff in H. destruct H as [_ H].
  rewrite forallb_forall in *. intros x Hx.
  specialize (H x Hx). apply Nat.ltb_lt in H.
  apply negb_true_iff, Nat.eqb_neq. lia.
Qed.

End RoundTrips.

(** X12.  A notification is transient and leaves no trace: in a
    document whose nodes all have older identities, [showNotification]
    appends its [div] and schedules its removal 2500 ms ahead, and when
    that timer runs the document is exactly what it was before the
    notification; with no other timer pending this is the very next
    timer, firing at 2500 ms. *)
Theorem notification_leaves_no_trace
  (message type : string) (s : State) :
  uidsBelow (nextUid s) (body s) = true ->
  let s1 := showNotification message type s in
  body s1
  = appendChild (body s)
      (node (nextUid s) "div" EmptyString [] [] message [])
  /\ timers s1 = insertTimer (clock s + 2500, CbRemove (nextUid s)) (timers s)
  /\ (forall t,
        body t = body s1 ->
        body (runCallback (CbRemove (nextUid s)) t) = body s)
  /\ (timers s = [] ->
      body (step TimerFires s1) = body s
      /\ clock (step TimerFires s1) = clock s + 2500
      /\ timers (step TimerFires s1) = []).
Proof.
  intros Hfresh s1.
  assert (Hb : body s1
               = appendChild (body s)
                   (node (nextUid s) "div" EmptyString [] [] message []))
    by reflexivity.
  assert (Hrm : forall t,
    body t = body s1 ->
    body (runCallback (CbRemove (nextUid s)) t) = body s).
  { intros t Ht. cbn [runCallback]. unfold removeFromPage. fields.
    rewrite Ht, Hb. apply removeNode_appendChild; [reflexivity|].
    apply uidsBelow_absent, Hfresh. }
  split; [exact Hb|]. split; [reflexivity|]. split; [exact Hrm|].
  intros Hq.
  assert (Hq1 : timers s1 = [(clock s + 2500, CbRemove (nextUid s))]).
  { subst s1. unfold showNotification, setTimeout, setCssText. fields.
    rewrite Hq. reflexivity. }
  cbn [step]. unfold fireTimer. rewrite Hq1.
  split; [apply Hrm; reflexivity|]. split; [|reflexivity].
  cbn [runCallback]. unfold removeFromPage. fields.
  change (clock s1) with (clock s). apply Nat.max_r. lia.
Qed.

Lemma notification_leaves_no_trace_witness :
  body (showNotification "Failed to copy" "error" chatgptStart)
  = appendChild (body chatgptStart)
      (node (nextUid chatgptStart) "div" EmptyString [] []
         "Failed to copy" [])
  /\ body
       (step TimerFires
          (showNotification "Failed to copy" "error" chatgptStart))
     = body chatgptStart.
Proof.
  pose proof (notification_leaves_no_trace "Failed to copy" "error"
                chatgptStart) as H.
  cbv zeta in H. destruct H as [H1 [_ [_ H4]]].
  - vm_compute. reflexivity.
  - split; [exact H1|]. apply H4. reflexivity.
Defined.

(** ** Finding a node by its identity *)

Section Locate.

Variable u : nat.

Lemma locateUnder_kids (up : Chain) (e : Element) :
  locateUnder u up e = locateKids u up (children e).
Proof.
  destruct e as [v tag i cl ats it tc kids]. cbn [locateUnder children].
  induction kids as [|k kids IH]; [reflexivity|].
  cbn [locateKids]. rewrite IH. reflexivity.
Qed.

(** Nothing is found below a node none of whose descendants has the
    identity. *)
Lemma locateUnder_absent (e : Element) :
  forall up,
    forallb (fun x => negb (uid x =? u)) (descendants e) = true ->
    locateUnder u up e = None.
Proof.
  induction e as [e IH] using Element_children_ind. intros up H.
  rewrite locateUnder_kids. unfold descendants in H. revert up.
  induction IH as [|k kids Hk _ IHkids]; intros up; [reflexivity|].
  cbn [flat_map] in H. rewrite forallb_app in H.
  apply andb_true_iff in H. destruct H as [H1 H2].
  rewrite forallb_subtree_descendants in H1.
  apply andb_true_iff in H1. destruct H1 as [H1 H3].
  apply negb_true_iff in H1. cbn [locateKids]. rewrite H1.
  rewrite (Hk _ H3). apply IHkids, H2.
Qed.

Lemma locateKids_skip (up : Chain) (pre rest : list Element) :
  forallb (fun x => negb (uid x =? u)) (flat_map subtree pre) = true ->
  locateKids u up (pre ++ rest)
  = match rest with
    | [] => None
    | k :: post =>
        if uid k =? u then Some ((k, post) :: up)
        else
          match locateUnder u ((k, post) :: up) k with
          | Some l => Some l
          | None => locateKids u up post
          end
    end.
Proof.
  induction pre as [|x pre IH]; intros H.
  - destruct rest; reflexivity.
  - cbn [flat_map] in H. rewrite forallb_app in H.
    apply andb_true_iff in H. destruct H as [H1 H2].
    rewrite forallb_subtree_descendants in H1.
    apply andb_true_iff in H1. destruct H1 as [H1 H3].
    apply negb_true_iff in H1. cbn [app locateKids]. rewrite H1.
    rewrite (locateUnder_absent x _ H3). apply IH, H2.
Qed.

Lemma chainFrom_target (path : list nat) (up : Chain) (e : Element)
  (t : Element) (f : list Element) (c : Chain) :
  chainFrom path up e = Some ((t, f) :: c) ->
  path <> [] -> In t (descendants e).
Proof.
  revert up e. induction path as [|i rest IH]; intros up e H Hne;
    [congruence|].
  cbn [chainFrom] in H.
  destruct (nth_error (children e) i) as [k|] eqn:Ek; [|discriminate].
  unfold descendants. apply in_flat_map. exists k.
  split; [apply (nth_error_In _ _ Ek)|].
  rewrite subtree_unfold. destruct rest as [|j rest'].
  - cbn [chainFrom] in H. injection H as <- _ _. left. reflexivity.
  - right. apply (IH _ _ H). discriminate.
Qed.

Lemma NoDup_app_absent {A : Type} (l1 l2 : list A) (x : A) :
  List.NoDup (l1 ++ l2) -> In x l2 -> ~ In x l1.
Proof.
  induction l1 as [|y l1 IH]; intros Hnd Hx; [tauto|].
  cbn [app] in Hnd. apply List.NoDup_cons_iff in Hnd.
  destruct Hnd as [Hy Hnd]. intros [-> | Hin].
  - apply Hy. apply in_or_app. right. exact Hx.
  - exact (IH Hnd Hx Hin).
Qed.

Lemma NoDup_app_parts {A : Type} (l1 l2 : list A) :
  List.NoDup (l1 ++ l2) -> List.NoDup l1 /\ List.NoDup l2.
Proof.
  induction l1 as [|y l1 IH]; intros Hnd.
  - split; [constructor | exact Hnd].
  - cbn [app] in Hnd. apply List.NoDup_cons_iff in Hnd.
    destruct Hnd as [Hy Hnd]. destruct (IH Hnd) as [H1 H2].
    split; [|exact H2]. constructor; [|exact H1].
    intros Hin. apply Hy. apply in_or_app. left. exact Hin.
Qed.

Lemma absent_not_In (l : list Element) :
  ~ In u (List.map uid l) ->
  forallb (fun x => negb (uid x =? u)) l = true.
Proof.
  intros H. apply forallb_forall. intros x Hx.
  apply negb_true_iff, Nat.eqb_neq. intros E. apply H.
  rewrite <- E. apply in_map, Hx.
Qed.

(** In a tree with distinct identities, searching for the identity of
    the node at a path gives the chain of that path. *)
Lemma locateUnder_chainFrom (path : list nat) :
  forall (e : Element) (up : Chain) (t : Element) (f : list Element)
         (c : Chain),
    List.NoDup (List.map uid (subtree e)) ->
    path <> [] ->
    chainFrom path up e = Some ((t, f) :: c) ->
    uid t = u ->
    locateUnder u up e = Some ((t, f) :: c).
Proof.
  induction path as [|i rest IH]; intros e up t f c Hnd Hne H Ht;
    [congruence|].
  cbn [chainFrom] in H.
  destruct (nth_error (children e) i) as [k|] eqn:Ek; [|discriminate].
  rewrite locateUnder_kids.
  pose proof (nth_error_split (children e) i Ek) as [pre [post [Hk Hlen]]].
  assert (Hpost : skipn (S i) (children e) = post).
  { rewrite Hk. rewrite <- Hlen. clear.
    induction pre as [|x pre IH]; [reflexivity | exact IH]. }
  rewrite Hpost in H. rewrite Hk.
  rewrite subtree_unfold in Hnd. cbn [List.map] in Hnd.
  apply List.NoDup_cons_iff in Hnd. destruct Hnd as [_ Hnd].
  rewrite Hk in Hnd. rewrite flat_map_app in Hnd. cbn [flat_map] in Hnd.
  rewrite List.map_app in Hnd.
  assert (Htk : In u (List.map uid (subtree k))).
  { rewrite <- Ht. apply in_map. rewrite subtree_unfold.
    destruct rest as [|j rest'].
    - cbn [chainFrom] in H. injection H as <- _ _. left. reflexivity.
    - right. apply (chainFrom_target _ _ _ _ _ _ H). discriminate. }
  assert (Hpre : forallb (fun x => negb (uid x =? u)) (flat_map subtree pre)
                 = true).
  { apply absent_not_In. apply (NoDup_app_absent _ _ u Hnd).
    rewrite List.map_app. apply in_or_app. left. exact Htk. }
  rewrite (locateKids_skip up pre (k :: post) Hpre).
  apply NoDup_app_parts in Hnd. destruct Hnd as [_ Hnd].
  rewrite List.map_app in Hnd. apply NoDup_app_parts in Hnd.
  destruct Hnd as [Hndk _].
  destruct rest as [|j rest'].
  - cbn [chainFrom] in H. injection H as <- <- <-.
    rewrite Ht, Nat.eqb_refl. reflexivity.
  - assert (Hin : In t (descendants k)).
    { apply (chainFrom_target _ _ _ _ _ _ H). discriminate. }
    assert (Hku : uid k <> u).
    { intros E. rewrite subtree_unfold in Hndk. cbn [List.map] in Hndk.
      apply List.NoDup_cons_iff in Hndk. destruct Hndk as [Hk' _].
      apply Hk'. rewrite E, <- Ht. apply in_map, Hin. }
    apply Nat.eqb_neq in Hku. rewrite Hku.
    rewrite (IH k _ t f c Hndk (ltac:(discriminate)) H Ht). reflexivity.
Qed.

Lemma locate_chainFrom (path : list nat) (b : Element) (t : Element)
  (f : list Element) (c : Chain) :
  List.NoDup (List.map uid (subtree b)) ->
  chainFrom path [(b, [])] b = Some ((t, f) :: c) ->
  uid t = u ->
  locate u b = Some ((t, f) :: c).
Proof.
  intros Hnd H Ht. unfold locate. destruct path as [|i rest].
  - cbn [chainFrom] in H. injection H as <- <- <-.
    rewrite Ht, Nat.eqb_refl. reflexivity.
  - assert (Hin : In t (descendants b)).
    { apply (chainFrom_target _ _ _ _ _ _ H). discriminate. }
    assert (Hbu : uid b <> u).
    { intros E. rewrite subtree_unfold in Hnd. cbn [List.map] in Hnd.
      apply List.NoDup_cons_iff in Hnd. destruct Hnd as [Hb _].
      apply Hb. rewrite E, <- Ht. apply in_map, Hin. }
    apply Nat.eqb_neq in Hbu. rewrite Hbu.
    apply (locateUnder_chainFrom (i :: rest) b _ t f c Hnd
             (ltac:(discriminate)) H Ht).
Qed.

End Locate.

(** ** The opened list *)

Section OpenedList.

Lemma markup_items (userMessages : list Element) (platform : Platform) :
  exists markup,
    generatePromptsListHTML userMessages platform = Normal markup
    /\ (userMessages = [] -> markup = NoPrompts)
    /\ (userMessages <> [] ->
        exists items,
          markup = Items items
          /\ length items = length userMessages
          /\ forall i msg,
               nth_error userMessages i = Some msg ->
               exists m,
                 nth_error items i = Some m
                 /\ promptItemMarkup platform msg i = Normal m).
Proof.
  unfold generatePromptsListHTML. destruct userMessages as [|x l].
  - exists NoPrompts. split; [reflexivity|]. split; [reflexivity|].
    congruence.
  - cbn [length Nat.eqb].
    destruct (mapIndexed_spec (promptItemMarkup platform) (x :: l) 0)
      as [items [H1 [H2 H3]]].
    { intros a i. eexists. apply promptItemMarkup_returns. }
    rewrite H1. cbn [bind]. exists (Items items).
    split; [reflexivity|]. split; [discriminate|].
    intros _. exists items. split; [reflexivity|]. split; [exact H2|].
    exact H3.
Qed.

(** With no modal in the document, [showPromptsList] returns, and the
    page afterwards is [listOpened]. *)
Lemma showPromptsList_opens (platform : Platform) (s : State)
  (markup : ListMarkup) :
  getElementById (body s) modalId = None ->
  generatePromptsListHTML (findUserMessages platform (body s)) platform
  = Normal markup ->
  showPromptsList platform s = Returned (listOpened platform markup s).
Proof.
  intros Hm Hg. unfold showPromptsList. rewrite Hm. cbv zeta. rewrite Hg.
  reflexivity.
Qed.

Lemma uids_itemElement (base : nat) (m : ItemMarkup) :
  List.map uid (subtree (itemElement base m)) = seq base 6.
Proof.
  cbn. repeat (f_equal; try lia).
Qed.

Lemma uids_parseItems (base : nat) (items : list ItemMarkup) :
  List.map uid (flat_map subtree (parseItems base items))
  = seq base (6 * length items).
Proof.
  revert base. induction items as [|m items IH]; intros base;
    [reflexivity|].
  cbn [parseItems flat_map length]. rewrite List.map_app, uids_itemElement.
  rewrite IH. replace (6 * S (length items)) with (6 + 6 * length items)
    by lia.
  rewrite seq_app. reflexivity.
Qed.

Lemma uids_modalElement (modal : nat) (platform : Platform)
  (markup : ListMarkup) :
  List.map uid (subtree (modalElement modal platform markup))
  = seq modal (10 + listSize markup).
Proof.
  rewrite seq_app.
  assert (H : List.map uid
                (flat_map subtree (parseList (modal + 10) markup))
              = seq (modal + 10) (listSize markup)).
  { destruct markup as [|items]; cbn [parseList listSize].
    - reflexivity.
    - apply uids_parseItems. }
  rewrite <- H. unfold modalElement, node.
  repeat (rewrite subtree_unfold;
          cbn [children flat_map List.map uid app]).
  rewrite ?app_nil_r, ?List.map_app. cbn [List.map app uid].
  cbn [seq app]. repeat (f_equal; try lia).
Qed.

Lemma NoDup_listOpened (platform : Platform) (markup : ListMarkup)
  (s : State) :
  settled s ->
  List.NoDup (List.map uid (subtree (body (listOpened platform markup s)))).
Proof.
  intros [Hnd [Hb _]]. unfold listOpened, addEventListener, setTimeout.
  fields. rewrite subtree_appendChild.
  assert (E : List.map uid
                (appendChild (body s)
                   (modalElement (nextUid s) platform markup)
                 :: descendants (body s)
                 ++ subtree (modalElement (nextUid s) platform markup))
              = List.map uid (subtree (body s))
                ++ seq (nextUid s) (10 + listSize markup)).
  { rewrite (descendants_subtree (body s)). cbn [List.map].
    rewrite List.map_app, uids_modalElement. reflexivity. }
  rewrite E. apply List.NoDup_app; [exact Hnd | apply seq_NoDup |].
  intros a Ha Hs. apply in_seq in Hs. apply in_map_iff in Ha.
  destruct Ha as [e [<- He]]. unfold uidsBelow in Hb.
  rewrite forallb_forall in Hb. specialize (Hb e He).
  apply Nat.ltb_lt in Hb. lia.
Qed.

Lemma lookup_listOpened (platform : Platform) (markup : ListMarkup)
  (s : State) (k : nat) :
  listeners (listOpened platform markup s) !! k
  = if decide (nextUid s + 9 = k) then
      Some (OnContainerClick (nextUid s)
              (List.map uid (findUserMessages platform (body s))) platform)
    else if decide (nextUid s + 7 = k) then Some (OnSearchInput (nextUid s))
    else if decide (nextUid s = k) then Some (OnModalClick (nextUid s))
    else if decide (nextUid s + 5 = k) then Some (OnCloseClick (nextUid s))
    else listeners s !! k.
Proof.
  unfold listOpened, addEventListener, setTimeout. fields.
  rewrite !lookup_insert. reflexivity.
Qed.

Lemma lookup_listOpened_old (platform : Platform) (markup : ListMarkup)
  (s : State) (k : nat) :
  settled s ->
  k = uid (body s) \/ nextUid s + 10 <= k
  \/ (nextUid s < k /\ k <> nextUid s + 5 /\ k <> nextUid s + 7
      /\ k <> nextUid s + 9) ->
  listeners (listOpened platform markup s) !! k = None.
Proof.
  intros [_ [Hb [Hl Hroot]]] Hk. rewrite lookup_listOpened.
  assert (Hu : uid (body s) < nextUid s).
  { unfold uidsBelow in Hb. rewrite subtree_unfold in Hb.
    cbn [forallb] in Hb. apply andb_true_iff in Hb.
    apply Nat.ltb_lt, Hb. }
  repeat (destruct (decide _) as [E|E]; [exfalso; lia|]; clear E).
  destruct Hk as [-> | [Hk | Hk]]; [exact Hroot | apply Hl; lia
                                    | apply Hl; lia].
Qed.

Lemma dispatchClick_skip (pre rest : list nat) (target : nat) (s : State) :
  (forall n, In n pre -> listeners s !! n = None) ->
  dispatchClick (pre ++ rest) target s = dispatchClick rest target s.
Proof.
  induction pre as [|n pre IH]; intros H; [reflexivity|].
  cbn [app dispatchClick]. rewrite (H n (or_introl eq_refl)).
  apply IH. intros k Hk. apply H. right. exact Hk.
Qed.

Lemma dispatchClick_handled (n : nat) (rest : list nat) (target : nat)
  (s : State) (l : Listener) (o : Outcome) :
  listeners s !! n = Some l ->
  runClick l target s = (o, false) ->
  dispatchClick (n :: rest) target s = dispatchClick rest target (report o).
Proof.
  intros Hl Hr. cbn [dispatchClick]. rewrite Hl, Hr. reflexivity.
Qed.

(** Nodes without a click listener, and the backdrop when the click is
    not on it, let a click pass unchanged. *)
Lemma dispatchClick_inert (path : list nat) (target : nat) (s : State) :
  (forall n, In n path ->
     listeners s !! n = None
     \/ exists modal,
          listeners s !! n = Some (OnModalClick modal) /\ target <> modal) ->
  dispatchClick path target s = s.
Proof.
  induction path as [|n path IH]; intros H; [reflexivity|].
  cbn [dispatchClick].
  destruct (H n (or_introl eq_refl)) as [-> | [modal [-> Hne]]].
  - apply IH. intros k Hk. apply H. right. exact Hk.
  - cbn [runClick]. apply Nat.eqb_neq in Hne. rewrite Hne. cbn [report].
    apply IH. intros k Hk. apply H. right. exact Hk.
Qed.

Lemma chainFrom_appendChild (b n : Element) (rest : list nat) :
  chainFrom (length (children b) :: rest) [(appendChild b n, [])]
    (appendChild b n)
  = chainFrom rest [(n, []); (appendChild b n, [])] n.
Proof.
  cbn [chainFrom].
  change (children (appendChild b n)) with (children b ++ [n]).
  rewrite nth_error_app2 by lia. rewrite Nat.sub_diag. cbn [nth_error].
  replace (skipn (S (length (children b))) (children b ++ [n]))
    with (@nil Element); [reflexivity|].
  symmetry. apply skipn_all2. rewrite length_app. cbn [length]. lia.
Qed.

Lemma nth_error_parseItems (items : list ItemMarkup) :
  forall (base i : nat) (m : ItemMarkup),
    nth_error items i = Some m ->
    nth_error (parseItems base items) i
    = Some (itemElement (base + 6 * i) m).
Proof.
  induction items as [|x items IH]; intros base i m H.
  - destruct i; discriminate.
  - destruct i as [|i]; cbn [nth_error parseItems] in *.
    + injection H as ->. f_equal. f_equal. lia.
    + rewrite (IH (base + 6) i m H). f_equal. f_equal. lia.
Qed.

End OpenedList.

Section Clicks.

Variables (platform : Platform) (markup : ListMarkup) (s : State).
Hypothesis Hsettled : settled s.

Lemma lookup_listOpened_close :
  listeners (listOpened platform markup s) !! (nextUid s + 5)
  = Some (OnCloseClick (nextUid s)).
Proof.
  rewrite lookup_listOpened.
  repeat (destruct (decide _); try lia). reflexivity.
Qed.

Lemma lookup_listOpened_modal :
  listeners (listOpened platform markup s) !! nextUid s
  = Some (OnModalClick (nextUid s)).
Proof.
  rewrite lookup_listOpened.
  repeat (destruct (decide _); try lia). reflexivity.
Qed.

Lemma lookup_listOpened_container :
  listeners (listOpened platform markup s) !! (nextUid s + 9)
  = Some (OnContainerClick (nextUid s)
            (List.map uid (findUserMessages platform (body s))) platform).
Proof.
  rewrite lookup_listOpened.
  repeat (destruct (decide _); try lia). reflexivity.
Qed.

Lemma body_listOpened :
  body (listOpened platform markup s)
  = appendChild (body s) (modalElement (nextUid s) platform markup).
Proof. reflexivity. Qed.

Lemma uid_modalElement (modal : nat) :
  uid (modalElement modal platform markup) = modal.
Proof. reflexivity. Qed.

Lemma uid_body_listOpened :
  uid (body (listOpened platform markup s)) = uid (body s).
Proof. reflexivity. Qed.

Lemma listeners_removeFromPage (u : nat) (t : State) :
  listeners (removeFromPage u t) = listeners t.
Proof. reflexivity. Qed.

Lemma removeFromPage_listOpened (t : State) :
  body t = body (listOpened platform markup s) ->
  body (removeFromPage (nextUid s) t) = body s.
Proof.
  intros E. unfold removeFromPage. fields. rewrite E, body_listOpened.
  apply removeNode_appendChild; [reflexivity|].
  apply uidsBelow_absent. apply Hsettled.
Qed.

(** A click inside the modal's card, seen from the nodes above the one
    that handles it: they let it pass. *)
Lemma dispatchClick_above (path : list nat) (target : nat) (t : State) :
  listeners t = listeners (listOpened platform markup s) ->
  target <> nextUid s ->
  (forall n, In n path ->
     n = uid (body s) \/ n = nextUid s
     \/ (nextUid s < n /\ n <> nextUid s + 5 /\ n <> nextUid s + 7
         /\ n <> nextUid s + 9)) ->
  dispatchClick path target t = t.
Proof.
  intros El Ht Hp. apply dispatchClick_inert. intros n Hn. rewrite El.
  destruct (Hp n Hn) as [-> | [-> | H]].
  - left. apply lookup_listOpened_old; [exact Hsettled | left; reflexivity].
  - right. exists (nextUid s). split; [apply lookup_listOpened_modal|].
    exact Ht.
  - left. apply lookup_listOpened_old; [exact Hsettled | right; right].
    exact H.
Qed.

(** Where the nodes of the modal's frame sit in the document. *)
Lemma locate_frame (u : nat) (path : list nat) (t : Element)
  (f : list Element) (c : Chain) :
  chainFrom path
    [(modalElement (nextUid s) platform markup, []);
     (body (listOpened platform markup s), [])]
    (modalElement (nextUid s) platform markup)
  = Some ((t, f) :: c) ->
  uid t = u ->
  locate u (body (listOpened platform markup s)) = Some ((t, f) :: c).
Proof.
  intros Hc Hu.
  apply (locate_chainFrom u (length (children (body s)) :: path));
    [apply NoDup_listOpened; exact Hsettled | | exact Hu].
  rewrite body_listOpened, chainFrom_appendChild.
  rewrite body_listOpened in Hc. exact Hc.
Qed.

(** A click on the close button removes the modal and does nothing
    else. *)
Lemma click_close :
  step (Click (nextUid s + 5)) (listOpened platform markup s)
  = removeFromPage (nextUid s) (listOpened platform markup s).
Proof.
  cbn [step]. unfold click.
  erewrite (locate_frame (nextUid s + 5) [0; 0; 0; 1]);
    [|reflexivity|reflexivity].
  cbn [List.map fst uid node].
  rewrite (dispatchClick_handled _ _ _ _ _ _ lookup_listOpened_close
             eq_refl).
  cbn [report]. apply dispatchClick_above;
    [apply listeners_removeFromPage | lia |].
  intros n Hn. cbn [In] in Hn.
  rewrite uid_modalElement, uid_body_listOpened in Hn. lia.
Qed.

End Clicks.

(** X13.  Opening and closing the list is a round trip on the document.
    On a settled page without a modal whose prompts are plain text,
    [showPromptsList] returns and leaves exactly one modal; a click on
    the close button, or on the backdrop itself, then leaves the document
    exactly as it was before the list was opened, while a click on the
    title inside the card changes nothing: the modal closes only when
    the backdrop is the click's own target. *)
Theorem open_then_close_restores_document (platform : Platform) (s : State) :
  settled s ->
  getElementById (body s) modalId = None ->
  plainPrompts platform (body s) = true ->
  exists s',
    showPromptsList platform s = Returned s'
    /\ modalCount s' = 1
    /\ body (step (Click (nextUid s + 5)) s') = body s
    /\ body (step (Click (nextUid s)) s') = body s
    /\ step (Click (nextUid s + 4)) s' = s'.
Proof.
  intros Hs Hm _.
  destruct (markup_items (findUserMessages platform (body s)) platform)
    as [markup [Hg _]].
  exists (listOpened platform markup s).
  split; [apply showPromptsList_opens; assumption|].
  split.
  { unfold modalCount. rewrite body_listOpened, countId_appendChild.
    rewrite countId_modal_modalElement.
    apply getElementById_None in Hm. rewrite Hm. reflexivity. }
  split; [|split].
  - rewrite (click_close platform markup s Hs).
    apply (removeFromPage_listOpened platform markup s Hs). reflexivity.
  - cbn [step]. unfold click. erewrite (locate_frame platform markup s Hs (nextUid s) []);
      [|reflexivity|reflexivity].
    cbn [List.map fst uid node modalElement].
    rewrite (dispatchClick_handled _ _ _ _ _ _
               (lookup_listOpened_modal platform markup s) eq_refl).
    cbn [report]. rewrite Nat.eqb_refl.
    rewrite dispatchClick_inert.
    + apply (removeFromPage_listOpened platform markup s Hs). reflexivity.
    + intros n [<- | []]. left. rewrite listeners_removeFromPage.
      apply (lookup_listOpened_old platform markup s); [exact Hs|].
      left. reflexivity.
  - cbn [step]. unfold click.
    erewrite (locate_frame platform markup s Hs (nextUid s + 4) [0; 0; 0; 0]);
      [|reflexivity|reflexivity].
    cbn [List.map fst uid node].
    apply (dispatchClick_above platform markup s Hs); [reflexivity | lia |].
    intros n Hn. cbn [In] in Hn.
    rewrite uid_modalElement, uid_body_listOpened in Hn. lia.
Qed.

Lemma open_then_close_restores_document_witness :
  exists s',
    showPromptsList ChatGPT chatgptStart = Returned s'
    /\ modalCount s' = 1
    /\ body (step (Click 106) s') = body chatgptStart
    /\ body (step (Click 101) s') = body chatgptStart
    /\ step (Click 105) s' = s'.
Proof.
  assert (Hs : settled chatgptStart).
  { split; [|split; [|split]].
    - vm_compute. repeat constructor; cbn; intuition discriminate.
    - vm_compute. reflexivity.
    - intros k Hk. change (101 <= k) in Hk.
      change (listeners chatgptStart)
        with (<[100 := OnTriggerClick ChatGPT]> (∅ : gmap nat Listener)).
      rewrite lookup_insert_ne by lia. apply lookup_empty.
    - vm_compute. reflexivity. }
  apply (open_then_close_restores_document ChatGPT chatgptStart Hs).
  - vm_compute. reflexivity.
  - vm_compute. reflexivity.
Defined.

Section Rows.

Variables (platform : Platform) (items : list ItemMarkup) (s : State).
Hypothesis Hsettled : settled s.


Ltac find_class H :=
  unfold matches in H |- *;
  cbn [existsb matchesSimple List.find fst] in H |- *;
  change (classContains (body (listOpened platform (Items items) s)))
    with (classContains (body s));
  rewrite H; reflexivity.

(** Where the six nodes of the row at [i] sit, and what [closest] finds
    from each of them. *)
Lemma row_located (i k : nat) (m : ItemMarkup) :
  nth_error items i = Some m ->
  k < 6 ->
  exists (c : Chain) (f : list Element) (pre : list nat),
    locate (nextUid s + 10 + 6 * i + k) (body (listOpened platform (Items items) s)) = Some c
    /\ List.find (fun p => matches [Class "prompt-item"] (fst p)) c
       = Some (itemElement (nextUid s + 10 + 6 * i) m, f)
    /\ (matches [Class "copy-btn"] (body s) = false ->
        isSome (List.find (fun p => matches [Class "copy-btn"] (fst p)) c)
        = (k =? 4))
    /\ (matches [Class "goto-btn"] (body s) = false ->
        isSome (List.find (fun p => matches [Class "goto-btn"] (fst p)) c)
        = (k =? 5))
    /\ List.map (fun p => uid (fst p)) c
       = pre ++ [nextUid s + 9; nextUid s + 8; nextUid s + 1; nextUid s; uid (body s)]
    /\ forall n, In n pre -> nextUid s + 10 <= n.
Proof.
  intros Hm Hk.
  set (M := modalElement (nextUid s) platform (Items items)).
  set (card := nth 0 (children M) M).
  set (content := nth 1 (children card) M).
  set (container := nth 0 (children content) M).
  assert (Hrow : forall (rp : list nat) (t : Element) (f : list Element)
                        (c : Chain),
             chainFrom rp
               [(itemElement (nextUid s + 10 + 6 * i) m,
                 skipn (S i) (children container));
                (container, []); (content, []); (card, []); (M, []);
                (body (listOpened platform (Items items) s), [])]
               (itemElement (nextUid s + 10 + 6 * i) m)
             = Some ((t, f) :: c) ->
             uid t = nextUid s + 10 + 6 * i + k ->
             locate (nextUid s + 10 + 6 * i + k) (body (listOpened platform (Items items) s))
             = Some ((t, f) :: c)).
  { intros rp t f c Hc Hu.
    apply (locate_frame platform (Items items) s Hsettled
             (nextUid s + 10 + 6 * i + k) ([0; 1; 0; i] ++ rp)); [|exact Hu].
    cbn [app chainFrom modalElement node children nth_error skipn
         parseList].
    rewrite (nth_error_parseItems items (nextUid s + 10) i m Hm).
    exact Hc. }
  destruct k as [|[|[|[|[|[|k]]]]]]; [| | | | | | lia].
  - do 2 eexists. exists [nextUid s + 10 + 6 * i].
    split; [apply (Hrow []); [reflexivity | cbn; lia]|].
    split; [reflexivity|]. split; [|split; [|split]].
    + intros H. find_class H.
    + intros H. find_class H.
    + cbn. repeat (f_equal; try lia).
    + intros n [<- | []]. lia.
  - do 2 eexists. exists [nextUid s + 10 + 6 * i + 1; nextUid s + 10 + 6 * i].
    split; [apply (Hrow [0]); [reflexivity | cbn; lia]|].
    split; [reflexivity|]. split; [|split; [|split]].
    + intros H. find_class H.
    + intros H. find_class H.
    + cbn. repeat (f_equal; try lia).
    + intros n [<- | [<- | []]]; lia.
  - do 2 eexists. exists [nextUid s + 10 + 6 * i + 2; nextUid s + 10 + 6 * i].
    split; [apply (Hrow [1]); [reflexivity | cbn; lia]|].
    split; [reflexivity|]. split; [|split; [|split]].
    + intros H. find_class H.
    + intros H. find_class H.
    + cbn. repeat (f_equal; try lia).
    + intros n [<- | [<- | []]]; lia.
  - do 2 eexists. exists [nextUid s + 10 + 6 * i + 3; nextUid s + 10 + 6 * i].
    split; [apply (Hrow [2]); [reflexivity | cbn; lia]|].
    split; [reflexivity|]. split; [|split; [|split]].
    + intros H. find_class H.
    + intros H. find_class H.
    + cbn. repeat (f_equal; try lia).
    + intros n [<- | [<- | []]]; lia.
  - do 2 eexists.
    exists [nextUid s + 10 + 6 * i + 4; nextUid s + 10 + 6 * i + 3;
            nextUid s + 10 + 6 * i].
    split; [apply (Hrow [2; 0]); [reflexivity | cbn; lia]|].
    split; [reflexivity|]. split; [|split; [|split]].
    + intros H. reflexivity.
    + intros H. find_class H.
    + cbn. repeat (f_equal; try lia).
    + intros n [<- | [<- | [<- | []]]]; lia.
  - do 2 eexists.
    exists [nextUid s + 10 + 6 * i + 5; nextUid s + 10 + 6 * i + 3;
            nextUid s + 10 + 6 * i].
    split; [apply (Hrow [2; 1]); [reflexivity | cbn; lia]|].
    split; [reflexivity|]. split; [|split; [|split]].
    + intros H. find_class H.
    + intros H. reflexivity.
    + cbn. repeat (f_equal; try lia).
    + intros n [<- | [<- | [<- | []]]]; lia.
Qed.

End Rows.

Section Handlers.

Lemma listeners_copyAIResponse (msg : option nat) (platform : Platform)
  (s : State) :
  listeners (copyAIResponse msg platform s) = listeners s.
Proof.
  unfold copyAIResponse.
  destruct (findAIResponse (body s) msg platform) as [[r|]|e]; reflexivity.
Qed.

Lemma listeners_goToAIResponse (msg : option nat) (platform : Platform)
  (modal : nat) (s : State) :
  listeners
    (report (andThen (goToAIResponse msg platform s)
               (fun t => Returned (removeFromPage modal t))))
  = listeners s.
Proof.
  unfold goToAIResponse.
  destruct (findAIResponse (body s) msg platform) as [[r|]|e];
    [reflexivity | | reflexivity].
  destruct msg; reflexivity.
Qed.

Lemma scroll_then_close (msg modal : nat) (s : State) :
  report
    (andThen (scrollToElement (Some msg) s)
       (fun t => Returned (removeFromPage modal t)))
  = removeFromPage modal (set_scrolled (scrolled s ++ [msg]) s).
Proof. reflexivity. Qed.

Lemma body_set_scrolled (l : list nat) (s : State) :
  body (set_scrolled l s) = body s.
Proof. reflexivity. Qed.

Lemma listeners_set_scrolled (l : list nat) (s : State) :
  listeners (set_scrolled l s) = listeners s.
Proof. reflexivity. Qed.

End Handlers.

(** X14.  The list and the page agree row by row.  In the list rendered
    by [showPromptsList] on a settled page, a click on any of the six
    nodes of the row at [i] reaches the handler of the list with the
    [i]-th user message of the page: the copy button starts copying its
    response, the jump button goes to its response and closes the modal,
    and every other node of the row scrolls to the message itself and
    closes the modal, which leaves the document as it was before the list
    was opened.  The prompts of the page are plain text, so that each row
    is parsed into its six nodes, and the body of the page does not itself
    carry the classes [copy-btn] or [goto-btn], which [closest] would
    match. *)
Theorem rendered_row_acts_on_its_message
  (platform : Platform) (s : State) (i : nat) (msg : Element) :
  settled s ->
  getElementById (body s) modalId = None ->
  plainPrompts platform (body s) = true ->
  matches [Class "copy-btn"] (body s) = false ->
  matches [Class "goto-btn"] (body s) = false ->
  nth_error (findUserMessages platform (body s)) i = Some msg ->
  exists s',
    showPromptsList platform s = Returned s'
    /\ step (Click (nextUid s + 10 + 6 * i + 4)) s'
       = copyAIResponse (Some (uid msg)) platform s'
    /\ step (Click (nextUid s + 10 + 6 * i + 5)) s'
       = report
           (andThen (goToAIResponse (Some (uid msg)) platform s')
              (fun t => Returned (removeFromPage (nextUid s) t)))
    /\ forall k,
         k < 4 ->
         step (Click (nextUid s + 10 + 6 * i + k)) s'
         = removeFromPage (nextUid s)
             (set_scrolled (scrolled s' ++ [uid msg]) s')
         /\ body (step (Click (nextUid s + 10 + 6 * i + k)) s') = body s.
Proof.
  intros Hs Hmodal _ Hcopy Hgoto Hmsg.
  destruct (markup_items (findUserMessages platform (body s)) platform)
    as [markup [Hg [_ Hitems]]].
  destruct Hitems as [items [-> [_ Hrows]]].
  { intros E. rewrite E in Hmsg. destruct i; discriminate. }
  destruct (Hrows i msg Hmsg) as [m [Hm Hmarkup]].
  destruct (data_index_resolves platform msg i (nextUid s + 10 + 6 * i) m
              Hmarkup) as [v [Hattr Hparse]].
  pose proof (map_nth_error uid i _ Hmsg) as Hnth.
  exists (listOpened platform (Items items) s).
  split; [apply showPromptsList_opens; assumption|].
  set (s' := listOpened platform (Items items) s).
  assert (Hclick : forall k,
             k < 6 ->
             step (Click (nextUid s + 10 + 6 * i + k)) s'
             = report
                 (if k =? 4 then
                    Returned (copyAIResponse (Some (uid msg)) platform s')
                  else if k =? 5 then
                    andThen (goToAIResponse (Some (uid msg)) platform s')
                      (fun t => Returned (removeFromPage (nextUid s) t))
                  else
                    andThen (scrollToElement (Some (uid msg)) s')
                      (fun t => Returned (removeFromPage (nextUid s) t)))).
  { intros k Hk.
    destruct (row_located platform items s Hs i k m Hm Hk)
      as [c [f [pre [Hloc [Hitem [Hc [Hgo [Hpath Hpre]]]]]]]].
    fold s' in Hloc.
    assert (Hh : onContainerClick (nextUid s)
                   (List.map uid (findUserMessages platform (body s)))
                   platform (nextUid s + 10 + 6 * i + k) s'
                 = if k =? 4 then
                     Returned (copyAIResponse (Some (uid msg)) platform s')
                   else if k =? 5 then
                     andThen (goToAIResponse (Some (uid msg)) platform s')
                       (fun t => Returned (removeFromPage (nextUid s) t))
                   else
                     andThen (scrollToElement (Some (uid msg)) s')
                       (fun t => Returned (removeFromPage (nextUid s) t))).
    { rewrite (onContainerClick_item s' _ _ platform _
                 (itemElement (nextUid s + 10 + 6 * i) m) f v i (uid msg));
        [| unfold closest; rewrite Hloc; exact Hitem
         | exact Hattr | exact Hparse | exact Hnth].
      unfold closest. rewrite Hloc, (Hc Hcopy), (Hgo Hgoto). reflexivity. }
    unfold s' in *. cbn [step]. unfold click. rewrite Hloc, Hpath.
    rewrite dispatchClick_skip.
    2:{ intros n Hn. apply (lookup_listOpened_old platform (Items items) s);
          [exact Hs|]. right. left. apply Hpre, Hn. }
    rewrite (dispatchClick_handled _ _ _ _ _ _
               (lookup_listOpened_container platform (Items items) s)
               eq_refl).
    rewrite Hh.
    apply (dispatchClick_above platform (Items items) s Hs).
    - destruct (k =? 4); [apply listeners_copyAIResponse|].
      destruct (k =? 5); [apply listeners_goToAIResponse|].
      rewrite scroll_then_close, listeners_removeFromPage.
      apply listeners_set_scrolled.
    - lia.
    - intros n Hn. cbn [In] in Hn. lia. }
  split; [apply (Hclick 4); lia|].
  split; [apply (Hclick 5); lia|].
  intros k Hk.
  assert (E : step (Click (nextUid s + 10 + 6 * i + k)) s'
              = removeFromPage (nextUid s)
                  (set_scrolled (scrolled s' ++ [uid msg]) s')).
  { rewrite (Hclick k) by lia.
    replace (k =? 4) with false by (symmetry; apply Nat.eqb_neq; lia).
    replace (k =? 5) with false by (symmetry; apply Nat.eqb_neq; lia).
    apply scroll_then_close. }
  split; [exact E|]. rewrite E.
  apply (removeFromPage_listOpened platform (Items items) s Hs).
  apply body_set_scrolled.
Qed.

Lemma rendered_row_acts_on_its_message_witness :
  exists s',
    showPromptsList ChatGPT chatgptStart = Returned s'
    /\ step (Click 115) s' = copyAIResponse (Some 3) ChatGPT s'
    /\ step (Click 116) s'
       = report
           (andThen (goToAIResponse (Some 3) ChatGPT s')
              (fun t => Returned (removeFromPage 101 t)))
    /\ forall k,
         k < 4 ->
         step (Click (111 + k)) s'
         = removeFromPage 101 (set_scrolled (scrolled s' ++ [3]) s')
         /\ body (step (Click (111 + k)) s') = body chatgptStart.
Proof.
  assert (Hs : settled chatgptStart).
  { split; [|split; [|split]].
    - vm_compute. repeat constructor; cbn; intuition discriminate.
    - vm_compute. reflexivity.
    - intros k Hk. change (101 <= k) in Hk.
      change (listeners chatgptStart)
        with (<[100 := OnTriggerClick ChatGPT]> (∅ : gmap nat Listener)).
      rewrite lookup_insert_ne by lia. apply lookup_empty.
    - vm_compute. reflexivity. }
  apply (rendered_row_acts_on_its_message ChatGPT chatgptStart 0
           (sampleNode 3 "div" [("data-message-author-role", "user")]
              "Hello World" []) Hs).
  - vm_compute. reflexivity.
  - vm_compute. reflexivity.
  - vm_compute. reflexivity.
  - vm_compute. reflexivity.
  - vm_compute. reflexivity.
Defined.

Section StartUp.

Variables (host url : string) (b : Element) (fresh : nat)
          (platform : Platform).
Hypothesis Hhost : getCurrentPlatform host = platform.
Hypothesis Hknown : platform <> Unknown.
Hypothesis Hready : checkPageReady platform b = true.
Hypothesis Hfirst : getElementById b triggerId = None.





Hypothesis Hdistinct : List.NoDup (List.map uid (subtree b)).
Hypothesis Hbelow : uidsBelow fresh b = true.


End StartUp.



Section Focus.

Variables (platform : Platform) (markup : ListMarkup) (s : State).

Lemma find_app_none {A : Type} (f : A -> bool) (l1 l2 : list A) :
  List.find f l1 = None -> List.find f (l1 ++ l2) = List.find f l2.
Proof.
  induction l1 as [|x l1 IH]; [reflexivity|]. cbn [List.find app].
  destruct (f x); [discriminate | exact IH].
Qed.

Lemma timers_listOpened :
  timers (listOpened platform markup s)
  = insertTimer (clock s + 100, CbFocusSearch) (timers s).
Proof. reflexivity. Qed.

Lemma clock_listOpened : clock (listOpened platform markup s) = clock s.
Proof. reflexivity. Qed.

Lemma focused_listOpened :
  focused (listOpened platform markup s) = focused s.
Proof. reflexivity. Qed.

Lemma uncaught_listOpened :
  uncaught (listOpened platform markup s) = uncaught s.
Proof. reflexivity. Qed.

Lemma search_field_listOpened :
  getElementById (body s) "thread-navigator-search" = None ->
  exists e,
    getElementById (body (listOpened platform markup s))
      "thread-navigator-search" = Some e
    /\ uid e = nextUid s + 7.
Proof.
  unfold getElementById. rewrite body_listOpened, subtree_appendChild.
  rewrite (subtree_unfold (body s)). cbn [List.find eid appendChild].
  destruct (String.eqb (eid (body s)) "thread-navigator-search");
    [discriminate|].
  intros H. unfold descendants. rewrite (find_app_none _ _ _ H).
  eexists. split; reflexivity.
Qed.

End Focus.

(** X16.  The search field is focused 100 ms after the list opens, and
    only if the list is still there.  On a settled page with no timer
    pending and no element of its own with the field's id, the timer set
    by [showPromptsList] gives the focus to the list's search field; when
    the close button is clicked first, the same timer finds no field and
    does nothing: the focus stays where it was, nothing is thrown, and the
    document is the one before the list was opened. *)
Theorem search_field_focused_unless_closed
  (platform : Platform) (s : State) :
  settled s ->
  getElementById (body s) modalId = None ->
  getElementById (body s) "thread-navigator-search" = None ->
  timers s = [] ->
  exists s',
    showPromptsList platform s = Returned s'
    /\ focused (step TimerFires s') = Some (nextUid s + 7)
    /\ clock (step TimerFires s') = clock s + 100
    /\ focused (step TimerFires (step (Click (nextUid s + 5)) s'))
       = focused s
    /\ uncaught (step TimerFires (step (Click (nextUid s + 5)) s'))
       = uncaught s
    /\ body (step TimerFires (step (Click (nextUid s + 5)) s')) = body s
    /\ timers (step TimerFires (step (Click (nextUid s + 5)) s')) = [].
Proof.
  intros Hs Hmodal Hfield Htimers.
  destruct (markup_items (findUserMessages platform (body s)) platform)
    as [markup [Hg _]].
  exists (listOpened platform markup s).
  split; [apply showPromptsList_opens; assumption|].
  rewrite (click_close platform markup s Hs).
  destruct (search_field_listOpened platform markup s Hfield)
    as [e [He Hu]].
  pose proof (timers_listOpened platform markup s) as Ht.
  rewrite Htimers in Ht. cbn [insertTimer] in Ht.
  pose proof (clock_listOpened platform markup s) as Hc.
  pose proof (focused_listOpened platform markup s) as Hf.
  pose proof (uncaught_listOpened platform markup s) as Hun.
  assert (Hb : removeNode (nextUid s)
                 (body (listOpened platform markup s)) = body s).
  { rewrite body_listOpened. apply removeNode_appendChild;
      [reflexivity | apply uidsBelow_absent, Hs]. }
  generalize dependent (listOpened platform markup s). intros s' He Ht Hc Hf
    Hun Hb.
  assert (Hmax : Nat.max (clock s') (clock s + 100) = clock s + 100)
    by (rewrite Hc; apply Nat.max_r; lia).
  split.
  { cbn [step]. unfold fireTimer. rewrite Ht. cbn [runCallback]. fields.
    rewrite He. fields. rewrite Hu. reflexivity. }
  split.
  { cbn [step]. unfold fireTimer. rewrite Ht. cbn [runCallback]. fields.
    rewrite He. fields. exact Hmax. }
  assert (Hclosed : step TimerFires (removeFromPage (nextUid s) s')
                    = set_clock (clock s + 100)
                        (set_timers [] (removeFromPage (nextUid s) s'))).
  { cbn [step]. unfold fireTimer, removeFromPage. fields. rewrite Ht.
    cbn [runCallback]. fields. rewrite Hb, Hfield, Hmax. reflexivity. }
  rewrite Hclosed. unfold removeFromPage. fields.
  rewrite Hf, Hun, Hb. repeat split.
Qed.

Lemma search_field_focused_unless_closed_witness :
  exists s',
    showPromptsList ChatGPT chatgptStart = Returned s'
    /\ focused (step TimerFires s') = Some 108
    /\ clock (step TimerFires s') = 100
    /\ focused (step TimerFires (step (Click 106) s')) = None
    /\ uncaught (step TimerFires (step (Click 106) s')) = []
    /\ body (step TimerFires (step (Click 106) s')) = body chatgptStart
    /\ timers (step TimerFires (step (Click 106) s')) = [].
Proof.
  assert (Hs : settled chatgptStart).
  { split; [|split; [|split]].
    - vm_compute. repeat constructor; cbn; intuition discriminate.
    - vm_compute. reflexivity.
    - intros k Hk. change (101 <= k) in Hk.
      change (listeners chatgptStart)
        with (<[100 := OnTriggerClick ChatGPT]> (∅ : gmap nat Listener)).
      rewrite lookup_insert_ne by lia. apply lookup_empty.
    - vm_compute. reflexivity. }
  apply (search_field_focused_unless_closed ChatGPT chatgptStart Hs).
  - vm_compute. reflexivity.
  - vm_compute. reflexivity.
  - vm_compute. reflexivity.
Defined.
